(** * Squirli backend: trust-and-access services

    A shallow embedding of the TypeScript services that guard an account:

    - [TwoFactorService]      (TOTP codes, backup codes, enabling and
                               disabling),
    - [EncryptionService]     (hashing, and the format of a ciphertext),
    - [GeoLocationService]    (IP resolution with a cache, login anomalies),
    - [IPBlacklistService]    (in-memory mirror of the persisted blacklist),
    - [AuditService]          (security log, audit statistics, retention),
    - the blacklist middleware and [PasswordUtils.validatePasswordStrength].

    Conventions of the embedding.

    - JavaScript numbers that the code uses as integers are [Z]; the 32-bit
      operators ([&], [|], [<<], [>>], [>>>]) are written out with their
      wrap-around.  Risk scores and rates are rationals ([Q]).
    - Buffers are lists of bytes, a byte being a [Z] in [0, 256).
    - [Date.now()] is an input (milliseconds since the epoch); a [Date]
      object is a time value or the Invalid Date.
    - [Map] objects and database tables keyed by a unique column are
      [gmap string _].
    - A collaborator that can throw (Prisma, axios, the cipher) is an input
      of the model: either its result or the fact that it threw.  What the
      Node library functions compute is either implemented from its
      standard (SHA-1, HMAC) or taken as a section variable (PBKDF2, the
      AES-GCM decipher). *)

From Stdlib Require Import ZArith String Ascii List QArith DecimalString Bool Lia.
From Stdlib Require DecimalFacts DecimalPos DecimalZ.
From stdpp Require Import base option gmap strings list.

Local Open Scope Z_scope.

(** ** JavaScript primitives *)

Module JS.

(** ToUint32 and ToInt32 of an integral number. *)
Definition ToUint32 (z : Z) : Z := z mod 2 ^ 32.

Definition ToInt32 (z : Z) : Z :=
  let u := z mod 2 ^ 32 in
  if u <? 2 ^ 31 then u else u - 2 ^ 32.

(** [a & b], [a | b], [a << n], [a >> n], [a >>> n]. *)
Definition band (a b : Z) : Z := Z.land (ToInt32 a) (ToInt32 b).
Definition bor (a b : Z) : Z := Z.lor (ToInt32 a) (ToInt32 b).
Definition shl (a n : Z) : Z := ToInt32 (Z.shiftl (ToInt32 a) (ToUint32 n mod 32)).
Definition sar (a n : Z) : Z := Z.shiftr (ToInt32 a) (ToUint32 n mod 32).
Definition shr (a n : Z) : Z := Z.shiftr (ToUint32 a) (ToUint32 n mod 32).

(** [n.toString()] for an integral number. *)
Definition toString (n : Z) : string := NilZero.string_of_int (Z.to_int n).

(** [List.repeat] on characters, as a string. *)
Fixpoint replicate (n : nat) (c : ascii) : string :=
  match n with
  | O => EmptyString
  | S n' => String c (replicate n' c)
  end.

(** [s.padStart(len, c)] for a one-character filler. *)
Definition padStart (s : string) (len : nat) (c : ascii) : string :=
  replicate (len - String.length s) c ++ s.

(** [c.toUpperCase()] on an ASCII character. *)
Definition toUpperCase (c : ascii) : ascii :=
  let n := nat_of_ascii c in
  if (andb (97 <=? n) (n <=? 122))%nat then ascii_of_nat (n - 32) else c.

(** [s.indexOf(c)] for a one-character needle: [None] stands for -1. *)
Fixpoint indexOf (s : string) (c : ascii) : option Z :=
  match s with
  | EmptyString => None
  | String d s' =>
      if Ascii.eqb c d then Some 0
      else match indexOf s' c with
           | Some i => Some (i + 1)
           | None => None
           end
  end.

(** [s.startsWith(p)]; the anchored literal patterns of the code are
    prefix tests. *)
Fixpoint startsWith (p s : string) : bool :=
  match p, s with
  | EmptyString, _ => true
  | String a p', String b s' => Ascii.eqb a b && startsWith p' s'
  | String _ _, EmptyString => false
  end.

(** Truthiness of a string value that may be [undefined] or [null]. *)
Definition truthy (o : option string) : bool :=
  match o with
  | Some s => negb (String.eqb s "")
  | None => false
  end.

(** [o || d] on such a value. *)
Definition orElse (o : option string) (d : string) : string :=
  match o with
  | Some s => if String.eqb s "" then d else s
  | None => d
  end.

(** A number that a division may produce. *)
Inductive number : Type :=
| Num (q : Q)
| NaN
| Infinity (negative : bool).

(** [a / b] on integral numbers. *)
Definition divide (a b : Z) : number :=
  if b =? 0 then
    if a =? 0 then NaN else Infinity (a <? 0)
  else Num (inject_Z a / inject_Z b).

(** [x * k] for a positive integral [k]. *)
Definition times (x : number) (k : Z) : number :=
  match x with
  | Num q => Num (q * inject_Z k)
  | other => other
  end.

(** The outcome of a call that may throw. *)
Inductive outcome (A : Type) : Type :=
| Returned (a : A)
| Threw.
Arguments Returned {A} a.
Arguments Threw {A}.

(** The value of a call that resolves to an object or to null. *)
Definition valueOf {A : Type} (o : outcome (option A)) : option A :=
  match o with
  | Returned v => v
  | Threw => None
  end.

(** A [Date] object: a time value in milliseconds, or the Invalid Date.
    [new Date(t)] clips the time value. *)
Inductive date : Type :=
| Date (t : Z)
| InvalidDate.

Definition maxTime : Z := 8640000000000000.

Definition mkDate (t : Z) : date :=
  if Z.abs t <=? maxTime then Date t else InvalidDate.

(** [a < b] on two [Date] objects, compared through their time values; a
    comparison with the Invalid Date is false. *)
Definition dateLt (a b : date) : bool :=
  match a, b with
  | Date x, Date y => x <? y
  | _, _ => false
  end.

End JS.

Import JS.

(** ** Node's [crypto]: SHA-1 (FIPS 180-4) and HMAC (RFC 2104) *)

Module Crypto.

Definition mask32 (x : Z) : Z := x mod 2 ^ 32.

Definition rotl (n x : Z) : Z :=
  Z.lor (mask32 (Z.shiftl x n)) (Z.shiftr x (32 - n)).

Definition add32 (a b : Z) : Z := mask32 (a + b).

(** Big-endian encoding of [x] on [n] bytes. *)
Fixpoint be_bytes (n : nat) (x : Z) : list Z :=
  match n with
  | O => []
  | S n' => Z.shiftr x (8 * Z.of_nat n') mod 256 :: be_bytes n' x
  end.

Definition word_of (a b c d : Z) : Z :=
  Z.lor (Z.lor (Z.shiftl a 24) (Z.shiftl b 16)) (Z.lor (Z.shiftl c 8) d).

(** The 32-bit words of a byte string (whose length is a multiple of 4). *)
Fixpoint words_of (fuel : nat) (bs : list Z) : list Z :=
  match fuel, bs with
  | S f, a :: b :: c :: d :: rest => word_of a b c d :: words_of f rest
  | _, _ => []
  end.

(** The message followed by its padding: a bit 1, zeros, the bit length
    on 64 bits, up to a multiple of 64 bytes. *)
Definition pad (msg : list Z) : list Z :=
  let len := Z.of_nat (length msg) in
  let zeros := Z.to_nat ((55 - len) mod 64) in
  msg ++ 128 :: repeat 0 zeros ++ be_bytes 8 (8 * len).

(** The message schedule, most recent word first. *)
Fixpoint schedule (n : nat) (rw : list Z) : list Z :=
  match n with
  | O => rw
  | S n' =>
      let w := rotl 1 (Z.lxor (Z.lxor (nth 2 rw 0) (nth 7 rw 0))
                              (Z.lxor (nth 13 rw 0) (nth 15 rw 0))) in
      schedule n' (w :: rw)
  end.

Record state := St { ha : Z; hb : Z; hc : Z; hd : Z; he : Z }.

Definition f_t (t : nat) (b c d : Z) : Z :=
  if (t <? 20)%nat then Z.lor (Z.land b c) (Z.land (Z.lxor b (2 ^ 32 - 1)) d)
  else if (t <? 40)%nat then Z.lxor (Z.lxor b c) d
  else if (t <? 60)%nat then Z.lor (Z.lor (Z.land b c) (Z.land b d)) (Z.land c d)
  else Z.lxor (Z.lxor b c) d.

Definition k_t (t : nat) : Z :=
  if (t <? 20)%nat then 0x5A827999
  else if (t <? 40)%nat then 0x6ED9EBA1
  else if (t <? 60)%nat then 0x8F1BBCDC
  else 0xCA62C1D6.

Definition round (s : state) (tw : nat * Z) : state :=
  let (t, w) := tw in
  let tmp := add32 (add32 (add32 (rotl 5 (ha s)) (f_t t (hb s) (hc s) (hd s)))
                          (add32 (he s) w)) (k_t t) in
  St tmp (ha s) (rotl 30 (hb s)) (hc s) (hd s).

Definition compress (h : state) (block : list Z) : state :=
  let ws := rev (schedule 64 (rev (words_of 16 block))) in
  let s := fold_left round (combine (seq 0 80) ws) h in
  St (add32 (ha h) (ha s)) (add32 (hb h) (hb s)) (add32 (hc h) (hc s))
     (add32 (hd h) (hd s)) (add32 (he h) (he s)).

Fixpoint blocks (fuel : nat) (h : state) (bs : list Z) : state :=
  match fuel with
  | O => h
  | S f =>
      match bs with
      | [] => h
      | _ => blocks f (compress h (firstn 64 bs)) (skipn 64 bs)
      end
  end.

Definition sha1 (msg : list Z) : list Z :=
  let p := pad msg in
  let h := blocks (length p) (St 0x67452301 0xEFCDAB89 0x98BADCFE 0x10325476 0xC3D2E1F0) p in
  be_bytes 4 (ha h) ++ be_bytes 4 (hb h) ++ be_bytes 4 (hc h)
    ++ be_bytes 4 (hd h) ++ be_bytes 4 (he h).

(** [crypto.createHmac('sha1', key).update(msg).digest()]. *)
Definition hmac_sha1 (key msg : list Z) : list Z :=
  let k0 := if (64 <? length key)%nat then sha1 key else key in
  let k := k0 ++ repeat 0 (64 - length k0) in
  let ipad := map (fun b => Z.lxor b 0x36) k in
  let opad := map (fun b => Z.lxor b 0x5c) k in
  sha1 (opad ++ sha1 (ipad ++ msg)).

Definition bytes_of_string (s : string) : list Z :=
  map (fun c => Z.of_nat (nat_of_ascii c)) (list_ascii_of_string s).

Definition hex_digit (n : Z) : ascii :=
  if n <? 10 then ascii_of_nat (Z.to_nat (48 + n)) else ascii_of_nat (Z.to_nat (87 + n)).

(** [buf.toString('hex')]. *)
Fixpoint to_hex (bs : list Z) : string :=
  match bs with
  | [] => EmptyString
  | b :: rest => String (hex_digit (b / 16)) (String (hex_digit (b mod 16)) (to_hex rest))
  end.

End Crypto.

Import Crypto.

(** ** TwoFactorService: TOTP codes *)

Module TwoFactor.

Definition base32Chars : string := "ABCDEFGHIJKLMNOPQRSTUVWXYZ234567".

(** The loop state of [base32Decode]: [bits], [value] and the bytes pushed
    so far (in reverse). *)
Definition base32Step (st : Z * Z * list Z) (c : ascii) : Z * Z * list Z :=
  let '(bits, value, result) := st in
  match indexOf base32Chars (toUpperCase c) with
  | None => st
  | Some index =>
      let value := bor (shl value 5) index in
      let bits := bits + 5 in
      if 8 <=? bits
      then (bits - 8, value, band (shr value (bits - 8)) 255 :: result)
      else (bits, value, result)
  end.

Definition base32Decode (encoded : string) : list Z :=
  let '(_, _, result) :=
    fold_left base32Step (list_ascii_of_string encoded) (0, 0, []) in
  rev result.

(** The first loop of [generateTOTP]: [buffer[7 - i] = counter & 0xff;
    counter = counter >> 8] for [i] from 0 to 7, on [Buffer.alloc(8)]. *)
Definition counterStep (st : Z * list Z) (i : nat) : Z * list Z :=
  let (counter, buffer) := st in
  (sar counter 8, <[(7 - i)%nat := band counter 255]> buffer).

Definition counterBuffer (counter : Z) : list Z :=
  snd (fold_left counterStep (seq 0 8) (counter, repeat 0 8)).

(** [generateTOTP(secret, timeStep)] run when the clock shows [now].
    [Math.floor(now / 1000 / timeStep)] is the floor of the exact quotient
    (the clock is an integer number of milliseconds). *)
Definition generateTOTP (secret : string) (timeStep : Z) (now : Z) : string :=
  let counter := now / (1000 * timeStep) in
  let buffer := counterBuffer counter in
  let key := base32Decode secret in
  let hash := hmac_sha1 key buffer in
  let offset := band (nth (length hash - 1) hash 0) 15 in
  let at_ (k : Z) := nth (Z.to_nat (offset + k)) hash 0 in
  let code :=
    bor (bor (bor (shl (band (at_ 0) 127) 24)
                  (shl (band (at_ 1) 255) 16))
             (shl (band (at_ 2) 255) 8))
        (band (at_ 3) 255) in
  padStart (toString (Z.rem code 1000000)) 6 "0".

(** The loop of [verifyTOTP]: [n] iterations are left, [i] is the loop
    variable.  As in the source, the body calls [generateTOTP], which reads
    the clock itself, and uses neither [i] nor the [counter] computed before
    the loop.  The clock shows [now] at every read during one call. *)
Fixpoint verifyLoop (n : nat) (secret code : string) (timeStep i now : Z) : bool :=
  match n with
  | O => false
  | S n' =>
      let expectedCode := generateTOTP secret timeStep now in
      if String.eqb code expectedCode then true
      else verifyLoop n' secret code timeStep (i + 1) now
  end.

(** [verifyTOTP(secret, code, window)] at time [now]: [i] runs from
    [-window] to [window], that is [2 * window + 1] iterations (none when
    [window] is negative). *)
Definition verifyTOTP (secret code : string) (window : Z) (now : Z) : bool :=
  let timeStep := 30 in
  let counter := now / (1000 * timeStep) in
  verifyLoop (Z.to_nat (window - (- window) + 1)) secret code timeStep (- window) now.

(** What the specification asks of [verifyCode]: the code is the one of
    some step [counter + i] with [-window <= i <= window], each step's code
    being computed from that step's own counter. *)
Fixpoint windowAccepts (n : nat) (secret code : string) (i : Z) (now : Z) : bool :=
  match n with
  | O => false
  | S n' =>
      String.eqb code (generateTOTP secret 30 (now + i * 30000))
      || windowAccepts n' secret code (i + 1) now
  end.

Definition specVerifyCode (secret code : string) (window : Z) (now : Z) : bool :=
  windowAccepts (Z.to_nat (window - (- window) + 1)) secret code (- window) now.

End TwoFactor.

(** ** Effects: a state monad whose computations may throw

    An [async] method body is a computation over the state it shares with
    its collaborators; [await]ed calls run in sequence.  State written before
    a throw stays written. *)

Module Eff.

Definition M (S A : Type) : Type := S -> outcome A * S.

Definition ret {S A : Type} (a : A) : M S A := fun s => (Returned a, s).

Definition bind {S A B : Type} (m : M S A) (k : A -> M S B) : M S B :=
  fun s =>
    match m s with
    | (Returned a, s') => k a s'
    | (Threw, s') => (Threw, s')
    end.

Definition throw {S A : Type} : M S A := fun s => (Threw, s).

(** [try { m } catch (error) { handler }]. *)
Definition tryCatch {S A : Type} (m handler : M S A) : M S A :=
  fun s =>
    match m s with
    | (Returned a, s') => (Returned a, s')
    | (Threw, s') => handler s'
    end.

Definition gets {S A : Type} (f : S -> A) : M S A := fun s => (Returned (f s), s).

Definition modify {S : Type} (f : S -> S) : M S unit := fun s => (Returned tt, f s).

(** A collaborator's answer, known from outside the state. *)
Definition lift {S A : Type} (o : outcome A) : M S A := fun s => (o, s).

End Eff.

Import Eff.

Declare Scope eff_scope.
Delimit Scope eff_scope with eff.
Notation "x <- c1 ;; c2" := (bind c1 (fun x => c2))
  (at level 100, c1 at next level, right associativity) : eff_scope.
Notation "c1 ;; c2" := (bind c1 (fun _ => c2))
  (at level 100, right associativity) : eff_scope.

(** ** EncryptionService.verifyHash and TwoFactorService.verify2FACode *)

Module Backup.

Definition hexVal (c : ascii) : option Z :=
  let n := Z.of_nat (nat_of_ascii c) in
  if (48 <=? n) && (n <=? 57) then Some (n - 48)
  else if (97 <=? n) && (n <=? 102) then Some (n - 87)
  else if (65 <=? n) && (n <=? 70) then Some (n - 55)
  else None.

(** [Buffer.from(s, 'hex')]: pairs of hexadecimal digits, up to the first
    pair that is not one. *)
Fixpoint fromHex (s : string) : list Z :=
  match s with
  | String a (String b rest) =>
      match hexVal a, hexVal b with
      | Some x, Some y => (16 * x + y) :: fromHex rest
      | _, _ => []
      end
  | _ => []
  end.

Record User := mkUser {
  twoFactorEnabled : bool;
  twoFactorSecret : option string;
  twoFactorBackupCodes : list string
}.

Record VerifyResult := mkResult { success : bool; isBackupCode : bool }.

(** The calls that [verify2FACode] makes to its collaborators. *)
Inductive call : Type :=
| FindUnique (userId : string)
| Decrypt (encrypted : string)
| VerifyTOTP (secret code : string)
| VerifyHash (index : nat)
| Update (userId : string).

Record World := mkWorld {
  users : gmap string User;
  calls : list call
}.

(** What lies outside the program during one call: the clock, whether the
    store answers reads and writes, and the salt that
    [crypto.randomBytes(32).toString('hex')] yields at iteration [i]. *)
Record Env := mkEnv {
  clock : Z;
  readOk : bool;
  writeOk : bool;
  randomSalt : nat -> string
}.

(** [array.filter((_, index) => keep(index))]. *)
Fixpoint filterIndex {A : Type} (keep : nat -> bool) (index : nat) (l : list A) : list A :=
  match l with
  | [] => []
  | x :: rest =>
      if keep index then x :: filterIndex keep (S index) rest
      else filterIndex keep (S index) rest
  end.

Section WithCrypto.

(** [crypto.pbkdf2Sync(data, salt, 10000, 64, 'sha512').toString('hex')]. *)
Variable pbkdf2Hex : string -> string -> string.

(** [EncryptionService.decrypt], which throws on a malformed or
    unauthentic ciphertext. *)
Variable decrypt : string -> outcome string.

(** [EncryptionService.hash(data, salt)]: an empty salt is falsy, so a
    random one, [random], is drawn in its place. *)
Definition hash (data salt random : string) : string * string :=
  let useSalt := if String.eqb salt "" then random else salt in
  (pbkdf2Hex data useSalt, useSalt).

(** [EncryptionService.verifyHash(data, hash, salt)];
    [crypto.timingSafeEqual] throws on buffers of different lengths, and
    the [catch] turns that into [false]. *)
Definition verifyHash (data hashed salt random : string) : bool :=
  let computedHash := fst (hash data salt random) in
  let a := fromHex hashed in
  let b := fromHex computedHash in
  if (length a =? length b)%nat then bool_decide (a = b) else false.

Variable env : Env.

Definition record (c : call) : M World unit :=
  modify (fun w => mkWorld (users w) (calls w ++ [c])).

Definition findUnique (userId : string) : M World (option User) :=
  (record (FindUnique userId) ;;
   if readOk env then gets (fun w => users w !! userId) else throw)%eff.

Definition update (userId : string) (backupCodes : list string) : M World unit :=
  (record (Update userId) ;;
   if writeOk env then
     user <- gets (fun w => users w !! userId) ;;
     match user with
     | Some u =>
         modify (fun w =>
           mkWorld (<[userId := mkUser (twoFactorEnabled u) (twoFactorSecret u) backupCodes]> (users w))
                   (calls w))
     | None => throw
     end
   else throw)%eff.

Definition failed : VerifyResult := mkResult false false.

(** The [for] loop over the stored backup codes; [rest] are the entries
    from index [i] on. *)
Fixpoint backupLoop (userId code : string) (stored rest : list string) (i : nat)
  : M World VerifyResult :=
  match rest with
  | [] => ret failed
  | hashed :: rest' =>
      (record (VerifyHash i) ;;
       if verifyHash code hashed "" (randomSalt env i) then
         let updatedBackupCodes := filterIndex (fun index => negb (index =? i)%nat) 0 stored in
         update userId updatedBackupCodes ;;
         ret (mkResult true true)
       else backupLoop userId code stored rest' (S i))%eff
  end.

Definition verify2FACode (userId code : string) : M World VerifyResult :=
  tryCatch
    (user <- findUnique userId ;;
     match user with
     | None => ret failed
     | Some user =>
         if negb (twoFactorEnabled user) || negb (truthy (twoFactorSecret user))
         then ret failed
         else
           let encrypted := default "" (twoFactorSecret user) in
           record (Decrypt encrypted) ;;
           secret <- lift (decrypt encrypted) ;;
           record (VerifyTOTP secret code) ;;
           if TwoFactor.verifyTOTP secret code 1 (clock env)
           then ret (mkResult true false)
           else
             let stored := twoFactorBackupCodes user in
             if (0 <? length stored)%nat
             then backupLoop userId code stored stored 0
             else ret failed
     end)%eff
    (ret failed).

End WithCrypto.

End Backup.

(** Severity levels, shared by location anomalies and the security log. *)
Inductive Severity : Type := LOW | MEDIUM | HIGH | CRITICAL.

(** ** GeoLocationService *)

Module Geo.

Record GeoLocation := mkGeo {
  ip : string;
  country : string;
  countryCode : string;
  region : string;
  regionCode : string;
  city : string;
  zip : string;
  latitude : Q;
  longitude : Q;
  timezone : string;
  isp : string;
  org : string;
  as_ : string;
  proxy : bool;
  hosting : bool;
  vpn : bool;
  tor : bool
}.

Inductive AnomalyType : Type :=
| COUNTRY_CHANGE | REGION_CHANGE | CITY_CHANGE
| SUSPICIOUS_PROXY | UNUSUAL_TIME | HIGH_RISK_COUNTRY.

Record LocationAnomaly := mkAnomaly {
  type : AnomalyType;
  severity : Severity;
  description : string;
  currentLocation : GeoLocation;
  previousLocation : option GeoLocation;
  riskScore : Q
}.

Definition AnomalyType_eqb (a b : AnomalyType) : bool :=
  match a, b with
  | COUNTRY_CHANGE, COUNTRY_CHANGE | REGION_CHANGE, REGION_CHANGE
  | CITY_CHANGE, CITY_CHANGE | SUSPICIOUS_PROXY, SUSPICIOUS_PROXY
  | UNUSUAL_TIME, UNUSUAL_TIME | HIGH_RISK_COUNTRY, HIGH_RISK_COUNTRY => true
  | _, _ => false
  end.

(** [anomalies.some(a => a.type === ty)]. *)
Definition emits (ty : AnomalyType) (anomalies : list LocationAnomaly) : bool :=
  existsb (fun a => AnomalyType_eqb (type a) ty) anomalies.

(** The body of the provider's reply, [response.data]; a field that the
    reply lacks is [None]. *)
Record ApiData := mkApi {
  api_status : option string;
  api_message : option string;
  api_country : option string;
  api_countryCode : option string;
  api_region : option string;
  api_regionName : option string;
  api_city : option string;
  api_zip : option string;
  api_lat : option Q;
  api_lon : option Q;
  api_timezone : option string;
  api_isp : option string;
  api_org : option string;
  api_as : option string;
  api_proxy : option bool;
  api_hosting : option bool
}.

(** A row of [auditLog], as far as [detectAnomalies] reads it. *)
Record LoginRow := mkLogin { ipAddress : option string }.

(** What lies outside the program during one call: the clock, the local
    hour of the server, the provider's answer for an address (or the fact
    that [axios.get] threw: network error, timeout, a reply without a
    body), and the result of the query for a user's recent logins. *)
Record Env := mkEnv {
  clock : Z;
  localHour : Z;
  provider : string -> outcome ApiData;
  recentLogins : string -> outcome (list LoginRow)
}.

Definition CACHE_DURATION : Z := 24 * 60 * 60 * 1000.

Definition HIGH_RISK_COUNTRIES : list string := ["KP"; "IR"; "SY"; "CU"; "RU"].

Definition isDigitIn (lo hi : nat) (c : ascii) : bool :=
  let n := nat_of_ascii c in ((48 + lo <=? n) && (n <=? 48 + hi))%nat.

(** [/^172\.(1[6-9]|2[0-9]|3[0-1])\./]. *)
Definition isPrivate172 (s : string) : bool :=
  match s with
  | String "1" (String "7" (String "2" (String "." (String a (String b (String "." _)))))) =>
      (Ascii.eqb a "1" && isDigitIn 6 9 b)
      || (Ascii.eqb a "2" && isDigitIn 0 9 b)
      || (Ascii.eqb a "3" && isDigitIn 0 1 b)
  | _ => false
  end.

Definition isLocalIP (ip : string) : bool :=
  startsWith "127." ip
  || startsWith "10." ip
  || isPrivate172 ip
  || startsWith "192.168." ip
  || startsWith "169.254." ip
  || String.eqb ip "::1"
  || startsWith "fe80:" ip.

Definition getLocalLocation (ip : string) : GeoLocation :=
  mkGeo ip "Local" "LOCAL" "Local Network" "LOCAL" "Local" "" 0 0 "UTC"
        "Local Network" "Local Network" "Local" false false false false.

(** [x || 0] on a number that may be missing. *)
Definition numOrZero (o : option Q) : Q :=
  match o with
  | Some q => if Qeq_bool q 0 then 0%Q else q
  | None => 0%Q
  end.

Definition locationOf (ipAddress : string) (data : ApiData) : GeoLocation :=
  mkGeo ipAddress
        (orElse (api_country data) "Unknown")
        (orElse (api_countryCode data) "XX")
        (orElse (api_regionName data) "Unknown")
        (orElse (api_region data) "XX")
        (orElse (api_city data) "Unknown")
        (orElse (api_zip data) "")
        (numOrZero (api_lat data))
        (numOrZero (api_lon data))
        (orElse (api_timezone data) "UTC")
        (orElse (api_isp data) "Unknown")
        (orElse (api_org data) "Unknown")
        (orElse (api_as data) "Unknown")
        (default false (api_proxy data))
        (default false (api_hosting data))
        (default false (api_proxy data))
        false.

(** The cache: address to resolved location and insertion time. *)
Abbreviation Cache := (gmap string (GeoLocation * Z)).

Section WithEnv.

Variable env : Env.

Definition isFresh (cached : option (GeoLocation * Z)) : bool :=
  match cached with
  | Some (_, timestamp) => clock env - timestamp <? CACHE_DURATION
  | None => false
  end.

Definition getLocation (ipAddress : string) : M Cache (option GeoLocation) :=
  tryCatch
    (cached <- gets (fun cache : Cache => cache !! ipAddress) ;;
     if isFresh cached then ret (fst <$> cached)
     else if isLocalIP ipAddress then ret (Some (getLocalLocation ipAddress))
     else
       data <- lift (provider env ipAddress) ;;
       if bool_decide (api_status data = Some "success") then
         let location := locationOf ipAddress data in
         modify (fun cache : Cache => <[ipAddress := (location, clock env)]> cache) ;;
         ret (Some location)
       else ret None)%eff
    (ret None).

(** [Array.from(new Set(list))]: the distinct elements, in the order of
    their first occurrence. *)
Fixpoint distinctFrom (seen l : list string) : list string :=
  match l with
  | [] => []
  | x :: rest =>
      if bool_decide (x ∈ seen) then distinctFrom seen rest
      else x :: distinctFrom (x :: seen) rest
  end.

(** [list.map(login => login.ipAddress).filter(Boolean)]. *)
Definition truthyAddresses (logins : list LoginRow) : list string :=
  omap (fun login => if truthy (ipAddress login) then ipAddress login else None) logins.

(** [Promise.all(ips.map(ip => this.getLocation(ip)))].  The addresses are
    pairwise distinct, so the calls do not read each other's cache entries
    and running them one after the other gives the same results. *)
Fixpoint getLocations (ips : list string) : M Cache (list (option GeoLocation)) :=
  match ips with
  | [] => ret []
  | ip :: rest =>
      (location <- getLocation ip ;;
       locations <- getLocations rest ;;
       ret (location :: locations))%eff
  end.

(** The checks of [detectAnomalies] once the locations are known;
    [previous] is [previousLocations[0]]. *)
Definition countryChange (currentLocation : GeoLocation) (previous : option GeoLocation)
  : list LocationAnomaly :=
  let previousCountry := countryCode <$> previous in
  if truthy previousCountry
     && negb (String.eqb (default "" previousCountry) (countryCode currentLocation))
  then [mkAnomaly COUNTRY_CHANGE HIGH
          ("Login from different country: " ++ country currentLocation
             ++ " (" ++ countryCode currentLocation ++ ")")
          currentLocation previous (8 # 10)]
  else [].

Definition regionChange (currentLocation : GeoLocation) (previous : option GeoLocation)
  : list LocationAnomaly :=
  let previousRegion := regionCode <$> previous in
  if truthy previousRegion
     && negb (String.eqb (default "" previousRegion) (regionCode currentLocation))
  then [mkAnomaly REGION_CHANGE MEDIUM
          ("Login from different region: " ++ region currentLocation)
          currentLocation previous (6 # 10)]
  else [].

Definition suspiciousProxy (currentLocation : GeoLocation) : list LocationAnomaly :=
  if proxy currentLocation || vpn currentLocation
  then [mkAnomaly SUSPICIOUS_PROXY MEDIUM "Login from proxy/VPN detected"
          currentLocation None (7 # 10)]
  else [].

Definition highRiskCountry (currentLocation : GeoLocation) : list LocationAnomaly :=
  if bool_decide (countryCode currentLocation ∈ HIGH_RISK_COUNTRIES)
  then [mkAnomaly HIGH_RISK_COUNTRY CRITICAL
          ("Login from high-risk country: " ++ country currentLocation)
          currentLocation None (9 # 10)]
  else [].

Definition unusualTime (currentLocation : GeoLocation) (currentHour : Z)
  : list LocationAnomaly :=
  if (currentHour <? 6) || (23 <? currentHour)
  then [mkAnomaly UNUSUAL_TIME LOW
          ("Login at unusual hour: " ++ toString currentHour ++ ":00")
          currentLocation None (3 # 10)]
  else [].

Definition detectAnomalies (userId currentIP : string) : M Cache (list LocationAnomaly) :=
  tryCatch
    (currentLocation <- getLocation currentIP ;;
     match currentLocation with
     | None => ret []
     | Some currentLocation =>
         previousLogins <- lift (recentLogins env userId) ;;
         if (length previousLogins =? 0)%nat then ret []
         else
           let previousCountries := distinctFrom [] (truthyAddresses previousLogins) in
           previousLocations <- getLocations previousCountries ;;
           let previous := mjoin (previousLocations !! 0%nat) in
           ret (countryChange currentLocation previous
                  ++ regionChange currentLocation previous
                  ++ suspiciousProxy currentLocation
                  ++ highRiskCountry currentLocation
                  ++ unusualTime currentLocation (localHour env))
     end)%eff
    (ret []).

End WithEnv.

End Geo.

(** ** AuditService and IPBlacklistService *)

Module Audit.

(** An object of details, as the list of its properties in source order. *)
Definition Details : Type := list (string * string).

Record AuditLogRow := mkAuditRow {
  auditUserId : string;
  auditAction : string;
  auditResource : string;
  auditSuccess : bool;
  auditTimestamp : Z
}.

Record SecurityLogRow := mkSecurityRow {
  secUserId : option string;
  secAction : string;
  secDetails : option Details;
  secIpAddress : option string;
  secUserAgent : option string;
  secSeverity : Severity;
  secTimestamp : Z
}.

Inductive Source : Type := MANUAL | AUTOMATIC | SYSTEM.

(** A row of the persisted [iPBlacklist] table, keyed by its address. *)
Record BlacklistRow := mkRow {
  rowReason : string;
  rowExpiresAt : option date;
  rowSource : Source;
  rowDetails : option Details;
  rowCreatedAt : Z;
  rowUpdatedAt : Z
}.

(** An entry of [blacklistCache]. *)
Record CacheEntry := mkEntry {
  reason : string;
  expiresAt : option date
}.

Record World := mkWorld {
  auditLog : list AuditLogRow;
  securityLog : list SecurityLogRow;
  iPBlacklist : gmap string BlacklistRow;
  blacklistCache : gmap string CacheEntry
}.

(** What lies outside the program during one call: the clock, the date
    that [setDate(getDate() - days)] yields from it, and whether the store
    serves the log tables and the blacklist table (a call to a table that
    is not served throws). *)
Record Env := mkEnv {
  clock : Z;
  daysAgo : Z -> Z;
  logsOk : bool;
  blacklistOk : bool
}.

Record AuditStats := mkStats {
  totalActions : Z;
  failedActions : Z;
  securityEvents : Z;
  successRate : number
}.

Record SecurityEvent := mkEvent {
  evUserId : option string;
  evAction : string;
  evDetails : option Details;
  evIpAddress : option string;
  evUserAgent : option string;
  evSeverity : Severity
}.

Record BlacklistRequest := mkRequest {
  reqIpAddress : string;
  reqReason : string;
  reqDuration : option Z;
  reqSource : Source;
  reqDetails : option Details
}.

Record Suspicious := mkSuspicious {
  susIpAddress : string;
  susActivity : string;
  susCount : Z;
  susThreshold : Z;
  susDetails : option Details
}.

Definition setCache (f : gmap string CacheEntry -> gmap string CacheEntry) (w : World) : World :=
  mkWorld (auditLog w) (securityLog w) (iPBlacklist w) (f (blacklistCache w)).

Definition setTable (f : gmap string BlacklistRow -> gmap string BlacklistRow) (w : World) : World :=
  mkWorld (auditLog w) (securityLog w) (f (iPBlacklist w)) (blacklistCache w).

Definition setSecurityLog (f : list SecurityLogRow -> list SecurityLogRow) (w : World) : World :=
  mkWorld (auditLog w) (f (securityLog w)) (iPBlacklist w) (blacklistCache w).

Section WithEnv.

Variable env : Env.

(** *** AuditService *)

(** [prisma.securityLog.create]. *)
Definition createSecurityLog (row : SecurityLogRow) : M World unit :=
  if logsOk env then modify (setSecurityLog (fun l => l ++ [row])) else throw.

Definition logSecurityEvent (data : SecurityEvent) : M World unit :=
  tryCatch
    (createSecurityLog
       (mkSecurityRow (evUserId data) (evAction data) (evDetails data)
          (evIpAddress data) (evUserAgent data) (evSeverity data) (clock env)))
    (ret tt).

(** [prisma.auditLog.count] and [prisma.securityLog.count] with a filter. *)
Definition countWhere {Row : Type} (table : World -> list Row) (keep : Row -> bool) : M World Z :=
  if logsOk env then gets (fun w => Z.of_nat (length (List.filter keep (table w)))) else throw.

Definition getAuditStats (days : Z) : M World AuditStats :=
  let startDate := daysAgo env days in
  (totalActions <- countWhere auditLog (fun r => startDate <=? auditTimestamp r) ;;
   failedActions <- countWhere auditLog
     (fun r => (startDate <=? auditTimestamp r) && negb (auditSuccess r)) ;;
   securityEvents <- countWhere securityLog (fun r => startDate <=? secTimestamp r) ;;
   ret (mkStats totalActions failedActions securityEvents
          (if 0 <? totalActions
           then times (divide (totalActions - failedActions) totalActions) 100
           else Num 0)))%eff.

(** *** IPBlacklistService *)

Definition isBlacklisted (ipAddress : string) : M World bool :=
  (blacklistEntry <- gets (fun w => blacklistCache w !! ipAddress) ;;
   match blacklistEntry with
   | None => ret false
   | Some entry =>
       match expiresAt entry with
       | Some expiry =>
           if dateLt expiry (Date (clock env)) then
             modify (setCache (delete ipAddress)) ;;
             ret false
           else ret true
       | None => ret true
       end
   end)%eff.

Definition getBlacklistReason (ipAddress : string) : M World (option string) :=
  (blacklistEntry <- gets (fun w => blacklistCache w !! ipAddress) ;;
   ret (reason <$> blacklistEntry))%eff.

(** [prisma.iPBlacklist.upsert]. *)
Definition upsert (data : BlacklistRequest) (expiry : option date) : M World unit :=
  if blacklistOk env then
    modify (setTable (fun t =>
      let created := match t !! reqIpAddress data with
                     | Some old => rowCreatedAt old
                     | None => clock env
                     end in
      <[reqIpAddress data :=
          mkRow (reqReason data) expiry (reqSource data) (reqDetails data)
                created (clock env)]> t))
  else throw.

Definition expiryOf (duration : option Z) : option date :=
  match duration with
  | Some d => if d =? 0 then None else Some (mkDate (clock env + d * 60 * 1000))
  | None => None
  end.

Definition addToBlacklist (data : BlacklistRequest) : M World bool :=
  tryCatch
    (let expiry := expiryOf (reqDuration data) in
     upsert data expiry ;;
     modify (setCache (fun c => <[reqIpAddress data := mkEntry (reqReason data) expiry]> c)) ;;
     ret true)%eff
    (ret false).

(** [prisma.iPBlacklist.delete], which throws when there is no such row. *)
Definition deleteRow (ipAddress : string) : M World unit :=
  if blacklistOk env then
    (row <- gets (fun w => iPBlacklist w !! ipAddress) ;;
     match row with
     | Some _ => modify (setTable (delete ipAddress))
     | None => throw
     end)%eff
  else throw.

Definition removeFromBlacklist (ipAddress : string) : M World bool :=
  tryCatch
    (deleteRow ipAddress ;;
     modify (setCache (delete ipAddress)) ;;
     ret true)%eff
    (ret false).

Definition durationOf (activity : string) : Z :=
  if String.eqb activity "LOGIN_FAILED" then 30
  else if String.eqb activity "RATE_LIMIT_EXCEEDED" then 60
  else if String.eqb activity "UNAUTHORIZED_ACCESS" then 120
  else if String.eqb activity "FILE_UPLOAD_VIOLATION" then 240
  else 60.

Definition handleSuspiciousActivity (data : Suspicious) : M World unit :=
  if susThreshold data <=? susCount data then
    let reason :=
      ("Suspicious activity detected: " ++ susActivity data
         ++ " (" ++ toString (susCount data) ++ " attempts)")%string in
    let duration := durationOf (susActivity data) in
    (addToBlacklist
       (mkRequest (susIpAddress data) reason (Some duration) AUTOMATIC
          (Some ([("activity", susActivity data);
                  ("count", toString (susCount data));
                  ("threshold", toString (susThreshold data))]
                   ++ default [] (susDetails data)))) ;;
     logSecurityEvent
       (mkEvent None "SUSPICIOUS_ACTIVITY"
          (Some [("activity", susActivity data);
                 ("count", toString (susCount data));
                 ("threshold", toString (susThreshold data));
                 ("action", "IP_BLACKLISTED")])
          (Some (susIpAddress data)) None HIGH))%eff
  else ret tt.

End WithEnv.

End Audit.

(** ** Concrete scenarios *)

(** A concrete scenario: a stand-in for PBKDF2 that writes out its two
    arguments in hexadecimal, a decipher that yields a fixed secret, and a
    user with two stored backup-code hashes. *)
Module BackupScenario.

Import Backup.

Definition demoPbkdf2 (data salt : string) : string :=
  Crypto.to_hex (Crypto.bytes_of_string (data ++ salt)).

Definition demoDecrypt (encrypted : string) : outcome string :=
  Returned "JBSWY3DPEHPK3PXP"%string.

Definition alice : User :=
  mkUser true (Some "00:11:22"%string)
    [demoPbkdf2 "A1B2C3D4" "5a"; demoPbkdf2 "0F0F0F0F" "6b"].

Definition bob : User := mkUser false None [].

Definition world0 : World :=
  mkWorld (<["alice"%string := alice]> (<["bob"%string := bob]> ∅)) [].

Definition firstUse : Env := mkEnv 1700000000000 true true (fun _ => "5a"%string).
Definition secondUse : Env := mkEnv 1700000060000 true true (fun _ => "5a"%string).

End BackupScenario.

(** A concrete scenario, after the repository's own test of the country
    change: the current address resolves to California (US), the user's
    only earlier login came from an address that resolves to Ontario (CA),
    and a third address is one the provider cannot be reached for. *)
Module GeoScenario.

Import Geo.

Definition reply (countryName code regionName regionC cityName : string) : ApiData :=
  mkApi (Some "success"%string) None (Some countryName) (Some code) (Some regionC)
        (Some regionName) (Some cityName) None None None None None None None
        (Some false) (Some false).

Definition demoProvider (ipAddress : string) : outcome ApiData :=
  if String.eqb ipAddress "8.8.8.8" then
    Returned (reply "United States" "US" "California" "CA" "San Francisco")
  else if String.eqb ipAddress "1.1.1.1" then
    Returned (reply "Canada" "CA" "Ontario" "ON" "Toronto")
  else if String.eqb ipAddress "9.9.9.9" then
    Returned (mkApi (Some "fail"%string) (Some "reserved range"%string) None None None
                    None None None None None None None None None None None)
  else Threw.

Definition demoLogins (userId : string) : outcome (list LoginRow) :=
  if String.eqb userId "user-123" then Returned [mkLogin (Some "1.1.1.1"%string)]
  else Returned [].

Definition demoEnv : Env := mkEnv 1700000000000 12 demoProvider demoLogins.

Definition current : GeoLocation :=
  locationOf "8.8.8.8" (reply "United States" "US" "California" "CA" "San Francisco").

Definition earlier : GeoLocation :=
  locationOf "1.1.1.1" (reply "Canada" "CA" "Ontario" "ON" "Toronto").

(** The rule of the specification for REGION_CHANGE: the region code
    differs while the country code is the same. *)
Definition claimedRegionChange (currentLocation previous : GeoLocation) : bool :=
  negb (String.eqb (regionCode previous) (regionCode currentLocation))
  && String.eqb (countryCode previous) (countryCode currentLocation).

End GeoScenario.

(** A concrete scenario: four audited actions of which one failed, an empty
    blacklist, and a store that may or may not take writes to the blacklist
    table. *)
Module AuditScenario.

Import Audit.

Definition t0 : Z := 1700000000000.

Definition envAt (t : Z) (storeUp : bool) : Env :=
  mkEnv t (fun days => t - days * 86400000) true storeUp.

Definition world0 : World :=
  mkWorld
    [mkAuditRow "u1" "LOGIN" "AUTH" true (t0 - 4000);
     mkAuditRow "u1" "CREATE" "RECEIPT" true (t0 - 3000);
     mkAuditRow "u2" "LOGIN_FAILED" "AUTH" false (t0 - 2000);
     mkAuditRow "u2" "LOGIN" "AUTH" true (t0 - 1000)]
    [] ∅ ∅.

Definition address : string := "203.0.113.7".

Definition request : BlacklistRequest :=
  mkRequest address "manual block" (Some 10) MANUAL None.

(** The same request with a duration of 0 minutes. *)
Definition zeroRequest : BlacklistRequest :=
  mkRequest address "manual block" (Some 0) MANUAL None.

Definition failedLogins (count : Z) : Suspicious :=
  mkSuspicious address "LOGIN_FAILED" count 5 None.

(** A cache that still holds an entry which expired a second ago. *)
Definition staleWorld : World :=
  mkWorld [] [] ∅ (<[address := mkEntry "manual block" (Some (Date (t0 - 1000)))]> ∅).

End AuditScenario.

(** ** Further operations of the services

    The definitions below cover the functions of the same services that the
    sections above leave out, and what the statements about them need. *)

Module TotpAux.

(** The decimal digit [a] as a constructor of [Decimal.uint]. *)
Definition digitOf (a : Z) : Decimal.uint -> Decimal.uint :=
  match a with
  | 0 => Decimal.D0 | 1 => Decimal.D1 | 2 => Decimal.D2 | 3 => Decimal.D3
  | 4 => Decimal.D4 | 5 => Decimal.D5 | 6 => Decimal.D6 | 7 => Decimal.D7
  | 8 => Decimal.D8 | _ => Decimal.D9
  end.

(** The six decimal digits of [n], least significant first. *)
Definition sixDigits (n : Z) : Decimal.uint :=
  digitOf (n mod 10) (digitOf (n / 10 mod 10) (digitOf (n / 100 mod 10)
    (digitOf (n / 1000 mod 10) (digitOf (n / 10000 mod 10)
      (digitOf (n / 100000 mod 10) Decimal.Nil))))).

(** [/^[0-9]$/] on a character. *)
Definition isDigit (c : ascii) : bool :=
  let n := nat_of_ascii c in ((48 <=? n) && (n <=? 57))%nat.

(** [s.split('').every(p)]. *)
Fixpoint allChars (p : ascii -> bool) (s : string) : bool :=
  match s with
  | EmptyString => true
  | String c rest => p c && allChars p rest
  end.

End TotpAux.

Module Base32Aux.

(** The 5-bit values of the characters of [s] that belong to the base32
    alphabet (in either case), in order. *)
Definition quintets (s : string) : list Z :=
  omap (fun c => indexOf TwoFactor.base32Chars (toUpperCase c)) (list_ascii_of_string s).

(** The number that a list of digits writes in a base, most significant
    digit first. *)
Definition numOf (base : Z) (digits : list Z) : Z :=
  fold_left (fun acc d => acc * base + d) digits 0.

(** One step of the decoder on a character of the alphabet, whose 5-bit
    value is [index]. *)
Definition pushQuintet (st : Z * Z * list Z) (index : Z) : Z * Z * list Z :=
  let '(bits, value, result) := st in
  let value := bor (shl value 5) index in
  let bits := bits + 5 in
  if 8 <=? bits
  then (bits - 8, value, band (shr value (bits - 8)) 255 :: result)
  else (bits, value, result).

(** What the loop state stands for once the quintets read so far write the
    number [V] and are [n] in number: [bits] pending bits, an accumulator
    that agrees with [V] modulo 2^32, and the bytes of [V] without its
    pending bits. *)
Definition decoded (st : Z * Z * list Z) (V n : Z) : Prop :=
  let '(bits, value, result) := st in
  0 <= bits < 8
  /\ 5 * n = 8 * Z.of_nat (length result) + bits
  /\ ToUint32 value = V mod 2 ^ 32
  /\ 0 <= V
  /\ Forall (fun b => 0 <= b < 256) result
  /\ numOf 256 (rev result) = V / 2 ^ bits.

End Base32Aux.

(** *** TwoFactorService: backup codes, enabling and disabling *)

Module TwoFactorAdmin.

Import Backup.

(** [s.toUpperCase()] on an ASCII string. *)
Fixpoint upperCase (s : string) : string :=
  match s with
  | EmptyString => EmptyString
  | String c rest => String (toUpperCase c) (upperCase rest)
  end.

(** [generateBackupCodes(count)]; [randomBytes i size] are the bytes that
    the [i]-th call of [crypto.randomBytes(size)] yields. *)
Definition generateBackupCodes (randomBytes : nat -> nat -> list Z) (count : Z) : list string :=
  map (fun i => upperCase (to_hex (randomBytes i 4%nat))) (seq 0 (Z.to_nat count)).

(** [/[A-F0-9]/] on a character. *)
Definition isUpperHex (c : ascii) : bool :=
  let n := nat_of_ascii c in
  (((48 <=? n) && (n <=? 57)) || ((65 <=? n) && (n <=? 70)))%nat.

(** [validateBackupCode(code)]: [/^[A-F0-9]{8}$/]. *)
Definition validateBackupCode (code : string) : bool :=
  (String.length code =? 8)%nat && TotpAux.allChars isUpperHex code.

(** The [user] table with the two date columns that [enable2FA] and
    [disable2FA] write beside the columns of [Backup.User]; a user without
    an entry in a date column has null there. *)
Record World := mkWorld {
  base : Backup.World;
  twoFactorEnabledAt : gmap string Z;
  twoFactorDisabledAt : gmap string Z
}.

Section WithCrypto.

Variable pbkdf2Hex : string -> string -> string.

(** [EncryptionService.encrypt], which throws when the cipher does. *)
Variable encrypt : string -> outcome string.

Variable env : Env.

(** [backupCodes.map(code => EncryptionService.hash(code).hash)]: the call
    passes no salt, so the [j]-th code is hashed with the [j]-th salt drawn,
    and the salt is dropped. *)
Definition hashCodes (backupCodes : list string) : list string :=
  imap (fun j code => fst (hash pbkdf2Hex code "" (randomSalt env j))) backupCodes.

(** [prisma.user.update] of the two-factor columns of one user; it throws
    when there is no such user. *)
Definition updateTwoFactor (userId : string) (user : User)
    (enabledAt disabledAt : gmap string Z -> gmap string Z) : M World unit :=
  (modify (fun w => mkWorld (Backup.mkWorld (users (base w)) (calls (base w) ++ [Update userId]))
                            (twoFactorEnabledAt w) (twoFactorDisabledAt w)) ;;
   if writeOk env then
     old <- gets (fun w => users (base w) !! userId) ;;
     match old with
     | Some _ =>
         modify (fun w =>
           mkWorld (Backup.mkWorld (<[userId := user]> (users (base w))) (calls (base w)))
                   (enabledAt (twoFactorEnabledAt w))
                   (disabledAt (twoFactorDisabledAt w)))
     | None => throw
     end
   else throw)%eff.

Definition enable2FA (userId secret : string) (backupCodes : list string) : M World bool :=
  tryCatch
    (encryptedSecret <- lift (encrypt secret) ;;
     let hashedBackupCodes := hashCodes backupCodes in
     updateTwoFactor userId (mkUser true (Some encryptedSecret) hashedBackupCodes)
       (fun col => <[userId := clock env]> col) (fun col => col) ;;
     ret true)%eff
    (ret false).

Definition disable2FA (userId : string) : M World bool :=
  tryCatch
    (updateTwoFactor userId (mkUser false None [])
       (fun col => delete userId col) (fun col => <[userId := clock env]> col) ;;
     ret true)%eff
    (ret false).

(** [is2FAEnabled(userId)]: [user?.twoFactorEnabled || false]. *)
Definition is2FAEnabled (userId : string) : M Backup.World bool :=
  tryCatch
    (user <- findUnique env userId ;;
     ret (match user with
          | Some u => twoFactorEnabled u
          | None => false
          end))%eff
    (ret false).

(** [getRemainingBackupCodes(userId)]:
    [user?.twoFactorBackupCodes?.length || 0]. *)
Definition getRemainingBackupCodes (userId : string) : M Backup.World Z :=
  tryCatch
    (user <- findUnique env userId ;;
     ret (match user with
          | Some u => Z.of_nat (length (twoFactorBackupCodes u))
          | None => 0
          end))%eff
    (ret 0).

(** [regenerateBackupCodes(userId)]; [None] stands for null. *)
Definition regenerateBackupCodes (randomBytes : nat -> nat -> list Z) (userId : string)
  : M Backup.World (option (list string)) :=
  tryCatch
    (let newBackupCodes := generateBackupCodes randomBytes 10 in
     let hashedBackupCodes := hashCodes newBackupCodes in
     update env userId hashedBackupCodes ;;
     ret (Some newBackupCodes))%eff
    (ret None).

End WithCrypto.

End TwoFactorAdmin.

(** *** EncryptionService: the format of a ciphertext *)

Module Encryption.

(** [s.split(sep)] for a one-character separator: the pieces between the
    separators, at least one. *)
Fixpoint split (sep : ascii) (s : string) : list string :=
  match s with
  | EmptyString => [EmptyString]
  | String c rest =>
      if Ascii.eqb c sep then EmptyString :: split sep rest
      else match split sep rest with
           | piece :: pieces => String c piece :: pieces
           | [] => [String c EmptyString]
           end
  end.

(** [/^[0-9a-f]+$/i.test(part)]. *)
Definition isHexWord (part : string) : bool :=
  negb (String.eqb part "")
  && TotpAux.allChars (fun c => match Backup.hexVal c with Some _ => true | None => false end) part.

(** [isEncrypted(data)] on a string. *)
Definition isEncrypted (data : string) : bool :=
  if String.eqb data "" then false
  else
    let parts := split ":" data in
    (length parts =? 4)%nat && forallb isHexWord parts.

Section WithCipher.

(** [getEncryptionKey()], which throws on a malformed key in the
    environment. *)
Variable getEncryptionKey : outcome (list Z).

(** [createDecipheriv], [setAuthTag], [update] and [final] of an AES-256-GCM
    decipher on the initialisation vector, the tag, the ciphertext in
    hexadecimal and the key; it throws when the tag does not authenticate
    the ciphertext. *)
Variable decipher : list Z -> list Z -> string -> list Z -> outcome string.

(** [decrypt(encryptedData)]; every throw inside becomes the throw of
    ['Failed to decrypt data']. *)
Definition decrypt (encryptedData : string) : outcome string :=
  match getEncryptionKey with
  | Threw => Threw
  | Returned key =>
      match split ":" encryptedData with
      | [ivHex; tagHex; encrypted] =>
          decipher (Backup.fromHex ivHex) (Backup.fromHex tagHex) encrypted key
      | _ => Threw
      end
  end.

(** [crypto.randomBytes(16)], the initialisation vector of one call of
    [encrypt]. *)
Variable iv : list Z.

(** [createCipheriv], [update], [final] and [getAuthTag] of the cipher on the
    initialisation vector, the key and the clear text: the bytes of the
    ciphertext and of the tag; it throws when the cipher rejects its
    arguments. *)
Variable cipher : list Z -> list Z -> string -> outcome (list Z * list Z).

(** [encrypt(data)]: [iv:tag:ciphertext], each part in hexadecimal. *)
Definition encrypt (data : string) : outcome string :=
  match getEncryptionKey with
  | Threw => Threw
  | Returned key =>
      match cipher iv key data with
      | Threw => Threw
      | Returned (encrypted, tag) =>
          Returned (to_hex iv ++ ":" ++ to_hex tag ++ ":" ++ to_hex encrypted)%string
      end
  end.

End WithCipher.

End Encryption.

(** *** GeoLocationService: the cache *)

Module GeoCache.

Import Geo.

(** [clearCache()]. *)
Definition clearCache : M Cache unit := modify (fun _ : Cache => ∅).

(** What [getLocation] keeps true of the cache: an entry sits under the
    address that its location names, and no local address has an entry. *)
Definition wellFormed (cache : Cache) : Prop :=
  forall key location timestamp,
    cache !! key = Some (location, timestamp) ->
    ip location = key /\ isLocalIP key = false.

End GeoCache.
(** *** AuditService and IPBlacklistService: maintenance and statistics *)

Module AuditAdmin.

Import Audit.

Record BlacklistStats := mkBlacklistStats {
  total : Z;
  permanent : Z;
  temporary : Z;
  recent24h : Z;
  cacheSize : Z
}.

Record Cleanup := mkCleanup {
  auditLogsDeleted : Z;
  securityLogsDeleted : Z
}.

Definition setAuditLog (f : list AuditLogRow -> list AuditLogRow) (w : World) : World :=
  mkWorld (f (auditLog w)) (securityLog w) (iPBlacklist w) (blacklistCache w).

(** [expiresAt && expiresAt < now] on a cache entry, and the filter
    [{ expiresAt: { lt: now } }] on the nullable column: null never
    matches. *)
Definition expiredAt (now : Z) (expiry : option date) : bool :=
  match expiry with
  | Some e => dateLt e (Date now)
  | None => false
  end.

(** The filter [{ OR: [{ expiresAt: null }, { expiresAt: { gt: now } }] }]. *)
Definition liveAt (now : Z) (expiry : option date) : bool :=
  match expiry with
  | Some e => dateLt (Date now) e
  | None => true
  end.

Definition isNull {A : Type} (o : option A) : bool :=
  match o with
  | Some _ => false
  | None => true
  end.

Section WithEnv.

Variable env : Env.

(** [prisma.iPBlacklist.findMany] with a filter on the rows. *)
Definition findMany (keep : BlacklistRow -> bool) : M World (gmap string BlacklistRow) :=
  if blacklistOk env then
    gets (fun w => filter (fun kv => keep kv.2 = true) (iPBlacklist w))
  else throw.

(** [blacklistCache.clear()] followed by one [set] per row found; the rows
    have pairwise distinct addresses. *)
Definition initializeCache : M World unit :=
  tryCatch
    (blacklistedIPs <- findMany (fun row => liveAt (clock env) (rowExpiresAt row)) ;;
     modify (setCache (fun _ => ∅)) ;;
     modify (setCache (fun c =>
       ((fun row => mkEntry (rowReason row) (rowExpiresAt row)) <$> blacklistedIPs) ∪ c)))%eff
    (ret tt).

(** [prisma.iPBlacklist.count] with a filter on the rows. *)
Definition countRows (keep : BlacklistRow -> bool) : M World Z :=
  if blacklistOk env then
    gets (fun w => Z.of_nat (size (filter (fun kv => keep kv.2 = true) (iPBlacklist w))))
  else throw.

Definition getBlacklistStats : M World (option BlacklistStats) :=
  tryCatch
    (total <- countRows (fun _ => true) ;;
     permanent <- countRows (fun row => isNull (rowExpiresAt row)) ;;
     temporary <- countRows (fun row => negb (isNull (rowExpiresAt row))) ;;
     recent <- countRows (fun row => clock env - 24 * 60 * 60 * 1000 <=? rowCreatedAt row) ;;
     cacheSize <- gets (fun w => Z.of_nat (size (blacklistCache w))) ;;
     ret (Some (mkBlacklistStats total permanent temporary recent cacheSize)))%eff
    (ret None).

(** [prisma.iPBlacklist.deleteMany] with a filter on the rows; the result
    is the number of rows deleted. *)
Definition deleteManyRows (drop : BlacklistRow -> bool) : M World Z :=
  if blacklistOk env then
    (count <- gets (fun w =>
       Z.of_nat (size (filter (fun kv => drop kv.2 = true) (iPBlacklist w)))) ;;
     modify (setTable (filter (fun kv => drop kv.2 = false))) ;;
     ret count)%eff
  else throw.

Definition cleanupExpiredEntries : M World Z :=
  tryCatch
    (count <- deleteManyRows (fun row => expiredAt (clock env) (rowExpiresAt row)) ;;
     modify (setCache (filter (fun kv => expiredAt (clock env) (expiresAt kv.2) = false))) ;;
     ret count)%eff
    (ret 0).

(** [deleteMany({ where: { timestamp: { lt: cutoffDate } } })] on one of
    the two log tables. *)
Definition deleteManyBefore {Row : Type} (table : World -> list Row)
           (setRows : (list Row -> list Row) -> World -> World)
           (timestamp : Row -> Z) (cutoffDate : Z) : M World Z :=
  if logsOk env then
    (count <- gets (fun w =>
       Z.of_nat (length (List.filter (fun r => timestamp r <? cutoffDate) (table w)))) ;;
     modify (setRows (List.filter (fun r => negb (timestamp r <? cutoffDate)))) ;;
     ret count)%eff
  else throw.

Definition cleanupOldLogs : M World Cleanup :=
  let cutoffDate := daysAgo env 90 in
  (auditDeleted <- deleteManyBefore auditLog setAuditLog auditTimestamp cutoffDate ;;
   securityDeleted <- deleteManyBefore securityLog setSecurityLog secTimestamp cutoffDate ;;
   ret (mkCleanup auditDeleted securityDeleted))%eff.

End WithEnv.

(** What the operations of the blacklist keep true: every cached entry has
    a row in the table with the same reason and expiry. *)
Definition mirrors (w : World) : Prop :=
  forall ipAddress entry,
    blacklistCache w !! ipAddress = Some entry ->
    exists row, iPBlacklist w !! ipAddress = Some row
                /\ rowReason row = reason entry
                /\ rowExpiresAt row = expiresAt entry.

End AuditAdmin.
(** *** The blacklist middleware *)

Module Middleware.

Import Audit.

(** The value of a request header: one string, or an array of strings
    (read at index 0 only, so the array is given by its first element and
    the rest). *)
Inductive HeaderValue : Type :=
| One (value : string)
| Many (first : string) (rest : list string).

(** What the middleware reads of the request: three headers, the remote
    address of the connection and of the socket, the path and the method. *)
Record Request := mkHttp {
  xForwardedFor : option HeaderValue;
  xRealIp : option HeaderValue;
  userAgent : option string;
  connectionRemoteAddress : option string;
  socketRemoteAddress : option string;
  path : string;
  method : string
}.

(** What the middleware does with the response: it sends a JSON body with
    a status, or it stores the client address on the request and calls
    [next()]. *)
Inductive Reply : Type :=
| Json (status : Z) (body : list (string * string))
| Next (clientIP : string).

(** Truthiness of a header value: an array is truthy. *)
Definition present (h : option HeaderValue) : bool :=
  match h with
  | Some (One value) => negb (String.eqb value "")
  | Some (Many _ _) => true
  | None => false
  end.

(** [Array.isArray(h) ? h[0] : h]. *)
Definition firstValue (h : HeaderValue) : string :=
  match h with
  | One value => value
  | Many first _ => first
  end.

(** [s.split(',')[0]]. *)
Fixpoint beforeComma (s : string) : string :=
  match s with
  | EmptyString => EmptyString
  | String c s' => if Ascii.eqb c "," then EmptyString else String c (beforeComma s')
  end.

(** The ASCII characters that [trim] removes: tab, line feed, vertical
    tab, form feed, carriage return and space. *)
Definition isSpace (c : ascii) : bool :=
  let n := nat_of_ascii c in ((9 <=? n) && (n <=? 13) || (n =? 32))%nat.

Fixpoint trimStart (s : string) : string :=
  match s with
  | EmptyString => EmptyString
  | String c s' => if isSpace c then trimStart s' else s
  end.

Fixpoint trimEnd (s : string) : string :=
  match s with
  | EmptyString => EmptyString
  | String c s' =>
      match trimEnd s' with
      | EmptyString => if isSpace c then EmptyString else String c EmptyString
      | rest => String c rest
      end
  end.

Definition trim (s : string) : string := trimEnd (trimStart s).

(** [s.includes(needle)]. *)
Fixpoint includes (needle s : string) : bool :=
  startsWith needle s
  || match s with
     | EmptyString => false
     | String _ s' => includes needle s'
     end.

Definition getClientIP (req : Request) : string :=
  if present (xForwardedFor req) then
    match xForwardedFor req with
    | Some forwardedFor => trim (beforeComma (firstValue forwardedFor))
    | None => ""
    end
  else if present (xRealIp req) then
    match xRealIp req with
    | Some realIP => firstValue realIP
    | None => ""
    end
  else
    orElse (connectionRemoteAddress req) (orElse (socketRemoteAddress req) "unknown").

(** An object literal on its way to a JSON column or body: a property
    whose value is [undefined] is not written. *)
Definition property (key : string) (value : option string) : Details :=
  match value with
  | Some v => [(key, v)]
  | None => []
  end.

Section WithEnv.

Variable env : Env.

Definition checkIPBlacklist (req : Request) : M World Reply :=
  let clientIP := getClientIP req in
  if String.eqb clientIP "unknown" then
    ret (Json 400 [("error", "Unable to determine client IP address")])
  else
    (blocked <- isBlacklisted env clientIP ;;
     if blocked then
       reason <- getBlacklistReason clientIP ;;
       logSecurityEvent env
         (mkEvent None "UNAUTHORIZED_ACCESS"
            (Some ([("reason", orElse reason "IP blacklisted")]
                     ++ property "userAgent" (userAgent req)
                     ++ [("path", path req); ("method", method req)]))
            (Some clientIP) None MEDIUM) ;;
       ret (Json 403
              [("error", "Access denied");
               ("message", "Your IP address has been blocked due to suspicious activity");
               ("reason", orElse reason "IP blacklisted")])
     else ret (Next clientIP))%eff.

(** The code that the replaced [res.send] runs before the original one;
    [statusCode] is the status of the response at that moment. *)
Definition loginSend (req : Request) (clientIP : string) (statusCode : Z) : M World unit :=
  if (statusCode =? 401) || (statusCode =? 400) then
    handleSuspiciousActivity env
      (mkSuspicious clientIP "LOGIN_FAILED" 1 5
         (Some ([("path", path req)] ++ property "userAgent" (userAgent req))))
  else ret tt.

(** [trackSuspiciousActivity]: the result is the code it has put in front
    of [res.send], if any; [statusCode] is the status of the response when
    the middleware runs. *)
Definition trackSuspiciousActivity (req : Request) (statusCode : Z)
  : M World (option (Z -> M World unit)) :=
  let clientIP := getClientIP req in
  let installed :=
    if includes "/auth/login" (path req) && String.eqb (method req) "POST"
    then Some (loginSend req clientIP)
    else None in
  ((if statusCode =? 429 then
      handleSuspiciousActivity env
        (mkSuspicious clientIP "RATE_LIMIT_EXCEEDED" 1 3
           (Some ([("path", path req); ("method", method req)]
                    ++ property "userAgent" (userAgent req))))
    else ret tt) ;;
   ret installed)%eff.

End WithEnv.

End Middleware.
(** *** PasswordUtils: the strength of a password *)

Module PasswordUtils.

Record Requirements := mkRequirements {
  minLength : bool;
  hasUppercase : bool;
  hasLowercase : bool;
  hasNumber : bool;
  hasSpecialChar : bool
}.

Record PasswordStrength := mkStrength {
  score : Z;
  warning : option string;
  suggestions : list string;
  isValid : bool;
  requirements : Requirements
}.

(** [/[class]/.test(s)] for a class of ASCII characters. *)
Fixpoint someChar (p : ascii -> bool) (s : string) : bool :=
  match s with
  | EmptyString => false
  | String c rest => p c || someChar p rest
  end.

Definition inRange (lo hi : nat) (c : ascii) : bool :=
  let n := nat_of_ascii c in ((lo <=? n) && (n <=? hi))%nat.

(** The class of special characters of the code, by character code: the
    exclamation mark, the at sign, the hash, dollar, percent, caret,
    ampersand, asterisk, both parentheses, underscore, plus, minus, equals,
    both brackets, both braces, semicolon, apostrophe, colon, double quote,
    backslash, bar, comma, full stop, both angle brackets, slash and
    question mark. *)
Definition specialChars : list nat :=
  [33; 64; 35; 36; 37; 94; 38; 42; 40; 41; 95; 43; 45; 61; 91; 93; 123; 125; 59; 39; 58;
   34; 92; 124; 44; 46; 60; 62; 47; 63]%nat.

Definition isSpecialChar (c : ascii) : bool :=
  existsb (Nat.eqb (nat_of_ascii c)) specialChars.

(** [Object.values(requirements)], in the order of the properties. *)
Definition values (r : Requirements) : list bool :=
  [minLength r; hasUppercase r; hasLowercase r; hasNumber r; hasSpecialChar r].

(** [if (!met) suggestions.push(text)]. *)
Definition unless (met : bool) (text : string) : list string :=
  if met then [] else [text].

Definition validatePasswordStrength (password : string) : PasswordStrength :=
  let requirements :=
    mkRequirements (8 <=? String.length password)%nat
                   (someChar (inRange 65 90) password)
                   (someChar (inRange 97 122) password)
                   (someChar (inRange 48 57) password)
                   (someChar isSpecialChar password) in
  let passedRequirements := Z.of_nat (length (List.filter id (values requirements))) in
  let score := Z.min passedRequirements 4 in
  let suggestions :=
    unless (minLength requirements) "Use at least 8 characters"
    ++ unless (hasUppercase requirements) "Add uppercase letters"
    ++ unless (hasLowercase requirements) "Add lowercase letters"
    ++ unless (hasNumber requirements) "Add numbers"
    ++ unless (hasSpecialChar requirements) "Add special characters" in
  let warning :=
    if score <? 2 then Some "Password is too weak"%string
    else if score <? 3 then Some "Password could be stronger"%string
    else None in
  mkStrength score warning suggestions (3 <=? score) requirements.

End PasswordUtils.
(** ** Further concrete scenarios *)

(** A random source that yields the byte [37 * i mod 256] throughout its
    [i]-th buffer, and the table of [BackupScenario] with the date at which
    alice enabled two-factor authentication. *)
Module AdminScenario.

Definition demoBytes (i size : nat) : list Z :=
  repeat (Z.of_nat (37 * i) mod 256) size.

Definition world : TwoFactorAdmin.World :=
  TwoFactorAdmin.mkWorld BackupScenario.world0 (<["alice"%string := 1690000000000]> ∅) ∅.

End AdminScenario.

(** A stand-in for the cipher: the ciphertext is the clear text with every
    byte xor-ed with 90, the tag is the first 16 bytes of the key argument;
    the decipher checks the tag and undoes the xor. *)
Module CipherScenario.

Definition demoKey : list Z := repeat 7 32.



Definition demoDecipher (iv tag : list Z) (encrypted : string) (key : list Z)
  : outcome string :=
  if bool_decide (tag = firstn 16 key) then
    Returned (string_of_list_ascii
                (map (fun b => ascii_of_nat (Z.to_nat (Z.lxor b 90)))
                     (Backup.fromHex encrypted)))
  else Threw.

End CipherScenario.

(** A provider that answers for one address with a proxy in a high-risk
    country, at four in the morning, for a user with one earlier login. *)
Module ProxyScenario.

Import Geo.

Definition proxyReply : ApiData :=
  mkApi (Some "success"%string) None (Some "Russia"%string) (Some "RU"%string)
        (Some "MOW"%string) (Some "Moscow"%string) (Some "Moscow"%string)
        None None None None None None None (Some true) (Some false).

Definition demoProvider (ipAddress : string) : outcome ApiData :=
  if String.eqb ipAddress "5.5.5.5" then Returned proxyReply
  else GeoScenario.demoProvider ipAddress.

Definition nightEnv : Env := mkEnv 1700000000000 4 demoProvider GeoScenario.demoLogins.

Definition current : GeoLocation := locationOf "5.5.5.5" proxyReply.

(** The same provider a day and a millisecond later, when it is down. *)
Definition downEnv (t : Z) : Env := mkEnv t 4 (fun _ => Threw) GeoScenario.demoLogins.

End ProxyScenario.

(** A blacklist table with a permanent row, a row that expired a second
    ago and a row that expires in a minute, mirrored in the cache. *)
Module TableScenario.

Import Audit.

Definition t0 : Z := AuditScenario.t0.

Definition row (why : string) (expiry : option date) : BlacklistRow :=
  mkRow why expiry MANUAL None (t0 - 5000) (t0 - 5000).

Definition table : gmap string BlacklistRow :=
  <["198.51.100.1"%string := row "abuse" None]>
    (<["198.51.100.2"%string := row "scan" (Some (Date (t0 - 1000)))]>
       (<["198.51.100.3"%string := row "flood" (Some (Date (t0 + 60000)))]> ∅)).

Definition cache : gmap string CacheEntry :=
  (fun r => mkEntry (rowReason r) (rowExpiresAt r)) <$> table.

Definition world : World := mkWorld [] [] table cache.

(** The same table before the process has loaded its cache. *)
Definition coldWorld : World := mkWorld [] [] table ∅.

(** Log tables with one row from 100 days ago and one from yesterday. *)
Definition logWorld : World :=
  mkWorld
    [mkAuditRow "u1" "LOGIN" "AUTH" true (t0 - 100 * 86400000);
     mkAuditRow "u1" "LOGIN_FAILED" "AUTH" false (t0 - 86400000)]
    [mkSecurityRow None "SUSPICIOUS_ACTIVITY" None None None HIGH (t0 - 100 * 86400000)]
    ∅ ∅.

End TableScenario.

(** A request that arrives from a blocked address and names another one in
    its X-Forwarded-For header. *)
Module MiddlewareScenario.

Import Audit Middleware.


Definition direct : Request :=
  mkHttp None None (Some "curl/8.0"%string) (Some AuditScenario.address) None
         "/api/receipts" "GET".

(** The state after [AuditScenario.address] has been blocked for ten
    minutes. *)
Definition blockedWorld : World :=
  snd (addToBlacklist (AuditScenario.envAt AuditScenario.t0 true) AuditScenario.request
         AuditScenario.world0).

End MiddlewareScenario.
(** * Properties *)

(** ** TOTP verification *)

Section TotpFacts.

Import TwoFactor.

(** The hash functions agree with the published test vectors (FIPS 180,
    RFC 2202), and the generator with the ten codes of RFC 4226, appendix D,
    for the secret 12345678901234567890 (counters 0 to 9). *)
Example sha1_abc :
  to_hex (sha1 (bytes_of_string "abc")) = "a9993e364706816aba3e25717850c26c9cd0d89d"%string.
Proof. vm_compute. reflexivity. Qed.

Example hmac_sha1_jefe :
  to_hex (hmac_sha1 (bytes_of_string "Jefe") (bytes_of_string "what do ya want for nothing?"))
  = "effcdf6ae5eb2fa2d27416d5f184df9c259a7c79"%string.
Proof. vm_compute. reflexivity. Qed.

Example generateTOTP_rfc4226 :
  map (fun k => generateTOTP "GEZDGNBVGY3TQOJQGEZDGNBVGY3TQOJQ" 30 (k * 30000))
      [0; 1; 2; 3; 4; 5; 6; 7; 8; 9]
  = ["755224"; "287082"; "359152"; "969429"; "338314";
     "254676"; "287922"; "162583"; "399871"; "520489"]%string.
Proof. vm_compute. reflexivity. Qed.

(** The loop of [verifyTOTP] compares the submitted code with one and the
    same expected code, whatever the loop variable is. *)
Lemma verifyLoop_unfold (n : nat) (secret code : string) (timeStep i now : Z) :
  verifyLoop n secret code timeStep i now
  = negb (Nat.eqb n 0) && String.eqb code (generateTOTP secret timeStep now).
Proof.
  revert i. induction n as [|n IH]; intros i; cbn [verifyLoop Nat.eqb negb andb];
    [reflexivity|].
  destruct (String.eqb code (generateTOTP secret timeStep now)) eqn:E; [reflexivity|].
  rewrite IH. apply andb_false_r.
Qed.

(** Hence the window only decides whether the loop body runs at all. *)
Lemma verifyTOTP_ignores_window (secret code : string) (window now : Z) :
  verifyTOTP secret code window now
  = (0 <=? window) && String.eqb code (generateTOTP secret 30 now).
Proof.
  unfold verifyTOTP. cbv zeta. rewrite verifyLoop_unfold. f_equal.
  destruct (Z.leb_spec 0 window) as [H|H].
  - destruct (Z.to_nat (window - - window + 1)) eqn:E; [lia|reflexivity].
  - replace (Z.to_nat (window - - window + 1)) with 0%nat by lia. reflexivity.
Qed.

(** The specified check accepts exactly the codes of the steps
    [counter - window .. counter + window]. *)
Lemma windowAccepts_iff (n : nat) (secret code : string) (i now : Z) :
  windowAccepts n secret code i now = true
  <-> exists k, i <= k < i + Z.of_nat n /\ code = generateTOTP secret 30 (now + k * 30000).
Proof.
  revert i. induction n as [|n IH]; intros i; cbn [windowAccepts].
  - split; [discriminate|]. intros (k & Hk & _). lia.
  - rewrite orb_true_iff, String.eqb_eq, IH. split.
    + intros [H|(k & Hk & H)]; [exists i|exists k]; split; auto; lia.
    + intros (k & Hk & H). destruct (Z.eq_dec k i) as [->|Hne]; [left; exact H|].
      right. exists k. split; [lia|exact H].
Qed.

Lemma specVerifyCode_iff (secret code : string) (window now : Z) :
  specVerifyCode secret code window now = true
  <-> exists k, - window <= k <= window /\ code = generateTOTP secret 30 (now + k * 30000).
Proof.
  unfold specVerifyCode. rewrite windowAccepts_iff.
  split; intros (k & Hk & H); exists k; (split; [lia|exact H]).
Qed.

(** The step counter of a time [k] steps away is the current one plus [k]. *)
Lemma counter_shift (now k : Z) :
  (now + k * 30000) / (1000 * 30) = now / (1000 * 30) + k.
Proof.
  change (1000 * 30) with 30000. apply Z.div_add. discriminate.
Qed.

(** C2: at one and the same instant, the code that [generateTOTP] produces
    for a secret passes [verifyTOTP] for that secret (default window 1). *)
Theorem verifyTOTP_accepts_generated (secret : string) (now : Z) :
  verifyTOTP secret (generateTOTP secret 30 now) 1 now = true.
Proof.
  rewrite verifyTOTP_ignores_window. apply String.eqb_refl.
Qed.

(** Any step of the window whose code differs from the current one is a
    step that the specified check accepts and that [verifyTOTP] rejects. *)
Lemma verifyTOTP_misses_other_steps (secret : string) (window now k : Z) :
  - window <= k <= window ->
  generateTOTP secret 30 (now + k * 30000) <> generateTOTP secret 30 now ->
  specVerifyCode secret (generateTOTP secret 30 (now + k * 30000)) window now = true
  /\ verifyTOTP secret (generateTOTP secret 30 (now + k * 30000)) window now = false.
Proof.
  intros Hk Hne. split.
  - apply specVerifyCode_iff. exists k. split; [exact Hk|reflexivity].
  - rewrite verifyTOTP_ignores_window.
    destruct (String.eqb_spec (generateTOTP secret 30 (now + k * 30000))
                              (generateTOTP secret 30 now)) as [E|_];
      [contradiction|apply andb_false_r].
Qed.

(** C1 (the code departs from it): with window 1, the code of the previous
    time step is one that the specified check accepts, and [verifyTOTP]
    rejects it, because every iteration recomputes the code of the current
    step.  Secret JBSWY3DPEHPK3PXP, clock 1700000000000 ms: the current code
    is 324550, the previous step's code is 822542. *)
Theorem verifyTOTP_rejects_previous_step :
  let secret := "JBSWY3DPEHPK3PXP"%string in
  let now := 1700000000000 in
  let code := generateTOTP secret 30 (now - 30000) in
  code = "822542"%string
  /\ generateTOTP secret 30 now = "324550"%string
  /\ specVerifyCode secret code 1 now = true
  /\ verifyTOTP secret code 1 now = false.
Proof.
  vm_compute. repeat split.
Qed.

End TotpFacts.

(** ** Two-factor verification and backup codes *)

Section BackupFacts.

Import Backup.

Variable pbkdf2Hex : string -> string -> string.
Variable decrypt : string -> outcome string.

Lemma filterIndex_above {A : Type} (l : list A) (m k : nat) :
  (k < m)%nat -> filterIndex (fun index => negb (index =? k)%nat) m l = l.
Proof.
  revert m. induction l as [|x l IH]; intros m Hlt; [reflexivity|].
  cbn [filterIndex]. destruct (Nat.eqb_spec m k) as [->|_]; [lia|].
  cbn [negb]. f_equal. apply IH. lia.
Qed.

(** Filtering out one index is list deletion. *)
Lemma filterIndex_delete {A : Type} (l : list A) (i k : nat) :
  filterIndex (fun index => negb (index =? k + i)%nat) k l = delete i l.
Proof.
  revert i k. induction l as [|x l IH]; intros i k; [reflexivity|].
  cbn [filterIndex]. destruct i as [|i].
  - rewrite Nat.add_0_r, Nat.eqb_refl. cbn [negb].
    apply filterIndex_above. lia.
  - destruct (Nat.eqb_spec k (k + S i)) as [E|_]; [lia|].
    cbn [negb]. replace (k + S i)%nat with (S k + i)%nat by lia.
    rewrite IH. reflexivity.
Qed.

Abbreviation run env := (verify2FACode pbkdf2Hex decrypt env).

(** Whatever happens inside, [verify2FACode] returns: the [catch] turns a
    throw into a plain failure. *)
Lemma verify2FACode_returns (env : Env) (w : World) (userId code : string) :
  exists result w', run env userId code w = (Returned result, w').
Proof.
  unfold verify2FACode, tryCatch.
  match goal with |- context [match ?m w with _ => _ end] => destruct (m w) as [[r|] w'] end;
    eauto.
Qed.

(** An unknown user is refused in the same way. *)
Lemma verify2FACode_unknown_user (env : Env) (w : World) (userId code : string) :
  users w !! userId = None ->
  run env userId code w
  = (Returned failed, mkWorld (users w) (calls w ++ [FindUnique userId])).
Proof.
  intros Hu.
  cbv beta iota zeta delta
    [verify2FACode tryCatch bind findUnique record modify gets throw ret].
  destruct (readOk env); [|reflexivity].
  cbn [users calls]. rewrite Hu. reflexivity.
Qed.

(** C10: 2FA verification fails closed.  For a user whose
    [twoFactorEnabled] flag is false or whose stored secret is null or
    empty, [verify2FACode] returns [{success: false, isBackupCode: false}]
    for every submitted code; the only call to a collaborator is the lookup
    of the user (no decipher, no TOTP check, no hash comparison, no update),
    and the user table is left as it was. *)
Theorem verify2FACode_fails_closed (env : Env) (w : World) (userId code : string) (user : User) :
  users w !! userId = Some user ->
  twoFactorEnabled user = false \/ truthy (twoFactorSecret user) = false ->
  run env userId code w
  = (Returned failed, mkWorld (users w) (calls w ++ [FindUnique userId])).
Proof.
  intros Hu Hoff.
  cbv beta iota zeta delta
    [verify2FACode tryCatch bind findUnique record modify gets throw ret].
  destruct (readOk env); [|reflexivity].
  cbn [users calls]. rewrite Hu.
  destruct Hoff as [-> | ->]; cbn [negb orb]; [reflexivity|].
  rewrite orb_true_r. reflexivity.
Qed.

Ltac run_monad :=
  cbv beta iota zeta delta
    [verify2FACode tryCatch bind findUnique update record modify gets throw ret lift].

(** A single pass of the loop over the stored hashes either fails and
    leaves the users as they are ... *)
Lemma backupLoop_no_match (env : Env) (userId code : string) (stored rest : list string)
      (i : nat) (w : World) :
  (forall k hashed, rest !! k = Some hashed ->
     verifyHash pbkdf2Hex code hashed "" (randomSalt env (i + k)) = false) ->
  exists cs, backupLoop pbkdf2Hex env userId code stored rest i w
             = (Returned failed, mkWorld (users w) cs).
Proof.
  revert i w. induction rest as [|hashed rest IH]; intros i w Hno.
  - exists (calls w). destruct w; reflexivity.
  - cbn [backupLoop]. run_monad. cbn [users calls].
    pose proof (Hno 0%nat hashed eq_refl) as H0. rewrite Nat.add_0_r in H0.
    rewrite H0.
    destruct (IH (S i) (mkWorld (users w) (calls w ++ [VerifyHash i]))) as [cs Hcs].
    + intros k h Hk. replace (S i + k)%nat with (i + S k)%nat by lia.
      apply Hno. exact Hk.
    + exists cs. exact Hcs.
Qed.

(** ... or succeeds on the first entry that verifies, and stores the list
    without that entry. *)
Lemma backupLoop_success (env : Env) (userId code : string) (user : User)
      (stored rest : list string) (i : nat) (w w1 : World) :
  users w !! userId = Some user ->
  backupLoop pbkdf2Hex env userId code stored rest i w = (Returned (mkResult true true), w1) ->
  exists k hashed,
    rest !! k = Some hashed
    /\ verifyHash pbkdf2Hex code hashed "" (randomSalt env (i + k)) = true
    /\ users w1 = <[userId := mkUser (twoFactorEnabled user) (twoFactorSecret user)
                                     (filterIndex (fun index => negb (index =? i + k)%nat) 0 stored)]>
                   (users w).
Proof.
  revert i w. induction rest as [|hashed rest IH]; intros i w Hu Hrun.
  - discriminate Hrun.
  - cbn [backupLoop] in Hrun. revert Hrun. run_monad. cbn [users calls].
    destruct (verifyHash pbkdf2Hex code hashed "" (randomSalt env i)) eqn:Hv.
    + destruct (writeOk env); [|discriminate]. cbn [users calls]. rewrite Hu.
      intros [= <-]. exists 0%nat, hashed. rewrite Nat.add_0_r.
      repeat split; auto.
    + intros Hrun. apply IH in Hrun; [|exact Hu].
      destruct Hrun as (k & h & Hk & Hv' & Hw1).
      exists (S k), h. replace (i + S k)%nat with (S i + k)%nat by lia.
      repeat split; auto.
Qed.


End BackupFacts.

Lemma verify2FACode_fails_closed_witness :
  let w := BackupScenario.world0 in
  Backup.users w !! "bob"%string = Some BackupScenario.bob
  /\ Backup.verify2FACode BackupScenario.demoPbkdf2 BackupScenario.demoDecrypt
       BackupScenario.firstUse "bob" "324550" w
     = (Returned Backup.failed,
        Backup.mkWorld (Backup.users w) (Backup.calls w ++ [Backup.FindUnique "bob"])).
Proof.
  split; [reflexivity|].
  apply (verify2FACode_fails_closed BackupScenario.demoPbkdf2 BackupScenario.demoDecrypt
           BackupScenario.firstUse BackupScenario.world0 "bob" "324550" BackupScenario.bob).
  - reflexivity.
  - left. reflexivity.
Defined.



(** ** Geolocation and login anomalies *)

Section GeoFacts.

Import Geo.

Example isLocalIP_examples :
  map isLocalIP ["127.0.0.1"; "10.1.2.3"; "172.16.0.1"; "172.31.9.9"; "172.32.0.1";
                 "192.168.1.1"; "169.254.0.7"; "::1"; "fe80::1"; "8.8.8.8"; "1.1.1.1"]%string
  = [true; true; true; true; false; true; true; true; true; false; false].
Proof. vm_compute. reflexivity. Qed.

Variable env : Env.

Ltac run_geo :=
  cbv beta iota zeta delta [getLocation tryCatch bind modify gets throw ret lift].

(** [getLocation] never throws. *)
Lemma getLocation_returns (ipAddress : string) (cache : Cache) :
  exists location cache', getLocation env ipAddress cache = (Returned location, cache').
Proof.
  run_geo. destruct (isFresh env (cache !! ipAddress)); [eauto|].
  destruct (isLocalIP ipAddress); [eauto|].
  destruct (provider env ipAddress) as [data|]; [|eauto].
  destruct (bool_decide (api_status data = Some "success"%string)); eauto.
Qed.

(** C8: for an address that is not local and not freshly cached, a provider
    that throws or that replies with a status other than success makes
    [getLocation] return null, without throwing and without touching the
    cache. *)
Theorem getLocation_fails_soft (ipAddress : string) (cache : Cache) :
  isLocalIP ipAddress = false ->
  isFresh env (cache !! ipAddress) = false ->
  provider env ipAddress = Threw
  \/ (exists data, provider env ipAddress = Returned data
                   /\ api_status data <> Some "success"%string) ->
  getLocation env ipAddress cache = (Returned None, cache).
Proof.
  intros Hlocal Hmiss Hfail. run_geo. rewrite Hmiss, Hlocal.
  destruct Hfail as [-> | (data & -> & Hstatus)]; [reflexivity|].
  rewrite bool_decide_eq_false_2 by exact Hstatus. reflexivity.
Qed.

(** The cache changes only on a successful reply, by the insertion of the
    location resolved from it. *)
Lemma getLocation_cache (ipAddress : string) (cache : Cache) :
  snd (getLocation env ipAddress cache) = cache
  \/ exists data,
       provider env ipAddress = Returned data
       /\ api_status data = Some "success"%string
       /\ getLocation env ipAddress cache
          = (Returned (Some (locationOf ipAddress data)),
             <[ipAddress := (locationOf ipAddress data, clock env)]> cache).
Proof.
  run_geo. destruct (isFresh env (cache !! ipAddress)); [left; reflexivity|].
  destruct (isLocalIP ipAddress); [left; reflexivity|].
  destruct (provider env ipAddress) as [data|]; [|left; reflexivity].
  destruct (bool_decide_reflect (api_status data = Some "success"%string)) as [E|_];
    [|left; reflexivity].
  right. exists data. auto.
Qed.

(** [Promise.all] over the previous addresses: every call returns, and the
    first result is the resolution of the first address in the cache at
    hand. *)
Lemma getLocations_returns (ips : list string) (cache : Cache) :
  exists locations cache',
    getLocations env ips cache = (Returned locations, cache')
    /\ locations !! 0%nat
       = (fun ip0 => valueOf (fst (getLocation env ip0 cache))) <$> ips !! 0%nat.
Proof.
  revert cache. induction ips as [|ip0 rest IH]; intros cache.
  - exists [], cache. split; reflexivity.
  - cbn [getLocations]. unfold bind at 1.
    destruct (getLocation_returns ip0 cache) as (location & cache1 & Hloc).
    rewrite Hloc. unfold bind at 1.
    destruct (IH cache1) as (locations & cache2 & -> & _).
    exists (location :: locations), cache2. split; [reflexivity|].
    cbn. rewrite Hloc. reflexivity.
Qed.

Lemma emits_app (ty : AnomalyType) (l1 l2 : list LocationAnomaly) :
  emits ty (l1 ++ l2) = emits ty l1 || emits ty l2.
Proof. apply existsb_app. Qed.

Lemma regionChange_emits (currentLocation : GeoLocation) (previous : option GeoLocation) :
  emits REGION_CHANGE (regionChange currentLocation previous) = true
  <-> exists p, previous = Some p
                /\ regionCode p <> ""%string
                /\ regionCode p <> regionCode currentLocation.
Proof.
  unfold regionChange.
  destruct previous as [p|]; cbn [fmap option_fmap option_map truthy default andb id].
  - destruct (String.eqb_spec (regionCode p) "") as [E|E]; cbn [negb andb emits existsb].
    + split; [discriminate|]. intros (q & [= <-] & H & _). contradiction.
    + destruct (String.eqb_spec (regionCode p) (regionCode currentLocation)) as [E'|E'];
        cbn [negb emits existsb type AnomalyType_eqb orb].
      * split; [discriminate|]. intros (q & [= <-] & _ & H). contradiction.
      * split; [|reflexivity]. intros _. exists p. auto.
  - split; [discriminate|]. intros (q & [=] & _).
Qed.

(** C4, as the code has it: when the current location resolves and the
    user has earlier logins, a REGION_CHANGE anomaly is emitted exactly when
    the most recent earlier address resolves to a location whose region
    code is not empty and differs from the current one, whatever the
    country codes are; the anomaly carries severity MEDIUM and risk score
    0.6. *)
Theorem detectAnomalies_region_change (userId currentIP : string) (cache cache1 : Cache)
        (currentLocation : GeoLocation) (previousLogins : list LoginRow) :
  getLocation env currentIP cache = (Returned (Some currentLocation), cache1) ->
  recentLogins env userId = Returned previousLogins ->
  previousLogins <> [] ->
  let previous :=
    match truthyAddresses previousLogins with
    | ip0 :: _ => valueOf (fst (getLocation env ip0 cache1))
    | [] => None
    end in
  exists anomalies,
    fst (detectAnomalies env userId currentIP cache) = Returned anomalies
    /\ (emits REGION_CHANGE anomalies = true
        <-> exists p, previous = Some p
                      /\ regionCode p <> ""%string
                      /\ regionCode p <> regionCode currentLocation)
    /\ (forall a, a ∈ anomalies -> type a = REGION_CHANGE ->
          severity a = MEDIUM /\ riskScore a = (6 # 10)%Q
          /\ currentLocation = Geo.currentLocation a /\ previousLocation a = previous).
Proof.
  intros Hcur Hlogins Hne previous.
  unfold detectAnomalies, tryCatch. unfold bind at 1. rewrite Hcur.
  unfold bind at 1. unfold lift. rewrite Hlogins.
  destruct previousLogins as [|login logins]; [contradiction|].
  cbn [length Nat.eqb].
  unfold bind at 1.
  destruct (getLocations_returns
              (distinctFrom [] (truthyAddresses (login :: logins))) cache1)
    as (locations & cache2 & -> & Hhead).
  unfold ret. cbn [fst].
  assert (Hprev : mjoin (locations !! 0%nat) = previous).
  { rewrite Hhead. subst previous.
    destruct (truthyAddresses (login :: logins)) as [|ip0 ips]; [reflexivity|].
    cbn [distinctFrom]. rewrite bool_decide_eq_false_2 by apply not_elem_of_nil.
    reflexivity. }
  rewrite Hprev. eexists. split; [reflexivity|]. split.
  - rewrite !emits_app.
    replace (emits REGION_CHANGE (countryChange currentLocation previous)) with false
      by (unfold countryChange; destruct (_ && _); reflexivity).
    replace (emits REGION_CHANGE (suspiciousProxy currentLocation)) with false
      by (unfold suspiciousProxy; destruct (_ || _); reflexivity).
    replace (emits REGION_CHANGE (highRiskCountry currentLocation)) with false
      by (unfold highRiskCountry; destruct (bool_decide _); reflexivity).
    replace (emits REGION_CHANGE (unusualTime currentLocation (localHour env))) with false
      by (unfold unusualTime; destruct (_ || _); reflexivity).
    cbn [orb]. rewrite !orb_false_r. apply regionChange_emits.
  - intros a Ha Hty. rewrite !elem_of_app in Ha.
    unfold countryChange, regionChange, suspiciousProxy, highRiskCountry, unusualTime in Ha.
    repeat match type of Ha with
           | context [if ?c then _ else _] => destruct c
           end;
      repeat match type of Ha with
             | _ \/ _ => destruct Ha as [Ha|Ha]
             end;
      try (apply elem_of_nil in Ha; contradiction);
      apply list_elem_of_singleton in Ha; subst a; try discriminate Hty;
      cbn; auto.
Qed.

End GeoFacts.

Lemma getLocation_fails_soft_witness :
  Geo.getLocation GeoScenario.demoEnv "203.0.113.7" ∅ = (Returned None, ∅)
  /\ Geo.getLocation GeoScenario.demoEnv "9.9.9.9" ∅ = (Returned None, ∅).
Proof.
  split.
  - apply (getLocation_fails_soft GeoScenario.demoEnv "203.0.113.7" ∅).
    + reflexivity.
    + reflexivity.
    + left. reflexivity.
  - apply (getLocation_fails_soft GeoScenario.demoEnv "9.9.9.9" ∅).
    + reflexivity.
    + reflexivity.
    + right. eexists. split; [reflexivity|]. discriminate.
Defined.

(** C4 as stated fails: the country code changed from CA to US and the
    region code from ON to CA, and both COUNTRY_CHANGE and REGION_CHANGE are
    emitted, where the stated rule asks for COUNTRY_CHANGE alone. *)
Lemma region_change_despite_country_change :
  exists anomalies,
    fst (Geo.detectAnomalies GeoScenario.demoEnv "user-123" "8.8.8.8" ∅) = Returned anomalies
    /\ map Geo.type anomalies = [Geo.COUNTRY_CHANGE; Geo.REGION_CHANGE]
    /\ Geo.emits Geo.REGION_CHANGE anomalies = true
    /\ GeoScenario.claimedRegionChange GeoScenario.current GeoScenario.earlier = false.
Proof.
  eexists. split; [vm_compute; reflexivity|]. repeat split.
Qed.

Lemma detectAnomalies_region_change_witness :
  exists anomalies,
    fst (Geo.detectAnomalies GeoScenario.demoEnv "user-123" "8.8.8.8" ∅) = Returned anomalies
    /\ (Geo.emits Geo.REGION_CHANGE anomalies = true
        <-> exists p, Some GeoScenario.earlier = Some p
                      /\ Geo.regionCode p <> ""%string
                      /\ Geo.regionCode p <> Geo.regionCode GeoScenario.current)
    /\ (forall a, a ∈ anomalies -> Geo.type a = Geo.REGION_CHANGE ->
          Geo.severity a = MEDIUM /\ Geo.riskScore a = (6 # 10)%Q
          /\ GeoScenario.current = Geo.currentLocation a
          /\ Geo.previousLocation a = Some GeoScenario.earlier).
Proof.
  assert (Hprev : valueOf (fst (Geo.getLocation GeoScenario.demoEnv "1.1.1.1"
                     (<["8.8.8.8"%string := (GeoScenario.current, 1700000000000)]> ∅)))
                  = Some GeoScenario.earlier)
    by (vm_compute; reflexivity).
  rewrite <- Hprev.
  apply (detectAnomalies_region_change GeoScenario.demoEnv "user-123" "8.8.8.8" ∅
           (<["8.8.8.8"%string := (GeoScenario.current, 1700000000000)]> ∅)
           GeoScenario.current [Geo.mkLogin (Some "1.1.1.1"%string)]).
  - vm_compute. reflexivity.
  - reflexivity.
  - discriminate.
Defined.

(** ** The blacklist cache and the audit statistics *)

Section AuditFacts.

Import Audit.

Ltac run_audit :=
  cbv beta iota zeta delta
    [isBlacklisted getBlacklistReason addToBlacklist upsert removeFromBlacklist deleteRow
     handleSuspiciousActivity logSecurityEvent createSecurityLog getAuditStats countWhere
     tryCatch bind modify gets throw ret lift].

Ltac run_writes :=
  cbv beta iota zeta delta
    [addToBlacklist upsert handleSuspiciousActivity logSecurityEvent createSecurityLog
     tryCatch bind modify gets throw ret lift].

(** A successful [addToBlacklist] is one whose write went through; it
    leaves the entry in the cache. *)
Lemma addToBlacklist_success (env : Env) (data : BlacklistRequest) (w : World) :
  fst (addToBlacklist env data w) = Returned true ->
  blacklistOk env = true
  /\ blacklistCache (snd (addToBlacklist env data w))
     = <[reqIpAddress data := mkEntry (reqReason data) (expiryOf env (reqDuration data))]>
         (blacklistCache w).
Proof.
  run_audit. destruct (blacklistOk env); [|discriminate].
  intros _. split; reflexivity.
Qed.

(** A failed write leaves the whole state as it was. *)
Lemma addToBlacklist_failure (env : Env) (data : BlacklistRequest) (w : World) :
  blacklistOk env = false ->
  addToBlacklist env data w = (Returned false, w).
Proof.
  intros H. run_audit. rewrite H. reflexivity.
Qed.

Lemma expiryOf_positive (env : Env) (d : Z) :
  0 < d -> Z.abs (clock env + d * 60 * 1000) <= maxTime ->
  expiryOf env (Some d) = Some (Date (clock env + d * 60 * 1000)).
Proof.
  intros Hd Hrange. unfold expiryOf, mkDate.
  destruct (Z.eqb_spec d 0) as [->|_]; [lia|].
  destruct (Z.leb_spec (Z.abs (clock env + d * 60 * 1000)) maxTime); [reflexivity|lia].
Qed.

(** The lookup on an entry with an expiry date. *)
Lemma isBlacklisted_entry (env : Env) (w : World) (ipAddress why : string) (expiry : Z) :
  blacklistCache w !! ipAddress = Some (mkEntry why (Some (Date expiry))) ->
  isBlacklisted env ipAddress w
  = if expiry <? clock env
    then (Returned false, setCache (delete ipAddress) w)
    else (Returned true, w).
Proof.
  intros H. run_audit. rewrite H. cbn [expiresAt dateLt].
  destruct (expiry <? clock env); reflexivity.
Qed.

(** C5, as the code has it: after a successful [addToBlacklist] with a
    positive duration of [d] minutes (and an expiry date in the range of
    [Date]), [isBlacklisted] answers true up to and including the instant
    [d] minutes after the addition, and false at any later instant; the
    lookup that answers false removes the entry from the in-memory map and
    touches nothing else. *)
Theorem isBlacklisted_after_add (env later : Env) (w : World)
        (ipAddress why : string) (d : Z) (source : Source) (details : option Details) :
  let data := mkRequest ipAddress why (Some d) source details in
  let w1 := snd (addToBlacklist env data w) in
  let expiry := clock env + d * 60 * 1000 in
  0 < d ->
  Z.abs expiry <= maxTime ->
  fst (addToBlacklist env data w) = Returned true ->
  (clock later <= expiry -> isBlacklisted later ipAddress w1 = (Returned true, w1))
  /\ (expiry < clock later ->
      isBlacklisted later ipAddress w1 = (Returned false, setCache (delete ipAddress) w1)).
Proof.
  intros data w1 expiry Hd Hrange Hadd.
  apply addToBlacklist_success in Hadd. destruct Hadd as [_ Hcache].
  fold w1 in Hcache. cbn [data reqIpAddress reqReason reqDuration] in Hcache.
  rewrite expiryOf_positive in Hcache by assumption.
  assert (Hentry : blacklistCache w1 !! ipAddress = Some (mkEntry why (Some (Date expiry)))).
  { rewrite Hcache. apply lookup_insert_eq. }
  rewrite (isBlacklisted_entry later w1 ipAddress why expiry Hentry).
  split; intros Ht.
  - destruct (Z.ltb_spec expiry (clock later)); [lia|reflexivity].
  - destruct (Z.ltb_spec expiry (clock later)); [reflexivity|lia].
Qed.

(** C9: [getBlacklistReason] does not look at the expiry date.  On an entry
    that has expired and that no lookup has evicted yet, it still returns
    the stored reason, where [isBlacklisted] answers false and evicts; and
    it never changes the state. *)
Theorem getBlacklistReason_ignores_expiry (env : Env) (w : World) (ipAddress : string)
        (entry : CacheEntry) (expiry : date) :
  blacklistCache w !! ipAddress = Some entry ->
  expiresAt entry = Some expiry ->
  dateLt expiry (Date (clock env)) = true ->
  getBlacklistReason ipAddress w = (Returned (Some (reason entry)), w)
  /\ isBlacklisted env ipAddress w = (Returned false, setCache (delete ipAddress) w)
  /\ (forall ip' w', snd (getBlacklistReason ip' w') = w').
Proof.
  intros Hentry Hexp Hlt. run_audit. rewrite Hentry, Hexp, Hlt.
  repeat split; reflexivity.
Qed.

(** C6, as the code has it: when the observed count reaches the threshold
    for LOGIN_FAILED and the store takes the writes, the handler persists a
    row with source AUTOMATIC that expires 30 minutes later, mirrors it in
    the cache (so that [isBlacklisted] answers true until then) and appends
    a HIGH-severity event to the security log; below the threshold it
    changes nothing. *)
Theorem handleSuspiciousActivity_login_failed (env : Env) (w : World) (ipAddress : string)
        (count threshold : Z) (details : option Details) :
  let data := mkSuspicious ipAddress "LOGIN_FAILED" count threshold details in
  let w1 := snd (handleSuspiciousActivity env data w) in
  let expiry := clock env + 30 * 60 * 1000 in
  (threshold <= count -> blacklistOk env = true -> logsOk env = true ->
   Z.abs expiry <= maxTime ->
     (exists row, iPBlacklist w1 !! ipAddress = Some row
                  /\ rowSource row = AUTOMATIC
                  /\ rowExpiresAt row = Some (Date expiry))
     /\ (exists why, blacklistCache w1 !! ipAddress = Some (mkEntry why (Some (Date expiry))))
     /\ (forall later, clock later <= expiry ->
           fst (isBlacklisted later ipAddress w1) = Returned true)
     /\ (exists event, securityLog w1 = securityLog w ++ [event]
                       /\ secSeverity event = HIGH
                       /\ secAction event = "SUSPICIOUS_ACTIVITY"%string
                       /\ secIpAddress event = Some ipAddress))
  /\ (count < threshold -> handleSuspiciousActivity env data w = (Returned tt, w)).
Proof.
  intros data w1 expiry. split.
  - intros Hge Hb Hl Hrange.
    assert (Hexp : expiryOf env (Some 30) = Some (Date expiry))
      by (apply expiryOf_positive; [lia|exact Hrange]).
    subst w1. unfold data. run_writes.
    cbn [susThreshold susCount susActivity susIpAddress susDetails durationOf String.eqb
         Ascii.eqb Bool.eqb reqIpAddress reqReason reqDuration reqSource reqDetails].
    destruct (Z.leb_spec threshold count) as [_|Hlt]; [|lia].
    rewrite Hb, Hl.
    cbn [iPBlacklist blacklistCache securityLog auditLog snd fst setTable setCache
         setSecurityLog evUserId evAction evDetails evIpAddress evUserAgent evSeverity].
    change (durationOf "LOGIN_FAILED") with 30. rewrite Hexp.
    split; [|split; [|split]].
    + eexists. split; [apply lookup_insert_eq|]. split; reflexivity.
    + eexists. apply lookup_insert_eq.
    + intros later Hlater.
      erewrite isBlacklisted_entry by (cbn [blacklistCache]; apply lookup_insert_eq).
      destruct (Z.ltb_spec expiry (clock later)); [lia|reflexivity].
    + eexists. split; [reflexivity|]. repeat split.
  - intros Hlt. unfold data. run_audit. cbn [susThreshold susCount].
    destruct (Z.leb_spec threshold count); [lia|reflexivity].
Qed.

Lemma length_filter_and {A : Type} (p q : A -> bool) (l : list A) :
  (length (List.filter (fun x => p x && q x) l) <= length (List.filter p l))%nat.
Proof.
  induction l as [|x l IH]; cbn [List.filter]; [lia|].
  destruct (p x), (q x); cbn [andb length]; lia.
Qed.


End AuditFacts.

(** C5 as stated fails in two places.  At the boundary: exactly 10 minutes
    after an addition for 10 minutes, [isBlacklisted] still answers true.
    And for the duration 0, which is falsy: the entry gets no expiry date
    and [isBlacklisted] answers true a year later. *)
Lemma still_blacklisted_at_expiry_instant :
  let env := AuditScenario.envAt AuditScenario.t0 true in
  let added := Audit.addToBlacklist env AuditScenario.request AuditScenario.world0 in
  let added0 := Audit.addToBlacklist env AuditScenario.zeroRequest AuditScenario.world0 in
  (fst added = Returned true
   /\ fst (Audit.isBlacklisted
             (AuditScenario.envAt (AuditScenario.t0 + 10 * 60 * 1000) true)
             AuditScenario.address (snd added))
      = Returned true)
  /\ (fst added0 = Returned true
      /\ fst (Audit.isBlacklisted
                (AuditScenario.envAt (AuditScenario.t0 + 365 * 24 * 60 * 60 * 1000) true)
                AuditScenario.address (snd added0))
         = Returned true).
Proof.
  vm_compute. repeat split.
Qed.

Lemma isBlacklisted_after_add_witness :
  let env := AuditScenario.envAt AuditScenario.t0 true in
  let w1 := snd (Audit.addToBlacklist env AuditScenario.request AuditScenario.world0) in
  fst (Audit.addToBlacklist env AuditScenario.request AuditScenario.world0) = Returned true
  /\ Audit.isBlacklisted env AuditScenario.address w1 = (Returned true, w1)
  /\ Audit.isBlacklisted (AuditScenario.envAt (AuditScenario.t0 + 600001) false)
       AuditScenario.address w1
     = (Returned false, Audit.setCache (delete AuditScenario.address) w1).
Proof.
  intros env w1.
  assert (Hadd : fst (Audit.addToBlacklist env AuditScenario.request AuditScenario.world0)
                 = Returned true) by (vm_compute; reflexivity).
  split; [exact Hadd|]. split.
  - apply (isBlacklisted_after_add env env AuditScenario.world0 AuditScenario.address
             "manual block" 10 Audit.MANUAL None); [lia|vm_compute; discriminate|exact Hadd|].
    vm_compute. discriminate.
  - apply (isBlacklisted_after_add env (AuditScenario.envAt (AuditScenario.t0 + 600001) false)
             AuditScenario.world0 AuditScenario.address
             "manual block" 10 Audit.MANUAL None); [lia|vm_compute; discriminate|exact Hadd|].
    vm_compute. reflexivity.
Defined.

(** C6 as stated fails when the store refuses the write: the count has
    reached the threshold, and no entry is created. *)
Lemma no_entry_when_store_is_down :
  let w1 := snd (Audit.handleSuspiciousActivity
                   (AuditScenario.envAt AuditScenario.t0 false)
                   (AuditScenario.failedLogins 5) AuditScenario.world0) in
  Audit.iPBlacklist w1 !! AuditScenario.address = None
  /\ Audit.blacklistCache w1 !! AuditScenario.address = None
  /\ fst (Audit.isBlacklisted (AuditScenario.envAt AuditScenario.t0 false)
            AuditScenario.address w1)
     = Returned false.
Proof.
  vm_compute. repeat split.
Qed.

Lemma handleSuspiciousActivity_login_failed_witness :
  let env := AuditScenario.envAt AuditScenario.t0 true in
  let w0 := AuditScenario.world0 in
  let w1 := snd (Audit.handleSuspiciousActivity env (AuditScenario.failedLogins 5) w0) in
  let expiry := AuditScenario.t0 + 30 * 60 * 1000 in
  ((exists row, Audit.iPBlacklist w1 !! AuditScenario.address = Some row
                /\ Audit.rowSource row = Audit.AUTOMATIC
                /\ Audit.rowExpiresAt row = Some (Date expiry))
   /\ (exists why, Audit.blacklistCache w1 !! AuditScenario.address
                   = Some (Audit.mkEntry why (Some (Date expiry))))
   /\ (forall later, Audit.clock later <= expiry ->
         fst (Audit.isBlacklisted later AuditScenario.address w1) = Returned true)
   /\ (exists event, Audit.securityLog w1 = Audit.securityLog w0 ++ [event]
                     /\ Audit.secSeverity event = HIGH
                     /\ Audit.secAction event = "SUSPICIOUS_ACTIVITY"%string
                     /\ Audit.secIpAddress event = Some AuditScenario.address))
  /\ Audit.handleSuspiciousActivity env (AuditScenario.failedLogins 4) w0 = (Returned tt, w0).
Proof.
  intros env w0 w1 expiry. split.
  - apply (handleSuspiciousActivity_login_failed env w0 AuditScenario.address 5 5 None);
      [lia|reflexivity|reflexivity|vm_compute; discriminate].
  - apply (handleSuspiciousActivity_login_failed env w0 AuditScenario.address 4 5 None). lia.
Defined.


(** Three of four actions succeeded: the rate is 75. *)
Example getAuditStats_three_of_four :
  exists rate,
    fst (Audit.getAuditStats (AuditScenario.envAt AuditScenario.t0 true) 30
           AuditScenario.world0)
    = Returned (Audit.mkStats 4 1 0 (Num rate))
    /\ (rate == 75)%Q.
Proof.
  eexists. split; [vm_compute; reflexivity|]. reflexivity.
Qed.

Lemma getBlacklistReason_ignores_expiry_witness :
  let env := AuditScenario.envAt AuditScenario.t0 true in
  Audit.getBlacklistReason AuditScenario.address AuditScenario.staleWorld
  = (Returned (Some "manual block"%string), AuditScenario.staleWorld)
  /\ Audit.isBlacklisted env AuditScenario.address AuditScenario.staleWorld
     = (Returned false, Audit.setCache (delete AuditScenario.address) AuditScenario.staleWorld)
  /\ (forall ip' w', snd (Audit.getBlacklistReason ip' w') = w').
Proof.
  apply (getBlacklistReason_ignores_expiry (AuditScenario.envAt AuditScenario.t0 true)
           AuditScenario.staleWorld AuditScenario.address
           (Audit.mkEntry "manual block" (Some (Date (AuditScenario.t0 - 1000))))
           (Date (AuditScenario.t0 - 1000))).
  - reflexivity.
  - reflexivity.
  - reflexivity.
Defined.

(** * Further properties *)

(** ** The TOTP generator *)

Section TotpMore.

Import TwoFactor TotpAux.

(** *** Decimal rendering of a number below a million *)

Lemma of_lu_digitOf (a : Z) (d : Decimal.uint) :
  0 <= a <= 9 ->
  DecimalPos.Unsigned.of_lu (digitOf a d)
  = (Z.to_N a + 10 * DecimalPos.Unsigned.of_lu d)%N.
Proof.
  intros Ha.
  assert (H : a = 0 \/ a = 1 \/ a = 2 \/ a = 3 \/ a = 4 \/ a = 5 \/ a = 6 \/ a = 7
              \/ a = 8 \/ a = 9) by lia.
  rewrite DecimalPos.Unsigned.of_lu_eqn.
  repeat (destruct H as [-> | H]); try subst a; reflexivity.
Qed.

Lemma nb_digits_digitOf (a : Z) (d : Decimal.uint) :
  Decimal.nb_digits (digitOf a d) = S (Decimal.nb_digits d).
Proof.
  unfold digitOf. destruct a as [|p|p]; try reflexivity.
  repeat (match goal with
          | |- context [match ?q with _ => _ end] => destruct q
          end; try reflexivity).
Qed.

Lemma sixDigits_value (n : Z) :
  0 <= n < 1000000 ->
  Z.of_int (Decimal.Pos (Decimal.rev (sixDigits n))) = n.
Proof.
  intros Hn. cbn [Z.of_int]. unfold Z.of_uint.
  rewrite DecimalPos.Unsigned.of_lu_rev. unfold sixDigits.
  rewrite !of_lu_digitOf
    by (match goal with
        | |- 0 <= ?x mod 10 <= 9 => pose proof (Z.mod_pos_bound x 10); lia
        end).
  cbn [DecimalPos.Unsigned.of_lu].
  pose proof (Z.mod_pos_bound n 10). pose proof (Z.mod_pos_bound (n / 10) 10).
  pose proof (Z.mod_pos_bound (n / 100) 10). pose proof (Z.mod_pos_bound (n / 1000) 10).
  pose proof (Z.mod_pos_bound (n / 10000) 10). pose proof (Z.mod_pos_bound (n / 100000) 10).
  rewrite !N2Z.inj_add, !N2Z.inj_mul, !Z2N.id by lia.
  change (Z.of_N 10) with 10. change (Z.of_N 0) with 0.
  pose proof (Z.div_mod n 10). pose proof (Z.div_mod (n / 10) 10).
  pose proof (Z.div_mod (n / 100) 10). pose proof (Z.div_mod (n / 1000) 10).
  pose proof (Z.div_mod (n / 10000) 10). pose proof (Z.div_mod (n / 100000) 10).
  assert (n / 10 / 10 = n / 100) by (rewrite Z.div_div by lia; reflexivity).
  assert (n / 100 / 10 = n / 1000) by (rewrite Z.div_div by lia; reflexivity).
  assert (n / 1000 / 10 = n / 10000) by (rewrite Z.div_div by lia; reflexivity).
  assert (n / 10000 / 10 = n / 100000) by (rewrite Z.div_div by lia; reflexivity).
  assert (n / 100000 / 10 = 0) by (rewrite Z.div_div by lia; apply Z.div_small; lia).
  lia.
Qed.

Lemma length_string_of_uint (u : Decimal.uint) :
  String.length (NilEmpty.string_of_uint u) = Decimal.nb_digits u.
Proof. induction u; cbn; congruence. Qed.

Lemma allDigits_string_of_uint (u : Decimal.uint) :
  allChars isDigit (NilEmpty.string_of_uint u) = true.
Proof. induction u; cbn [NilEmpty.string_of_uint allChars]; [reflexivity|..]; exact IHu. Qed.

Lemma replicate_zero (j : nat) (u : Decimal.uint) :
  (replicate j "0" ++ NilEmpty.string_of_uint u)%string
  = NilEmpty.string_of_uint (Nat.iter j Decimal.D0 u).
Proof.
  induction j as [|j IH]; [reflexivity|].
  change (String "0" (replicate j "0" ++ NilEmpty.string_of_uint u)%string
          = String "0" (NilEmpty.string_of_uint (Nat.iter j Decimal.D0 u))).
  f_equal. exact IH.
Qed.

(** Padded to six places, the decimal rendering of a number below a million
    consists of its six digits. *)
Lemma padStart_toString (n : Z) :
  0 <= n < 1000000 ->
  padStart (toString n) 6 "0" = NilEmpty.string_of_uint (Decimal.rev (sixDigits n)).
Proof.
  intros Hn. set (d := Decimal.rev (sixDigits n)).
  assert (Hlen : Decimal.nb_digits d = 6%nat).
  { unfold d, sixDigits. rewrite DecimalFacts.nb_digits_rev, !nb_digits_digitOf. reflexivity. }
  assert (Hnil : d <> Decimal.Nil).
  { apply DecimalFacts.nb_digits_n0. rewrite Hlen. discriminate. }
  unfold toString. rewrite <- (sixDigits_value n Hn) at 1. fold d.
  rewrite DecimalZ.to_of. cbn [Decimal.norm NilZero.string_of_int].
  assert (E : NilZero.string_of_uint (Decimal.unorm d)
              = NilEmpty.string_of_uint (Decimal.unorm d)).
  { pose proof (DecimalFacts.unorm_nonnil d) as Hu.
    destruct (Decimal.unorm d); [contradiction|reflexivity..]. }
  rewrite E. unfold padStart. rewrite length_string_of_uint, replicate_zero.
  rewrite <- Hlen. rewrite DecimalFacts.iter_D0_unorm by exact Hnil. reflexivity.
Qed.

(** *** The truncated code is a non-negative 31-bit number *)

Lemma ToInt32_small (x : Z) : 0 <= x < 2 ^ 31 -> ToInt32 x = x.
Proof.
  intros Hx. unfold ToInt32. rewrite Z.mod_small by lia.
  destruct (Z.ltb_spec x (2 ^ 31)); [reflexivity|lia].
Qed.

Lemma band_ones (x : Z) (k : Z) :
  0 <= k < 31 -> band x (Z.ones k) = ToInt32 x mod 2 ^ k.
Proof.
  intros Hk. unfold band.
  assert (0 < 2 ^ k) by (apply Z.pow_pos_nonneg; lia).
  assert (2 ^ k < 2 ^ 31) by (apply Z.pow_lt_mono_r; lia).
  rewrite (ToInt32_small (Z.ones k)) by (rewrite Z.ones_equiv; lia).
  apply Z.land_ones. lia.
Qed.

Lemma lor_small (a b : Z) :
  0 <= a < 2 ^ 31 -> 0 <= b < 2 ^ 31 -> 0 <= Z.lor a b < 2 ^ 31.
Proof.
  intros Ha Hb. split; [apply Z.lor_nonneg; lia|].
  destruct (Z.eq_dec a 0) as [->|Hna]; [rewrite Z.lor_0_l; lia|].
  destruct (Z.eq_dec b 0) as [->|Hnb]; [rewrite Z.lor_0_r; lia|].
  assert (Hpos : 0 < Z.lor a b).
  { assert (0 <= Z.lor a b) by (apply Z.lor_nonneg; lia).
    destruct (Z.eq_dec (Z.lor a b) 0) as [E|E]; [|lia].
    apply Z.lor_eq_0_iff in E. lia. }
  apply Z.log2_lt_pow2; [exact Hpos|].
  rewrite Z.log2_lor by lia.
  apply Z.max_lub_lt; apply Z.log2_lt_pow2; lia.
Qed.

Lemma bor_small (a b : Z) :
  0 <= a < 2 ^ 31 -> 0 <= b < 2 ^ 31 -> 0 <= bor a b < 2 ^ 31.
Proof.
  intros Ha Hb. unfold bor. rewrite !ToInt32_small by assumption.
  apply lor_small; assumption.
Qed.

Lemma shl_small (v s k : Z) :
  0 <= v < 2 ^ k -> 0 <= k -> 0 <= s < 32 -> k + s <= 31 -> 0 <= shl v s < 2 ^ 31.
Proof.
  intros Hv Hk Hs Hks. unfold shl, ToUint32.
  assert (2 ^ k <= 2 ^ 31) by (apply Z.pow_le_mono_r; lia).
  rewrite (ToInt32_small v) by lia.
  rewrite (Z.mod_small s) by lia. rewrite (Z.mod_small s) by lia.
  rewrite Z.shiftl_mul_pow2 by lia.
  assert (0 < 2 ^ s) by (apply Z.pow_pos_nonneg; lia).
  assert (v * 2 ^ s < 2 ^ 31).
  { apply Z.lt_le_trans with (2 ^ k * 2 ^ s); [nia|].
    rewrite <- Z.pow_add_r by lia. apply Z.pow_le_mono_r; lia. }
  rewrite ToInt32_small by nia. nia.
Qed.

(** X4: [generateTOTP] always returns exactly six characters, all of them
    decimal digits, whatever the secret, the time step and the clock are. *)
Theorem generateTOTP_six_digits (secret : string) (timeStep now : Z) :
  String.length (generateTOTP secret timeStep now) = 6%nat
  /\ allChars isDigit (generateTOTP secret timeStep now) = true.
Proof.
  unfold generateTOTP.
  set (hash := hmac_sha1 _ _). set (offset := band _ 15).
  set (code := bor _ _).
  assert (Hcode : 0 <= code < 2 ^ 31).
  { unfold code.
    assert (Hb : forall x k, 0 <= k < 31 -> 0 <= band x (Z.ones k) < 2 ^ k).
    { intros x k Hk. rewrite band_ones by exact Hk. apply Z.mod_pos_bound.
      apply Z.pow_pos_nonneg; lia. }
    repeat apply bor_small.
    - apply (shl_small _ 24 7); [apply (Hb _ 7)|..]; lia.
    - apply (shl_small _ 16 8); [apply (Hb _ 8)|..]; lia.
    - apply (shl_small _ 8 8); [apply (Hb _ 8)|..]; lia.
    - pose proof (Hb (nth (Z.to_nat (offset + 3)) hash 0) 8 ltac:(lia)) as H.
      change (Z.ones 8) with 255 in H. change (2 ^ 8) with 256 in H. lia. }
  assert (Hrem : 0 <= Z.rem code 1000000 < 1000000) by (apply Z.rem_bound_pos; lia).
  rewrite (padStart_toString _ Hrem). split.
  - rewrite length_string_of_uint, DecimalFacts.nb_digits_rev.
    unfold sixDigits. rewrite !nb_digits_digitOf. reflexivity.
  - apply allDigits_string_of_uint.
Qed.

End TotpMore.

(** ** The counter buffer *)

Section CounterFacts.

Import TwoFactor.

Lemma sar_small (x : Z) :
  0 <= x < 2 ^ 31 -> sar x 8 = x / 256 /\ 0 <= x / 256 < 2 ^ 31.
Proof.
  intros Hx. unfold sar, ToUint32. rewrite ToInt32_small by exact Hx.
  change (8 mod 2 ^ 32 mod 32) with 8. rewrite Z.shiftr_div_pow2 by lia.
  change (2 ^ 8) with 256. split; [reflexivity|].
  split; [apply Z.div_pos; lia|].
  apply Z.le_lt_trans with x; [|lia]. apply Z.div_le_upper_bound; lia.
Qed.

Lemma band_255 (x : Z) : 0 <= x < 2 ^ 31 -> band x 255 = x mod 256.
Proof.
  intros Hx. change 255 with (Z.ones 8). rewrite band_ones by lia.
  rewrite ToInt32_small by exact Hx. reflexivity.
Qed.

(** X3: for a counter below 2^31 (any clock before the year 4011 with the
    30-second step), the buffer that [generateTOTP] fills with 32-bit
    operators is the 8-byte big-endian encoding of the counter, as RFC 4226
    asks. *)
Theorem counterBuffer_big_endian (counter : Z) :
  0 <= counter < 2 ^ 31 ->
  counterBuffer counter = Crypto.be_bytes 8 counter.
Proof.
  intros Hc. unfold counterBuffer.
  cbn [seq fold_left counterStep repeat Nat.sub snd].
  cbn [insert list_insert be_bytes].
  destruct (sar_small counter Hc) as [E1 H1]. rewrite E1.
  destruct (sar_small _ H1) as [E2 H2]. rewrite E2.
  destruct (sar_small _ H2) as [E3 H3]. rewrite E3.
  destruct (sar_small _ H3) as [E4 H4]. rewrite E4.
  destruct (sar_small _ H4) as [E5 H5]. rewrite E5.
  destruct (sar_small _ H5) as [E6 H6]. rewrite E6.
  destruct (sar_small _ H6) as [E7 H7]. rewrite E7.
  rewrite !band_255 by assumption.
  rewrite !Z.shiftr_div_pow2 by lia.
  rewrite !Z.div_div by lia.
  repeat match goal with
         | |- context [2 ^ ?e] =>
             let v := eval vm_compute in (2 ^ e) in change (2 ^ e) with v
         | |- context [256 * ?e] =>
             let v := eval vm_compute in (256 * e) in change (256 * e) with v
         end.
  rewrite Z.div_1_r. reflexivity.
Qed.

(** From 2^31 on the sign extension of [>>] fills the high bytes with 255. *)
Example counterBuffer_overflow :
  counterBuffer (2 ^ 31) = [255; 255; 255; 255; 128; 0; 0; 0].
Proof. vm_compute. reflexivity. Qed.

Lemma counterBuffer_big_endian_witness :
  0 <= 56666666 < 2 ^ 31
  /\ counterBuffer 56666666 = Crypto.be_bytes 8 56666666.
Proof.
  split; [lia|]. apply (counterBuffer_big_endian 56666666). lia.
Defined.

End CounterFacts.

(** ** The base32 decoder *)

Section Base32Facts.

Import TwoFactor Base32Aux.

Lemma indexOf_range (s : string) (c : ascii) (i : Z) :
  indexOf s c = Some i -> 0 <= i < Z.of_nat (String.length s).
Proof.
  revert i. induction s as [|d s IH]; intros i; cbn [indexOf String.length]; [discriminate|].
  destruct (Ascii.eqb c d); [intros [= <-]; lia|].
  destruct (indexOf s c) as [j|]; [|discriminate].
  intros [= <-]. specialize (IH j eq_refl). lia.
Qed.

Lemma ToInt32_cases (z : Z) :
  ToInt32 z = z mod 2 ^ 32 \/ ToInt32 z = z mod 2 ^ 32 - 2 ^ 32.
Proof. unfold ToInt32. destruct (_ <? _); auto. Qed.

Lemma ToUint32_ToInt32 (z : Z) : ToUint32 (ToInt32 z) = ToUint32 z.
Proof.
  unfold ToUint32. destruct (ToInt32_cases z) as [-> | ->].
  - apply Z.mod_mod. lia.
  - rewrite <- (Z.mul_1_l (2 ^ 32)) at 2.
    rewrite <- Z.add_opp_r, <- Z.mul_opp_l, Z.mod_add by lia. apply Z.mod_mod. lia.
Qed.

Lemma ToUint32_bor (a b : Z) : ToUint32 (bor a b) = Z.lor (ToUint32 a) (ToUint32 b).
Proof.
  unfold bor. rewrite <- (ToUint32_ToInt32 a), <- (ToUint32_ToInt32 b).
  unfold ToUint32. rewrite <- !Z.land_ones by lia. apply Z.land_lor_distr_l.
Qed.

Lemma ToUint32_shl5 (a : Z) : ToUint32 (shl a 5) = 32 * (ToUint32 a mod 2 ^ 27).
Proof.
  unfold shl. rewrite ToUint32_ToInt32.
  change (ToUint32 5 mod 32) with 5. rewrite Z.shiftl_mul_pow2 by lia.
  unfold ToUint32 at 1. rewrite <- (ToUint32_ToInt32 a).
  change (2 ^ 5) with 32. change (2 ^ 32) with (2 ^ 27 * 32).
  rewrite Z.mul_mod_distr_r by lia.
  unfold ToUint32.
  change (2 ^ 32) with (2 ^ 27 * 2 ^ 5).
  rewrite Z.rem_mul_r by lia.
  rewrite (Z.mul_comm (2 ^ 27)), Z.mod_add by lia.
  rewrite Z.mod_mod by lia. lia.
Qed.

Lemma lor_low_bits (k idx : Z) :
  0 <= idx < 32 -> Z.lor (32 * k) idx = 32 * k + idx.
Proof.
  intros Hidx.
  assert (Hland : Z.land (32 * k) idx = 0).
  { apply Z.bits_inj'. intros i Hi. rewrite Z.land_spec, Z.bits_0.
    destruct (Z.lt_ge_cases i 5) as [Hlt|Hge].
    - replace (32 * k) with (Z.shiftl k 5) by (rewrite Z.shiftl_mul_pow2; lia).
      rewrite Z.shiftl_spec_low by exact Hlt. reflexivity.
    - rewrite <- (Z.mod_small idx (2 ^ 5)) by (change (2 ^ 5) with 32; lia).
      rewrite Z.mod_pow2_bits_high by lia. apply andb_false_r. }
  rewrite <- Z.lxor_lor by exact Hland. symmetry. apply Z.add_nocarry_lxor. exact Hland.
Qed.

(** The accumulator after one more character, as an unsigned 32-bit number. *)
Lemma ToUint32_accumulate (value V idx : Z) :
  0 <= idx < 32 ->
  ToUint32 value = V mod 2 ^ 32 ->
  ToUint32 (bor (shl value 5) idx) = (V * 32 + idx) mod 2 ^ 32.
Proof.
  intros Hidx HV. rewrite ToUint32_bor, ToUint32_shl5, HV.
  assert (Hi : ToUint32 idx = idx) by (unfold ToUint32; apply Z.mod_small; lia).
  rewrite Hi, lor_low_bits by exact Hidx.
  assert (HVm : (V mod 2 ^ 32) mod 2 ^ 27 = V mod 2 ^ 27).
  { change (2 ^ 32) with (2 ^ 27 * 2 ^ 5). rewrite Z.rem_mul_r by lia.
    rewrite (Z.mul_comm (2 ^ 27)), Z.mod_add by lia. apply Z.mod_mod. lia. }
  rewrite HVm.
  pose proof (Z.mod_pos_bound V (2 ^ 27) ltac:(lia)) as Hb.
  apply Z.mod_unique_pos with (q := V / 2 ^ 27); [lia|].
  pose proof (Z.div_mod V (2 ^ 27) ltac:(lia)). lia.
Qed.

Lemma ToInt32_mod_256 (x : Z) : ToInt32 x mod 256 = x mod 256.
Proof.
  assert (H : (x mod 2 ^ 32) mod 256 = x mod 256).
  { change (2 ^ 32) with (256 * 2 ^ 24). rewrite Z.rem_mul_r by lia.
    rewrite (Z.mul_comm 256), Z.mod_add by lia. apply Z.mod_mod. lia. }
  destruct (ToInt32_cases x) as [-> | ->]; [exact H|].
  change (2 ^ 32) with (16777216 * 256) at 2.
  rewrite <- Z.add_opp_r, <- Z.mul_opp_l, Z.mod_add by lia. exact H.
Qed.

(** The byte pushed from the accumulator: eight bits of the number read so
    far, wherever the accumulator has wrapped. *)
Lemma pushed_byte (value V s : Z) :
  0 <= s <= 4 -> 0 <= V ->
  ToUint32 value = V mod 2 ^ 32 ->
  band (shr value s) 255 = (V / 2 ^ s) mod 256.
Proof.
  intros Hs HV Hval. change 255 with (Z.ones 8). rewrite band_ones by lia.
  change (2 ^ 8) with 256. rewrite ToInt32_mod_256.
  unfold shr. rewrite Hval.
  assert (Es : ToUint32 s mod 32 = s).
  { unfold ToUint32. rewrite (Z.mod_small s) by lia. apply Z.mod_small. lia. }
  rewrite Es, Z.shiftr_div_pow2 by lia.
  assert (H2s : 0 < 2 ^ s) by (apply Z.pow_pos_nonneg; lia).
  replace (2 ^ 32) with (2 ^ s * (256 * 2 ^ (24 - s))).
  - rewrite Z.rem_mul_r, Z.mul_comm, Z.div_add by
      (try lia; try (apply Z.neq_mul_0; split; try lia;
                     apply Z.pow_nonzero; lia)).
    rewrite Z.div_small by (apply Z.mod_pos_bound; lia).
    rewrite Z.add_0_l.
    assert (0 < 2 ^ (24 - s)) by (apply Z.pow_pos_nonneg; lia).
    rewrite Z.rem_mul_r by lia.
    rewrite (Z.mul_comm 256), Z.mod_add by lia. apply Z.mod_mod. lia.
  - rewrite Z.mul_assoc, (Z.mul_comm (2 ^ s)), <- Z.mul_assoc, <- Z.pow_add_r by lia.
    replace (s + (24 - s)) with 24 by lia. reflexivity.
Qed.

Lemma fold_pushQuintet (l : list ascii) (st : Z * Z * list Z) :
  fold_left base32Step l st
  = fold_left pushQuintet (omap (fun c => indexOf base32Chars (toUpperCase c)) l) st.
Proof.
  revert st. induction l as [|c l IH]; intros st; [reflexivity|].
  cbn [fold_left omap list_omap]. rewrite IH.
  unfold base32Step at 1. destruct st as [[bits value] result].
  destruct (indexOf base32Chars (toUpperCase c)) as [index|]; reflexivity.
Qed.

Lemma numOf_snoc (base : Z) (digits : list Z) (d : Z) :
  numOf base (digits ++ [d]) = numOf base digits * base + d.
Proof. unfold numOf. rewrite fold_left_app. reflexivity. Qed.

Lemma decoded_pushQuintet (st : Z * Z * list Z) (V n index : Z) :
  0 <= index < 32 ->
  decoded st V n ->
  decoded (pushQuintet st index) (V * 32 + index) (n + 1).
Proof.
  intros Hidx. destruct st as [[bits value] result].
  intros (Hbits & Hlen & Hval & HV & Hbytes & Hnum).
  pose proof (ToUint32_accumulate value V index Hidx Hval) as Hval'.
  assert (Hshift : (V * 32 + index) / 2 ^ (bits + 5) = V / 2 ^ bits).
  { rewrite Z.pow_add_r by lia. change (2 ^ 5) with 32.
    rewrite (Z.mul_comm (2 ^ bits)), <- Z.div_div by
      (try lia; apply Z.pow_pos_nonneg; lia).
    f_equal. rewrite Z.div_add_l by lia. rewrite (Z.div_small index) by lia. lia. }
  unfold pushQuintet. cbv zeta.
  destruct (Z.leb_spec 8 (bits + 5)) as [Hpush|Hkeep]; unfold decoded.
  - assert (H2 : 0 < 2 ^ (bits + 5 - 8)) by (apply Z.pow_pos_nonneg; lia).
    rewrite (pushed_byte _ (V * 32 + index) (bits + 5 - 8)) by (try lia; exact Hval').
    repeat split; try lia; try exact Hval'.
    + cbn [length]. lia.
    + constructor; [apply Z.mod_pos_bound; lia|exact Hbytes].
    + cbn [rev]. rewrite numOf_snoc, Hnum, <- Hshift.
      replace (bits + 5) with (bits + 5 - 8 + 8) at 1 by lia.
      rewrite Z.pow_add_r by lia. change (2 ^ 8) with 256.
      rewrite <- Z.div_div by lia.
      pose proof (Z.div_mod ((V * 32 + index) / 2 ^ (bits + 5 - 8)) 256 ltac:(lia)).
      lia.
  - repeat split; try lia; try exact Hval'; try exact Hbytes.
Qed.

Lemma decoded_fold (q : list Z) (st : Z * Z * list Z) (V n : Z) :
  Forall (fun index => 0 <= index < 32) q ->
  decoded st V n ->
  decoded (fold_left pushQuintet q st)
          (fold_left (fun acc d => acc * 32 + d) q V) (n + Z.of_nat (length q)).
Proof.
  revert st V n. induction q as [|index q IH]; intros st V n Hq Hst.
  - cbn [fold_left length]. rewrite Z.add_0_r. exact Hst.
  - inversion Hq as [|? ? Hidx Hq']; subst.
    cbn [fold_left length]. replace (n + Z.of_nat (S (length q)))
      with (n + 1 + Z.of_nat (length q)) by lia.
    apply IH; [exact Hq'|]. apply decoded_pushQuintet; assumption.
Qed.

Lemma quintets_range (s : string) :
  Forall (fun index => 0 <= index < 32) (quintets s).
Proof.
  unfold quintets. apply List.Forall_forall. intros index Hin.
  apply list_elem_of_In in Hin. apply list_elem_of_omap in Hin. destruct Hin as (c & _ & Hc).
  apply indexOf_range in Hc. exact Hc.
Qed.


(** X2: [base32Decode] is a correct base32 decoder in spite of its 32-bit
    accumulator: for [n] alphabet characters it returns [5n / 8] bytes (the
    division rounding down), each between 0 and 255, and read as one
    base-256 number they are the number that the quintets write in base 32
    without its last [5n mod 8] bits. *)
Theorem base32Decode_correct (s : string) :
  let n := Z.of_nat (length (quintets s)) in
  Z.of_nat (length (base32Decode s)) = 5 * n / 8
  /\ Forall (fun b => 0 <= b < 256) (base32Decode s)
  /\ numOf 256 (base32Decode s) = numOf 32 (quintets s) / 2 ^ (5 * n mod 8).
Proof.
  intros n. unfold base32Decode. rewrite fold_pushQuintet. fold (quintets s).
  pose proof (decoded_fold (quintets s) (0, 0, []) 0 0 (quintets_range s)) as H.
  fold (numOf 32 (quintets s)) in H. rewrite Z.add_0_l in H. fold n in H.
  destruct (fold_left pushQuintet (quintets s) (0, 0, [])) as [[bits value] result].
  destruct H as (Hbits & Hlen & _ & _ & Hbytes & Hnum).
  { unfold decoded. cbn [length rev]. repeat split; try lia; try reflexivity.
    constructor. }
  assert (Hq : 5 * n / 8 = Z.of_nat (length result) /\ 5 * n mod 8 = bits).
  { split.
    - symmetry. apply Z.div_unique with (r := bits); [lia|exact Hlen].
    - symmetry. apply Z.mod_unique with (q := Z.of_nat (length result)); [lia|exact Hlen]. }
  destruct Hq as [Hq Hr]. rewrite length_rev, Hq, Hr. repeat split.
  - apply Forall_rev. exact Hbytes.
  - exact Hnum.
Qed.

End Base32Facts.


(** ** Backup codes, enabling and disabling two-factor authentication *)

Section AdminFacts.

Import Backup TwoFactorAdmin.

(** A property of the sixteen hexadecimal digit values holds when it holds
    of each of them. *)
Lemma nibble_cases (P : Z -> Prop) :
  (forall k : nat, (k < 16)%nat -> P (Z.of_nat k)) -> forall n, 0 <= n < 16 -> P n.
Proof.
  intros H n Hn. rewrite <- (Z2Nat.id n) by lia. apply H. lia.
Qed.

Lemma hex_digit_upper (n : Z) :
  0 <= n < 16 -> isUpperHex (toUpperCase (hex_digit n)) = true.
Proof.
  revert n. apply nibble_cases. intros k Hk.
  do 16 (destruct k as [|k]; [reflexivity|]). lia.
Qed.

Lemma upperCase_to_hex (bytes : list Z) :
  Forall (fun b => 0 <= b < 256) bytes ->
  String.length (upperCase (to_hex bytes)) = (2 * length bytes)%nat
  /\ TotpAux.allChars isUpperHex (upperCase (to_hex bytes)) = true.
Proof.
  induction 1 as [|b bytes Hb _ [IHlen IHall]]; [split; reflexivity|].
  cbn [to_hex upperCase String.length TotpAux.allChars length]. split.
  - rewrite IHlen. lia.
  - rewrite !hex_digit_upper, IHall; [reflexivity|..].
    + apply Z.mod_pos_bound. lia.
    + split; [apply Z.div_pos; lia|apply Z.div_lt_upper_bound; lia].
Qed.

(** X5: whatever four bytes the random source yields, [generateBackupCodes]
    returns [count] codes and [validateBackupCode] accepts every one of
    them. *)
Theorem generateBackupCodes_valid (randomBytes : nat -> nat -> list Z) (count : Z) :
  (forall i size, length (randomBytes i size) = size
                  /\ Forall (fun b => 0 <= b < 256) (randomBytes i size)) ->
  length (generateBackupCodes randomBytes count) = Z.to_nat count
  /\ Forall (fun code => validateBackupCode code = true)
            (generateBackupCodes randomBytes count).
Proof.
  intros Hrand. unfold generateBackupCodes. split.
  - rewrite length_map, length_seq. reflexivity.
  - apply Forall_map. apply Forall_forall. intros i _.
    destruct (Hrand i 4%nat) as [Hlen Hbytes].
    destruct (upperCase_to_hex _ Hbytes) as [Hl Ha].
    unfold validateBackupCode. rewrite Hl, Hlen, Ha. reflexivity.
Qed.

Variable pbkdf2Hex : string -> string -> string.
Variable encrypt : string -> outcome string.
Variable decrypt : string -> outcome string.

Ltac run_admin :=
  cbv beta iota zeta delta
    [enable2FA disable2FA updateTwoFactor is2FAEnabled getRemainingBackupCodes
     regenerateBackupCodes verify2FACode findUnique update record
     tryCatch bind modify gets throw ret lift].

Lemma length_hashCodes (env : Env) (codes : list string) :
  length (hashCodes pbkdf2Hex env codes) = length codes.
Proof. unfold hashCodes. apply length_imap. Qed.

(** The two readers, when the store answers. *)
Lemma is2FAEnabled_read (env : Env) (userId : string) (w : Backup.World) :
  readOk env = true ->
  fst (is2FAEnabled env userId w)
  = Returned (match users w !! userId with
              | Some u => twoFactorEnabled u
              | None => false
              end).
Proof. intros H. run_admin. rewrite H. reflexivity. Qed.

Lemma getRemainingBackupCodes_read (env : Env) (userId : string) (w : Backup.World) :
  readOk env = true ->
  fst (getRemainingBackupCodes env userId w)
  = Returned (match users w !! userId with
              | Some u => Z.of_nat (length (twoFactorBackupCodes u))
              | None => 0
              end).
Proof. intros H. run_admin. rewrite H. reflexivity. Qed.

(** X6: [enable2FA] is all or nothing.  Either the secret was encrypted, the
    user exists and the store took the write: then it returns true, the
    user holds the ciphertext and one hash per backup code, and the date of
    enabling is the clock; or it returns false and the table is as it was.
    Whether two-factor authentication was enabled before plays no part. *)
Theorem enable2FA_all_or_nothing (env : Env) (w : World) (userId secret : string)
        (backupCodes : list string) :
  let r := enable2FA pbkdf2Hex encrypt env userId secret backupCodes w in
  (fst r = Returned true
   /\ (exists ciphertext old,
         encrypt secret = Returned ciphertext
         /\ users (base w) !! userId = Some old
         /\ users (base (snd r))
            = <[userId := mkUser true (Some ciphertext) (hashCodes pbkdf2Hex env backupCodes)]>
                (users (base w)))
   /\ length (hashCodes pbkdf2Hex env backupCodes) = length backupCodes
   /\ twoFactorEnabledAt (snd r) = <[userId := clock env]> (twoFactorEnabledAt w)
   /\ twoFactorDisabledAt (snd r) = twoFactorDisabledAt w)
  \/ (fst r = Returned false
      /\ (encrypt secret = Threw \/ writeOk env = false \/ users (base w) !! userId = None)
      /\ users (base (snd r)) = users (base w)
      /\ twoFactorEnabledAt (snd r) = twoFactorEnabledAt w
      /\ twoFactorDisabledAt (snd r) = twoFactorDisabledAt w).
Proof.
  intros r. subst r. run_admin.
  destruct (encrypt secret) as [ciphertext|]; [|right; cbn; auto 10].
  cbn [base users calls twoFactorEnabledAt twoFactorDisabledAt].
  destruct (writeOk env); [|right; cbn; auto 10].
  cbn [base users calls twoFactorEnabledAt twoFactorDisabledAt].
  destruct (users (base w) !! userId) as [old|] eqn:Hold; [|right; cbn; auto 10].
  left. cbn [fst snd base users twoFactorEnabledAt twoFactorDisabledAt].
  split; [reflexivity|]. split; [exists ciphertext, old; auto|].
  split; [apply length_hashCodes|]. split; reflexivity.
Qed.

(** A user without an enabled flag or without a secret is refused (used for
    the state that [disable2FA] leaves). *)
Lemma verify2FACode_refuses (env : Env) (w : Backup.World) (userId code : string) :
  users w !! userId = Some (mkUser false None []) ->
  fst (verify2FACode pbkdf2Hex decrypt env userId code w) = Returned failed
  /\ users (snd (verify2FACode pbkdf2Hex decrypt env userId code w)) = users w.
Proof.
  intros Hu. run_admin. destruct (readOk env); [|split; reflexivity].
  cbn [users calls]. rewrite Hu. split; reflexivity.
Qed.

(** X7: once [disable2FA] has succeeded, the user's secret and backup codes
    are gone, the date of disabling is the clock, and until two-factor
    authentication is enabled again [verify2FACode] refuses every code,
    [is2FAEnabled] answers false and no backup code remains. *)
Theorem disable2FA_clears (env : Env) (w : World) (userId : string) :
  let w' := snd (disable2FA env userId w) in
  fst (disable2FA env userId w) = Returned true ->
  users (base w') !! userId = Some (mkUser false None [])
  /\ twoFactorEnabledAt w' !! userId = None
  /\ twoFactorDisabledAt w' !! userId = Some (clock env)
  /\ (forall later code,
        fst (verify2FACode pbkdf2Hex decrypt later userId code (base w')) = Returned failed)
  /\ (forall later, fst (is2FAEnabled later userId (base w')) = Returned false
                    /\ fst (getRemainingBackupCodes later userId (base w')) = Returned 0).
Proof.
  intros w' Hok.
  assert (Hrun : users (base w') !! userId = Some (mkUser false None [])
                 /\ twoFactorEnabledAt w' !! userId = None
                 /\ twoFactorDisabledAt w' !! userId = Some (clock env)).
  { subst w'. revert Hok. run_admin. destruct (writeOk env); [|discriminate].
    cbn [base users calls twoFactorEnabledAt twoFactorDisabledAt].
    destruct (users (base w) !! userId); [|discriminate].
    intros _. cbn [fst snd base users twoFactorEnabledAt twoFactorDisabledAt].
    rewrite lookup_insert_eq, lookup_delete_eq, lookup_insert_eq. auto. }
  clearbody w'. destruct Hrun as (Hu & He & Hd).
  split; [exact Hu|]. split; [exact He|]. split; [exact Hd|]. split.
  - intros later code. apply verify2FACode_refuses. exact Hu.
  - intros later. run_admin. destruct (readOk later); [|split; reflexivity].
    cbn [users calls]. rewrite Hu. split; reflexivity.
Qed.

(** Unless it succeeds, the loop over the stored hashes leaves the users as
    they are. *)
Lemma backupLoop_else (env : Env) (userId code : string) (stored rest : list string)
      (i : nat) (w : Backup.World) :
  fst (backupLoop pbkdf2Hex env userId code stored rest i w) <> Returned (mkResult true true) ->
  users (snd (backupLoop pbkdf2Hex env userId code stored rest i w)) = users w.
Proof.
  revert i w. induction rest as [|hashed rest IH]; intros i w; [reflexivity|].
  cbn [backupLoop]. run_admin. cbn [users calls].
  destruct (verifyHash pbkdf2Hex code hashed "" (randomSalt env i)).
  - destruct (writeOk env); [|reflexivity]. cbn [users calls].
    destruct (users w !! userId); [|reflexivity]. cbn [fst]. congruence.
  - intros H. rewrite IH by exact H. reflexivity.
Qed.

Ltac other r :=
  right; exists r; split; [reflexivity|]; split; [unfold failed; discriminate|reflexivity].

(** What [verify2FACode] does to the user table: a success through a backup
    code removes one stored entry of that user; anything else changes
    nothing. *)
Lemma verify2FACode_users (env : Env) (w : Backup.World) (userId code : string) :
  let r := verify2FACode pbkdf2Hex decrypt env userId code w in
  (fst r = Returned (mkResult true true)
   /\ exists user i hashed,
        users w !! userId = Some user
        /\ twoFactorBackupCodes user !! i = Some hashed
        /\ users (snd r)
           = <[userId := mkUser (twoFactorEnabled user) (twoFactorSecret user)
                                (delete i (twoFactorBackupCodes user))]> (users w))
  \/ (exists result, fst r = Returned result
                     /\ result <> mkResult true true
                     /\ users (snd r) = users w).
Proof.
  intros r. subst r. run_admin.
  destruct (readOk env); [|other failed].
  cbn [users calls].
  destruct (users w !! userId) as [user|] eqn:Hu;
    [|other failed].
  destruct (negb (twoFactorEnabled user) || negb (truthy (twoFactorSecret user)));
    [other failed|].
  cbn [users calls].
  destruct (decrypt (default "" (twoFactorSecret user))) as [secret|];
    [|other failed].
  destruct (TwoFactor.verifyTOTP secret code 1 (clock env));
    [other (mkResult true false)|].
  destruct (0 <? length (twoFactorBackupCodes user))%nat;
    [|other failed].
  match goal with
  | |- context [backupLoop ?p ?e ?u ?c ?s ?rest ?i ?w0] =>
      pose proof (backupLoop_success p e u c user s rest i w0) as Hs;
      pose proof (backupLoop_else e u c s rest i w0) as He;
      pose proof (backupLoop_no_match p e u c s rest i w0) as Hn;
      destruct (backupLoop p e u c s rest i w0) as [[result|] w'] eqn:Hloop
  end; cbn [fst snd] in *.
  - assert (Hdec : result = mkResult true true \/ result <> mkResult true true)
      by (destruct result as [[] []]; (left; reflexivity) || (right; discriminate)).
    destruct Hdec as [->|Hne].
    + left. split; [reflexivity|].
      destruct (Hs w' Hu eq_refl) as (k & hashed & Hk & _ & Hw').
      exists user, k, hashed. split; [reflexivity|]. split; [exact Hk|].
      rewrite Hw'. rewrite (filterIndex_delete (twoFactorBackupCodes user) k 0). reflexivity.
    + right. exists result. split; [reflexivity|]. split; [exact Hne|].
      apply He. congruence.
  - right. exists failed. split; [reflexivity|]. split; [discriminate|].
    apply He. discriminate.
Qed.

(** X8: a verification that succeeds through a backup code lowers the
    number that [getRemainingBackupCodes] reports for that user by exactly
    one; any other outcome (a TOTP success, a failure, a store error) leaves
    it as it was; and no verification touches another user. *)
Theorem verify2FACode_consumes_one (env reader : Env) (w : Backup.World)
        (userId code : string) :
  let r := verify2FACode pbkdf2Hex decrypt env userId code w in
  readOk reader = true ->
  exists remaining result,
    fst (getRemainingBackupCodes reader userId w) = Returned remaining
    /\ fst r = Returned result
    /\ fst (getRemainingBackupCodes reader userId (snd r))
       = Returned (if success result && isBackupCode result
                   then remaining - 1 else remaining)
    /\ (forall other, other <> userId -> users (snd r) !! other = users w !! other).
Proof.
  intros r Hread. rewrite !getRemainingBackupCodes_read by exact Hread.
  destruct (verify2FACode_users env w userId code)
    as [(Hr & user & i & hashed & Hu & Hi & Hw') | (result & Hr & Hne & Hw')];
    fold r in Hr, Hw'; rewrite Hw'.
  - eexists _, (mkResult true true). split; [reflexivity|]. split; [exact Hr|]. split.
    + rewrite Hu, lookup_insert_eq. cbn [twoFactorBackupCodes success isBackupCode andb].
      f_equal. rewrite length_delete by (rewrite Hi; eauto).
      apply lookup_lt_Some in Hi. lia.
    + intros other Hother. apply lookup_insert_ne. congruence.
  - eexists _, result. split; [reflexivity|]. split; [exact Hr|]. split; [|reflexivity].
    destruct result as [[] []]; try reflexivity. contradiction.
Qed.

(** X9: [regenerateBackupCodes] replaces the stored hashes by those of ten
    fresh codes and returns the codes, or returns null and changes nothing
    (store down, unknown user).  It never looks at [twoFactorEnabled]: it
    also stores ten hashes for a user whose two-factor authentication is
    disabled. *)
Theorem regenerateBackupCodes_replaces (env : Env) (randomBytes : nat -> nat -> list Z)
        (w : Backup.World) (userId : string) :
  let r := regenerateBackupCodes pbkdf2Hex env randomBytes userId w in
  let fresh := generateBackupCodes randomBytes 10 in
  (exists user,
     users w !! userId = Some user
     /\ writeOk env = true
     /\ fst r = Returned (Some fresh)
     /\ length fresh = 10%nat
     /\ users (snd r)
        = <[userId := mkUser (twoFactorEnabled user) (twoFactorSecret user)
                             (hashCodes pbkdf2Hex env fresh)]> (users w)
     /\ length (hashCodes pbkdf2Hex env fresh) = 10%nat)
  \/ (fst r = Returned None
      /\ (writeOk env = false \/ users w !! userId = None)
      /\ users (snd r) = users w).
Proof.
  intros r fresh. subst r. run_admin. fold fresh.
  assert (Hfresh : length fresh = 10%nat).
  { unfold fresh, generateBackupCodes. rewrite length_map, length_seq. reflexivity. }
  destruct (writeOk env); [|right; cbn; auto].
  cbn [users calls].
  destruct (users w !! userId) as [user|] eqn:Hu; [|right; cbn; auto].
  left. exists user. cbn [fst snd users]. repeat split; auto.
Qed.

End AdminFacts.

Lemma generateBackupCodes_valid_witness :
  length (TwoFactorAdmin.generateBackupCodes AdminScenario.demoBytes 10) = 10%nat
  /\ Forall (fun code => TwoFactorAdmin.validateBackupCode code = true)
            (TwoFactorAdmin.generateBackupCodes AdminScenario.demoBytes 10).
Proof.
  apply (generateBackupCodes_valid AdminScenario.demoBytes 10).
  intros i size. unfold AdminScenario.demoBytes. split; [apply repeat_length|].
  apply List.Forall_forall. intros b Hb. apply repeat_spec in Hb. subst b.
  apply Z.mod_pos_bound. lia.
Defined.

Lemma disable2FA_clears_witness :
  let env := BackupScenario.firstUse in
  let w' := snd (TwoFactorAdmin.disable2FA env "alice" AdminScenario.world) in
  fst (TwoFactorAdmin.disable2FA env "alice" AdminScenario.world) = Returned true
  /\ Backup.users (TwoFactorAdmin.base w') !! "alice"%string
     = Some (Backup.mkUser false None [])
  /\ TwoFactorAdmin.twoFactorEnabledAt w' !! "alice"%string = None
  /\ TwoFactorAdmin.twoFactorDisabledAt w' !! "alice"%string = Some 1700000000000
  /\ fst (Backup.verify2FACode BackupScenario.demoPbkdf2 BackupScenario.demoDecrypt
            BackupScenario.secondUse "alice" "A1B2C3D4" (TwoFactorAdmin.base w'))
     = Returned Backup.failed.
Proof.
  intros env w'.
  assert (Hok : fst (TwoFactorAdmin.disable2FA env "alice" AdminScenario.world)
                = Returned true) by (vm_compute; reflexivity).
  split; [exact Hok|].
  destruct (disable2FA_clears BackupScenario.demoPbkdf2 BackupScenario.demoDecrypt
              env AdminScenario.world "alice" Hok) as (H1 & H2 & H3 & H4 & _).
  split; [exact H1|]. split; [exact H2|]. split; [exact H3|].
  apply (H4 BackupScenario.secondUse "A1B2C3D4"%string).
Defined.

Lemma verify2FACode_consumes_one_witness :
  let r := Backup.verify2FACode BackupScenario.demoPbkdf2 BackupScenario.demoDecrypt
             BackupScenario.firstUse "alice" "A1B2C3D4" BackupScenario.world0 in
  fst r = Returned (Backup.mkResult true true)
  /\ exists remaining result,
       fst (TwoFactorAdmin.getRemainingBackupCodes BackupScenario.secondUse "alice"
              BackupScenario.world0) = Returned remaining
       /\ fst r = Returned result
       /\ fst (TwoFactorAdmin.getRemainingBackupCodes BackupScenario.secondUse "alice" (snd r))
          = Returned (if Backup.success result && Backup.isBackupCode result
                      then remaining - 1 else remaining)
       /\ (forall other, other <> "alice"%string ->
             Backup.users (snd r) !! other = Backup.users BackupScenario.world0 !! other).
Proof.
  intros r. split; [vm_compute; reflexivity|].
  apply (verify2FACode_consumes_one BackupScenario.demoPbkdf2 BackupScenario.demoDecrypt
           BackupScenario.firstUse BackupScenario.secondUse BackupScenario.world0
           "alice" "A1B2C3D4").
  reflexivity.
Defined.

(** ** EncryptionService *)

Section EncryptionFacts.

Import Backup Encryption.

(** X10: a hash verifies with the salt that [hash] returns beside it.
    Whenever the salt in use is not empty (one passed by the caller, or the
    random one drawn in its place), [verifyHash] with the same data, that
    hash and that salt answers true, whatever it would draw itself. *)
Theorem verifyHash_round_trip (pbkdf2Hex : string -> string -> string)
        (data salt random random' : string) :
  let hashed := fst (hash pbkdf2Hex data salt random) in
  let usedSalt := snd (hash pbkdf2Hex data salt random) in
  usedSalt <> ""%string ->
  verifyHash pbkdf2Hex data hashed usedSalt random' = true.
Proof.
  intros hashed usedSalt Hsalt. unfold verifyHash.
  assert (E : fst (hash pbkdf2Hex data usedSalt random') = hashed).
  { unfold hash at 1. cbn [fst].
    destruct (String.eqb_spec usedSalt "") as [E|_]; [contradiction|].
    subst hashed usedSalt. unfold hash. cbn [fst snd]. reflexivity. }
  rewrite E. cbv zeta. rewrite Nat.eqb_refl. apply bool_decide_eq_true_2. reflexivity.
Qed.

(** X11: [isEncrypted] and [decrypt] disagree on the format.  A string that
    [isEncrypted] accepts has four parts, [decrypt] asks for three: it
    throws on every string that [isEncrypted] accepts, so that nothing
    [decrypt] can decipher is recognised as encrypted. *)
Theorem isEncrypted_never_decrypts (getEncryptionKey : outcome (list Z))
        (decipher : list Z -> list Z -> string -> list Z -> outcome string)
        (data : string) :
  isEncrypted data = true ->
  decrypt getEncryptionKey decipher data = Threw.
Proof.
  unfold isEncrypted, decrypt.
  destruct (String.eqb data ""); [discriminate|].
  intros H. apply andb_true_iff in H. destruct H as [Hlen _].
  apply Nat.eqb_eq in Hlen.
  destruct getEncryptionKey as [key|]; [|reflexivity].
  destruct (split ":" data) as [|a [|b [|c [|d rest]]]]; try reflexivity.
  discriminate Hlen.
Qed.


Lemma append_cons (c : ascii) (s t : string) :
  (String c s ++ t)%string = String c (s ++ t)%string.
Proof. reflexivity. Qed.





End EncryptionFacts.

Lemma verifyHash_round_trip_witness :
  let hashed := fst (Backup.hash BackupScenario.demoPbkdf2 "A1B2C3D4" "" "5a") in
  snd (Backup.hash BackupScenario.demoPbkdf2 "A1B2C3D4" "" "5a") = "5a"%string
  /\ Backup.verifyHash BackupScenario.demoPbkdf2 "A1B2C3D4" hashed "5a" "6b" = true.
Proof.
  intros hashed. split; [reflexivity|].
  apply (verifyHash_round_trip BackupScenario.demoPbkdf2 "A1B2C3D4" "" "5a" "6b").
  vm_compute. discriminate.
Defined.

Lemma isEncrypted_never_decrypts_witness :
  Encryption.isEncrypted "0a:1b:2c:3d" = true
  /\ Encryption.decrypt (Returned CipherScenario.demoKey) CipherScenario.demoDecipher
       "0a:1b:2c:3d" = Threw.
Proof.
  split; [reflexivity|].
  apply (isEncrypted_never_decrypts (Returned CipherScenario.demoKey)
           CipherScenario.demoDecipher "0a:1b:2c:3d").
  reflexivity.
Defined.


(** ** The geolocation cache and the anomaly checks *)

Section GeoMore.

Import Geo GeoCache.

Ltac run_geo2 :=
  cbv beta iota zeta delta [getLocation tryCatch bind modify gets throw ret lift].

Lemma wellFormed_empty : wellFormed ∅.
Proof. intros key location timestamp H. rewrite lookup_empty in H. discriminate. Qed.

(** Every way out of [getLocation], with the cache it leaves. *)
Lemma getLocation_cases (env : Env) (ipAddress : string) (cache : Cache) :
  (exists location timestamp,
     cache !! ipAddress = Some (location, timestamp)
     /\ clock env - timestamp < CACHE_DURATION
     /\ getLocation env ipAddress cache = (Returned (Some location), cache))
  \/ (isFresh env (cache !! ipAddress) = false
      /\ isLocalIP ipAddress = true
      /\ getLocation env ipAddress cache = (Returned (Some (getLocalLocation ipAddress)), cache))
  \/ (isFresh env (cache !! ipAddress) = false
      /\ isLocalIP ipAddress = false
      /\ exists data,
           provider env ipAddress = Returned data
           /\ api_status data = Some "success"%string
           /\ getLocation env ipAddress cache
              = (Returned (Some (locationOf ipAddress data)),
                 <[ipAddress := (locationOf ipAddress data, clock env)]> cache))
  \/ (isFresh env (cache !! ipAddress) = false
      /\ isLocalIP ipAddress = false
      /\ getLocation env ipAddress cache = (Returned None, cache)).
Proof.
  run_geo2. destruct (cache !! ipAddress) as [[location timestamp]|] eqn:Hc; cbn [isFresh].
  - destruct (Z.ltb_spec (clock env - timestamp) CACHE_DURATION) as [Hf|Hf].
    + left. exists location, timestamp. auto.
    + right. destruct (isLocalIP ipAddress); [left; auto|right].
      destruct (provider env ipAddress) as [data|]; [|right; auto].
      destruct (bool_decide_reflect (api_status data = Some "success"%string));
        [left; split; [reflexivity|]; split; [reflexivity|]; exists data; auto|right; auto].
  - right. destruct (isLocalIP ipAddress); [left; auto|right].
    destruct (provider env ipAddress) as [data|]; [|right; auto].
    destruct (bool_decide_reflect (api_status data = Some "success"%string));
      [left; split; [reflexivity|]; split; [reflexivity|]; exists data; auto|right; auto].
Qed.

Lemma getLocation_keeps_wellFormed (env : Env) (ipAddress : string) (cache : Cache) :
  wellFormed cache -> wellFormed (snd (getLocation env ipAddress cache)).
Proof.
  intros Hwf.
  destruct (getLocation_cases env ipAddress cache)
    as [(l & t & _ & _ & ->) | [(_ & _ & ->) | [(_ & Hl & d & _ & _ & ->) | (_ & _ & ->)]]];
    try exact Hwf.
  cbn [snd]. intros key location timestamp Hk.
  destruct (decide (ipAddress = key)) as [<-|Hne].
  - rewrite lookup_insert_eq in Hk. injection Hk as <- <-. split; [reflexivity|exact Hl].
  - rewrite lookup_insert_ne in Hk by exact Hne. exact (Hwf _ _ _ Hk).
Qed.

Lemma getLocations_keep_wellFormed (env : Env) (ips : list string) (cache : Cache) :
  wellFormed cache -> wellFormed (snd (getLocations env ips cache)).
Proof.
  revert cache. induction ips as [|ip0 rest IH]; intros cache Hwf; [exact Hwf|].
  cbn [getLocations]. unfold bind at 1.
  pose proof (getLocation_keeps_wellFormed env ip0 cache Hwf) as H1.
  destruct (getLocation env ip0 cache) as [[location|] cache1]; cbn [snd] in *; [|exact H1].
  unfold bind at 1. specialize (IH cache1 H1).
  destruct (getLocations env rest cache1) as [[locations|] cache2]; exact IH.
Qed.

(** X13: the cache stays well formed under [getLocation] and
    [detectAnomalies] (every entry sits under the address its location
    names, and no local address is ever cached); on such a cache a local
    address resolves to the synthetic Local location, whatever the provider
    would say and without any change to the cache; and a location that
    [getLocation] returns names the address asked for. *)
Theorem cache_stays_wellFormed (env : Env) (userId ipAddress : string) (cache : Cache) :
  wellFormed cache ->
  wellFormed (snd (getLocation env ipAddress cache))
  /\ wellFormed (snd (detectAnomalies env userId ipAddress cache))
  /\ (isLocalIP ipAddress = true ->
      getLocation env ipAddress cache = (Returned (Some (getLocalLocation ipAddress)), cache))
  /\ (forall location,
        fst (getLocation env ipAddress cache) = Returned (Some location) ->
        ip location = ipAddress).
Proof.
  intros Hwf. split; [apply getLocation_keeps_wellFormed; exact Hwf|]. split; [|split].
  - unfold detectAnomalies, tryCatch. unfold bind at 1.
    pose proof (getLocation_keeps_wellFormed env ipAddress cache Hwf) as H1.
    destruct (getLocation env ipAddress cache) as [[[currentLocation|]|] cache1];
      cbn [snd] in *; try exact H1.
    unfold bind at 1. unfold lift.
    destruct (recentLogins env userId) as [previousLogins|]; [|exact H1].
    destruct (length previousLogins =? 0)%nat; [exact H1|].
    unfold bind at 1.
    match goal with
    | |- context [getLocations env ?ips cache1] =>
        pose proof (getLocations_keep_wellFormed env ips cache1 H1) as H2;
        destruct (getLocations env ips cache1) as [[locations|] cache2]
    end; exact H2.
  - intros Hlocal.
    destruct (getLocation_cases env ipAddress cache)
      as [(l & t & Hc & _ & _) | [(_ & _ & E) | [(_ & Hl & _) | (_ & Hl & _)]]];
      [|exact E|congruence|congruence].
    destruct (Hwf _ _ _ Hc) as [_ Hn]. congruence.
  - intros location.
    destruct (getLocation_cases env ipAddress cache)
      as [(l & t & Hc & _ & ->) | [(_ & _ & ->) | [(_ & _ & d & _ & _ & ->) | (_ & _ & ->)]]];
      cbn [fst]; intros [= <-]; try reflexivity.
    destruct (Hwf _ _ _ Hc) as [Hip _]. exact Hip.
Qed.

(** X14: a resolved location is served from the cache for 24 hours and not
    a millisecond longer.  After a successful resolution, any later call
    within [CACHE_DURATION] returns the same location without consulting the
    provider and without touching the cache; from [CACHE_DURATION] on, and
    likewise after [clearCache], the provider decides again, so that a
    provider that is down then yields null although the old entry is still
    in the cache. *)
Theorem cache_round_trip (env later : Env) (ipAddress : string) (cache : Cache)
        (data : ApiData) :
  let cache1 := snd (getLocation env ipAddress cache) in
  let location := locationOf ipAddress data in
  isLocalIP ipAddress = false ->
  isFresh env (cache !! ipAddress) = false ->
  provider env ipAddress = Returned data ->
  api_status data = Some "success"%string ->
  fst (getLocation env ipAddress cache) = Returned (Some location)
  /\ (clock later - clock env < CACHE_DURATION ->
      getLocation later ipAddress cache1 = (Returned (Some location), cache1))
  /\ (CACHE_DURATION <= clock later - clock env -> provider later ipAddress = Threw ->
      getLocation later ipAddress cache1 = (Returned None, cache1))
  /\ (provider later ipAddress = Threw ->
      fst (getLocation later ipAddress (snd (clearCache cache1))) = Returned None).
Proof.
  intros cache1 location Hlocal Hmiss Hdata Hstatus.
  assert (Hrun : getLocation env ipAddress cache
                 = (Returned (Some location), <[ipAddress := (location, clock env)]> cache)).
  { run_geo2. rewrite Hmiss, Hlocal, Hdata.
    rewrite bool_decide_eq_true_2 by exact Hstatus. reflexivity. }
  assert (Hc1 : cache1 !! ipAddress = Some (location, clock env)).
  { unfold cache1. rewrite Hrun. apply lookup_insert_eq. }
  split; [rewrite Hrun; reflexivity|]. clearbody cache1. split; [|split].
  - intros Hfresh. run_geo2. rewrite Hc1. cbn [isFresh].
    destruct (Z.ltb_spec (clock later - clock env) CACHE_DURATION); [reflexivity|lia].
  - intros Hstale Hdown. run_geo2. rewrite Hc1. cbn [isFresh].
    destruct (Z.ltb_spec (clock later - clock env) CACHE_DURATION); [lia|].
    rewrite Hlocal, Hdown. reflexivity.
  - intros Hdown. unfold clearCache, modify. cbn [snd]. run_geo2.
    rewrite lookup_empty. cbn [isFresh]. rewrite Hlocal, Hdown. reflexivity.
Qed.

(** [detectAnomalies] never throws. *)
Lemma detectAnomalies_returns (env : Env) (userId currentIP : string) (cache : Cache) :
  exists anomalies cache',
    detectAnomalies env userId currentIP cache = (Returned anomalies, cache').
Proof.
  unfold detectAnomalies, tryCatch.
  match goal with
  | |- context [match ?m cache with _ => _ end] => destruct (m cache) as [[l|] c]
  end; eauto.
Qed.

(** The list that [detectAnomalies] returns once the current location has
    resolved and the user has earlier logins; [previous] is the resolution
    of the most recent earlier address. *)
Lemma detectAnomalies_with_history (env : Env) (userId currentIP : string)
      (cache cache1 : Cache) (currentLocation : GeoLocation) (previousLogins : list LoginRow) :
  getLocation env currentIP cache = (Returned (Some currentLocation), cache1) ->
  recentLogins env userId = Returned previousLogins ->
  previousLogins <> [] ->
  let previous :=
    match truthyAddresses previousLogins with
    | ip0 :: _ => valueOf (fst (getLocation env ip0 cache1))
    | [] => None
    end in
  fst (detectAnomalies env userId currentIP cache)
  = Returned (countryChange currentLocation previous
                ++ regionChange currentLocation previous
                ++ suspiciousProxy currentLocation
                ++ highRiskCountry currentLocation
                ++ unusualTime currentLocation (localHour env)).
Proof.
  intros Hcur Hlogins Hne previous.
  unfold detectAnomalies, tryCatch. unfold bind at 1. rewrite Hcur.
  unfold bind at 1. unfold lift. rewrite Hlogins.
  destruct previousLogins as [|login logins]; [contradiction|].
  cbn [length Nat.eqb]. unfold bind at 1.
  destruct (getLocations_returns env
              (distinctFrom [] (truthyAddresses (login :: logins))) cache1)
    as (locations & cache2 & -> & Hhead).
  unfold ret. cbn [fst].
  assert (Hprev : mjoin (locations !! 0%nat) = previous).
  { rewrite Hhead. subst previous.
    destruct (truthyAddresses (login :: logins)) as [|ip0 ips]; [reflexivity|].
    cbn [distinctFrom]. rewrite bool_decide_eq_false_2 by apply not_elem_of_nil.
    reflexivity. }
  rewrite Hprev. reflexivity.
Qed.

Lemma detectAnomalies_unresolved (env : Env) (userId currentIP : string) (cache : Cache) :
  valueOf (fst (getLocation env currentIP cache)) = None ->
  fst (detectAnomalies env userId currentIP cache) = Returned [].
Proof.
  intros H. unfold detectAnomalies, tryCatch. unfold bind at 1.
  destruct (getLocation_returns env currentIP cache) as (location & cache1 & Hloc).
  rewrite Hloc in *. cbn [fst valueOf] in H. subst location. reflexivity.
Qed.

(** X15: without a baseline there is no anomaly.  When the current address
    does not resolve, when the query for earlier logins throws, or when the
    user has no earlier login, [detectAnomalies] returns the empty list,
    even for a login through a proxy or from a high-risk country. *)
Theorem detectAnomalies_no_baseline (env : Env) (userId currentIP : string) (cache : Cache) :
  valueOf (fst (getLocation env currentIP cache)) = None
  \/ recentLogins env userId = Threw
  \/ recentLogins env userId = Returned [] ->
  fst (detectAnomalies env userId currentIP cache) = Returned [].
Proof.
  intros [H|H]; [apply detectAnomalies_unresolved; exact H|].
  unfold detectAnomalies, tryCatch. unfold bind at 1.
  destruct (getLocation_returns env currentIP cache) as (location & cache1 & Hloc).
  rewrite Hloc. destruct location as [currentLocation|]; [|reflexivity].
  destruct H as [H|H]; unfold bind, lift; rewrite H; reflexivity.
Qed.

(** X16: the checks on the current location alone.  Once the current
    address has resolved and the user has earlier logins, the report holds
    SUSPICIOUS_PROXY exactly when the location is flagged proxy or vpn,
    HIGH_RISK_COUNTRY exactly when its country code is one of KP, IR, SY,
    CU, RU, and UNUSUAL_TIME exactly when the server's local hour is before
    6 (for an hour of the day the test [currentHour > 23] never holds, so a
    late-evening login is not unusual). *)
Theorem detectAnomalies_context_checks (env : Env) (userId currentIP : string)
        (cache cache1 : Cache) (currentLocation : GeoLocation)
        (previousLogins : list LoginRow) :
  getLocation env currentIP cache = (Returned (Some currentLocation), cache1) ->
  recentLogins env userId = Returned previousLogins ->
  previousLogins <> [] ->
  0 <= localHour env <= 23 ->
  exists anomalies,
    fst (detectAnomalies env userId currentIP cache) = Returned anomalies
    /\ emits SUSPICIOUS_PROXY anomalies = proxy currentLocation || vpn currentLocation
    /\ emits HIGH_RISK_COUNTRY anomalies
       = bool_decide (countryCode currentLocation ∈ ["KP"; "IR"; "SY"; "CU"; "RU"]%string)
    /\ emits UNUSUAL_TIME anomalies = (localHour env <? 6).
Proof.
  intros Hcur Hlogins Hne Hhour. eexists. split.
  { apply (detectAnomalies_with_history _ _ _ _ _ _ _ Hcur Hlogins Hne). }
  rewrite !emits_app.
  assert (Hlate : (23 <? localHour env) = false) by (apply Z.ltb_ge; lia).
  unfold countryChange, regionChange, suspiciousProxy, highRiskCountry, unusualTime.
  rewrite Hlate, orb_false_r. change HIGH_RISK_COUNTRIES with ["KP"; "IR"; "SY"; "CU"; "RU"]%string.
  repeat match goal with
         | |- context [if ?b then _ else _] => destruct b
         end; repeat split; reflexivity.
Qed.

(** The two shapes of a report: empty, or the results of the five checks in
    source order. *)
Lemma detectAnomalies_cases (env : Env) (userId currentIP : string) (cache : Cache) :
  fst (detectAnomalies env userId currentIP cache) = Returned []
  \/ exists currentLocation previous,
       fst (detectAnomalies env userId currentIP cache)
       = Returned (countryChange currentLocation previous
                     ++ regionChange currentLocation previous
                     ++ suspiciousProxy currentLocation
                     ++ highRiskCountry currentLocation
                     ++ unusualTime currentLocation (localHour env)).
Proof.
  destruct (getLocation_returns env currentIP cache) as ([currentLocation|] & cache1 & Hloc).
  - destruct (recentLogins env userId) as [previousLogins|] eqn:Hlogins.
    + destruct previousLogins as [|login logins].
      * left. unfold detectAnomalies, tryCatch. unfold bind at 1. rewrite Hloc.
        unfold bind, lift. rewrite Hlogins. reflexivity.
      * right. eexists _, _.
        apply (detectAnomalies_with_history _ _ _ _ _ _ _ Hloc Hlogins). discriminate.
    + left. unfold detectAnomalies, tryCatch. unfold bind at 1. rewrite Hloc.
      unfold bind, lift. rewrite Hlogins. reflexivity.
  - left. apply detectAnomalies_unresolved. rewrite Hloc. reflexivity.
Qed.

(** X17: the shape of every report.  The types of the anomalies form a
    sublist of COUNTRY_CHANGE, REGION_CHANGE, SUSPICIOUS_PROXY,
    HIGH_RISK_COUNTRY, UNUSUAL_TIME: at most five anomalies, in that order,
    no type twice, and never CITY_CHANGE.  Each type carries its fixed
    severity and risk score. *)
Theorem detectAnomalies_report_shape (env : Env) (userId currentIP : string)
        (cache : Cache) (anomalies : list LocationAnomaly) :
  fst (detectAnomalies env userId currentIP cache) = Returned anomalies ->
  sublist (type <$> anomalies)
          [COUNTRY_CHANGE; REGION_CHANGE; SUSPICIOUS_PROXY; HIGH_RISK_COUNTRY; UNUSUAL_TIME]
  /\ Forall (fun a =>
               (type a, severity a, riskScore a)
               ∈ [(COUNTRY_CHANGE, HIGH, 8 # 10); (REGION_CHANGE, MEDIUM, 6 # 10);
                  (SUSPICIOUS_PROXY, MEDIUM, 7 # 10); (HIGH_RISK_COUNTRY, CRITICAL, 9 # 10);
                  (UNUSUAL_TIME, LOW, 3 # 10)])
            anomalies.
Proof.
  intros Hrun.
  destruct (detectAnomalies_cases env userId currentIP cache)
    as [H|(currentLocation & previous & H)];
    rewrite H in Hrun; injection Hrun as <-.
  { split; [apply sublist_nil_l|constructor]. }
  unfold countryChange, regionChange, suspiciousProxy, highRiskCountry, unusualTime.
  repeat match goal with
         | |- context [if ?b then _ else _] => destruct b
         end;
    cbn [app fmap list_fmap type severity riskScore];
    (split;
     [ repeat first [apply sublist_nil_l | apply sublist_skip | apply sublist_cons]
     | repeat constructor; cbn [type severity riskScore];
       repeat first [apply list_elem_of_here | apply list_elem_of_further] ]).
Qed.

Lemma countryChange_emits (currentLocation : GeoLocation) (previous : option GeoLocation) :
  emits COUNTRY_CHANGE (countryChange currentLocation previous) = true
  <-> exists p, previous = Some p
                /\ countryCode p <> ""%string
                /\ countryCode p <> countryCode currentLocation.
Proof.
  unfold countryChange.
  destruct previous as [p|]; cbn [fmap option_fmap option_map truthy default andb id].
  - destruct (String.eqb_spec (countryCode p) "") as [E|E]; cbn [negb andb emits existsb].
    + split; [discriminate|]. intros (q & [= <-] & H & _). contradiction.
    + destruct (String.eqb_spec (countryCode p) (countryCode currentLocation)) as [E'|E'];
        cbn [negb emits existsb type AnomalyType_eqb orb].
      * split; [discriminate|]. intros (q & [= <-] & _ & H). contradiction.
      * split; [|reflexivity]. intros _. exists p. auto.
  - split; [discriminate|]. intros (q & [=] & _).
Qed.

(** X18: COUNTRY_CHANGE compares with one address only.  Once the current
    address has resolved and the user has earlier logins, the report holds
    COUNTRY_CHANGE exactly when the most recent earlier login that has an
    address resolves to a location whose country code is non-empty and
    differs from the current one.  If that address does not resolve, or no
    earlier login has an address, older logins are not consulted and no
    COUNTRY_CHANGE is reported. *)
Theorem detectAnomalies_country_change (env : Env) (userId currentIP : string)
        (cache cache1 : Cache) (currentLocation : GeoLocation)
        (previousLogins : list LoginRow) :
  getLocation env currentIP cache = (Returned (Some currentLocation), cache1) ->
  recentLogins env userId = Returned previousLogins ->
  previousLogins <> [] ->
  let previous :=
    match truthyAddresses previousLogins with
    | ip0 :: _ => valueOf (fst (getLocation env ip0 cache1))
    | [] => None
    end in
  exists anomalies,
    fst (detectAnomalies env userId currentIP cache) = Returned anomalies
    /\ (emits COUNTRY_CHANGE anomalies = true
        <-> exists p, previous = Some p
                      /\ countryCode p <> ""%string
                      /\ countryCode p <> countryCode currentLocation).
Proof.
  intros Hcur Hlogins Hne previous. eexists. split.
  { apply (detectAnomalies_with_history _ _ _ _ _ _ _ Hcur Hlogins Hne). }
  fold previous. rewrite <- countryChange_emits. rewrite !emits_app.
  assert (Hrest : emits COUNTRY_CHANGE (regionChange currentLocation previous) = false
                  /\ emits COUNTRY_CHANGE (suspiciousProxy currentLocation) = false
                  /\ emits COUNTRY_CHANGE (highRiskCountry currentLocation) = false
                  /\ emits COUNTRY_CHANGE (unusualTime currentLocation (localHour env)) = false).
  { unfold regionChange, suspiciousProxy, highRiskCountry, unusualTime.
    repeat match goal with
           | |- context [if ?b then _ else _] => destruct b
           end; repeat split; reflexivity. }
  destruct Hrest as (-> & -> & -> & ->). rewrite !orb_false_r. reflexivity.
Qed.

End GeoMore.

Lemma cache_stays_wellFormed_witness :
  let cache1 := snd (Geo.getLocation GeoScenario.demoEnv "8.8.8.8" ∅) in
  GeoCache.wellFormed cache1
  /\ Geo.getLocation GeoScenario.demoEnv "192.168.1.5" cache1
     = (Returned (Some (Geo.getLocalLocation "192.168.1.5")), cache1).
Proof.
  intros cache1.
  assert (H1 : GeoCache.wellFormed cache1).
  { apply (cache_stays_wellFormed GeoScenario.demoEnv "user-123" "8.8.8.8" ∅).
    apply wellFormed_empty. }
  split; [exact H1|].
  apply (cache_stays_wellFormed GeoScenario.demoEnv "user-123" "192.168.1.5" cache1 H1).
  reflexivity.
Defined.

Lemma cache_round_trip_witness :
  let env := GeoScenario.demoEnv in
  let later := ProxyScenario.downEnv (1700000000000 + 3600000) in
  let cache1 := snd (Geo.getLocation env "8.8.8.8" ∅) in
  fst (Geo.getLocation env "8.8.8.8" ∅) = Returned (Some GeoScenario.current)
  /\ Geo.getLocation later "8.8.8.8" cache1 = (Returned (Some GeoScenario.current), cache1).
Proof.
  intros env later cache1.
  destruct (cache_round_trip env later "8.8.8.8" ∅
              (GeoScenario.reply "United States" "US" "California" "CA" "San Francisco"))
    as (Hfirst & Hhit & _).
  - reflexivity.
  - reflexivity.
  - reflexivity.
  - reflexivity.
  - split; [exact Hfirst|]. apply Hhit. reflexivity.
Defined.

Lemma detectAnomalies_no_baseline_witness :
  Geo.recentLogins GeoScenario.demoEnv "nobody" = Returned []
  /\ fst (Geo.detectAnomalies GeoScenario.demoEnv "nobody" "8.8.8.8" ∅) = Returned [].
Proof.
  split; [reflexivity|].
  apply (detectAnomalies_no_baseline GeoScenario.demoEnv "nobody" "8.8.8.8" ∅).
  right. right. reflexivity.
Defined.

Lemma detectAnomalies_context_checks_witness :
  exists anomalies,
    fst (Geo.detectAnomalies ProxyScenario.nightEnv "user-123" "5.5.5.5" ∅)
    = Returned anomalies
    /\ Geo.emits Geo.SUSPICIOUS_PROXY anomalies
       = Geo.proxy ProxyScenario.current || Geo.vpn ProxyScenario.current
    /\ Geo.emits Geo.HIGH_RISK_COUNTRY anomalies
       = bool_decide (Geo.countryCode ProxyScenario.current
                        ∈ ["KP"; "IR"; "SY"; "CU"; "RU"]%string)
    /\ Geo.emits Geo.UNUSUAL_TIME anomalies = (Geo.localHour ProxyScenario.nightEnv <? 6).
Proof.
  apply (detectAnomalies_context_checks ProxyScenario.nightEnv "user-123" "5.5.5.5" ∅
           (<["5.5.5.5"%string := (ProxyScenario.current, 1700000000000)]> ∅)
           ProxyScenario.current [Geo.mkLogin (Some "1.1.1.1"%string)]).
  - vm_compute. reflexivity.
  - reflexivity.
  - discriminate.
  - vm_compute. split; discriminate.
Defined.

Lemma detectAnomalies_report_shape_witness :
  exists anomalies,
    fst (Geo.detectAnomalies ProxyScenario.nightEnv "user-123" "5.5.5.5" ∅)
    = Returned anomalies
    /\ sublist (Geo.type <$> anomalies)
               [Geo.COUNTRY_CHANGE; Geo.REGION_CHANGE; Geo.SUSPICIOUS_PROXY;
                Geo.HIGH_RISK_COUNTRY; Geo.UNUSUAL_TIME]
    /\ length anomalies = 5%nat.
Proof.
  destruct (Geo.detectAnomalies ProxyScenario.nightEnv "user-123" "5.5.5.5" ∅)
    as [[anomalies|] cache1] eqn:Hrun; [|vm_compute in Hrun; discriminate].
  exists anomalies. split; [reflexivity|]. split.
  - apply (detectAnomalies_report_shape ProxyScenario.nightEnv "user-123" "5.5.5.5" ∅
             anomalies).
    rewrite Hrun. reflexivity.
  - vm_compute in Hrun. injection Hrun as <- _. reflexivity.
Defined.

Lemma detectAnomalies_country_change_witness :
  exists anomalies,
    fst (Geo.detectAnomalies ProxyScenario.nightEnv "user-123" "5.5.5.5" ∅)
    = Returned anomalies
    /\ (Geo.emits Geo.COUNTRY_CHANGE anomalies = true
        <-> exists p, Some GeoScenario.earlier = Some p
                      /\ Geo.countryCode p <> ""%string
                      /\ Geo.countryCode p <> Geo.countryCode ProxyScenario.current).
Proof.
  assert (Hprev : valueOf (fst (Geo.getLocation ProxyScenario.nightEnv "1.1.1.1"
                     (<["5.5.5.5"%string := (ProxyScenario.current, 1700000000000)]> ∅)))
                  = Some GeoScenario.earlier)
    by (vm_compute; reflexivity).
  rewrite <- Hprev.
  apply (detectAnomalies_country_change ProxyScenario.nightEnv "user-123" "5.5.5.5" ∅
           (<["5.5.5.5"%string := (ProxyScenario.current, 1700000000000)]> ∅)
           ProxyScenario.current [Geo.mkLogin (Some "1.1.1.1"%string)]).
  - vm_compute. reflexivity.
  - reflexivity.
  - discriminate.
Defined.

(** ** The blacklist, its cache and the log tables *)

Section BlacklistMore.

Import Audit AuditAdmin.

Ltac run_admin2 :=
  cbv beta iota zeta delta
    [isBlacklisted getBlacklistReason addToBlacklist upsert removeFromBlacklist deleteRow
     handleSuspiciousActivity logSecurityEvent createSecurityLog getAuditStats countWhere
     initializeCache findMany countRows getBlacklistStats deleteManyRows
     cleanupExpiredEntries deleteManyBefore cleanupOldLogs
     tryCatch bind modify gets throw ret lift].

(** The answer of [isBlacklisted], read off the cache. *)
Lemma isBlacklisted_answer (env : Env) (ipAddress : string) (w : World) :
  fst (isBlacklisted env ipAddress w)
  = Returned match blacklistCache w !! ipAddress with
             | Some entry => negb (expiredAt (clock env) (expiresAt entry))
             | None => false
             end.
Proof.
  run_admin2. destruct (blacklistCache w !! ipAddress) as [entry|]; [|reflexivity].
  unfold expiredAt. destruct (expiresAt entry) as [expiry|]; [|reflexivity].
  destruct (dateLt expiry (Date (clock env))); reflexivity.
Qed.

(** [isBlacklisted] leaves the world as it was or evicts the entry it
    looked up. *)
Lemma isBlacklisted_world (env : Env) (ipAddress : string) (w : World) :
  snd (isBlacklisted env ipAddress w) = w
  \/ snd (isBlacklisted env ipAddress w) = setCache (delete ipAddress) w.
Proof.
  run_admin2. destruct (blacklistCache w !! ipAddress) as [entry|]; [|left; reflexivity].
  destruct (expiresAt entry) as [expiry|]; [|left; reflexivity].
  destruct (dateLt expiry (Date (clock env))); [right|left]; reflexivity.
Qed.

Lemma mirrors_delete (ipAddress : string) (w : World) :
  mirrors w -> mirrors (setCache (delete ipAddress) w).
Proof.
  intros Hm ip entry H. cbn [setCache blacklistCache iPBlacklist] in *.
  apply lookup_delete_Some in H. destruct H as [_ H]. exact (Hm ip entry H).
Qed.

Lemma mirrors_addToBlacklist (env : Env) (data : BlacklistRequest) (w : World) :
  mirrors w -> mirrors (snd (addToBlacklist env data w)).
Proof.
  intros Hm. run_admin2. destruct (blacklistOk env); [|exact Hm].
  intros ip entry H. cbn [snd setCache setTable blacklistCache iPBlacklist] in *.
  destruct (decide (reqIpAddress data = ip)) as [<-|Hne].
  - rewrite lookup_insert_eq in H. injection H as <-.
    rewrite lookup_insert_eq. eexists. split; [reflexivity|]. split; reflexivity.
  - rewrite lookup_insert_ne in H by exact Hne. rewrite lookup_insert_ne by exact Hne.
    exact (Hm ip entry H).
Qed.

Lemma mirrors_securityLog (f : list SecurityLogRow -> list SecurityLogRow) (w : World) :
  mirrors w -> mirrors (setSecurityLog f w).
Proof. intros Hm. exact Hm. Qed.

Lemma logSecurityEvent_world (env : Env) (data : SecurityEvent) (w : World) :
  exists f, logSecurityEvent env data w = (Returned tt, setSecurityLog f w)
            /\ (forall l, exists rows, f l = l ++ rows).
Proof.
  run_admin2. destruct (logsOk env).
  - eexists (fun l => l ++ [_]). split; [reflexivity|]. intros l. eauto.
  - exists (fun l => l). split; [destruct w; reflexivity|].
    intros l. exists []. symmetry. apply app_nil_r.
Qed.

Lemma handleSuspiciousActivity_world (env : Env) (data : Suspicious) (w : World) :
  snd (handleSuspiciousActivity env data w) = w
  \/ exists request f,
       snd (handleSuspiciousActivity env data w)
       = setSecurityLog f (snd (addToBlacklist env request w))
       /\ reqIpAddress request = susIpAddress data
       /\ reqDuration request = Some (durationOf (susActivity data))
       /\ (forall l, exists rows, f l = l ++ rows).
Proof.
  unfold handleSuspiciousActivity.
  destruct (susThreshold data <=? susCount data); [|left; reflexivity].
  right. unfold bind at 1.
  match goal with
  | |- context [addToBlacklist env ?r w] =>
      exists r; destruct (addToBlacklist env r w) as [[b|] w1] eqn:Hadd
  end.
  - match goal with
    | |- context [logSecurityEvent env ?e w1] =>
        destruct (logSecurityEvent_world env e w1) as (f & -> & Hf)
    end.
    exists f. cbn [snd]. split; [reflexivity|]. split; [reflexivity|]. split; [reflexivity|exact Hf].
  - exfalso. revert Hadd. run_admin2. destruct (blacklistOk env); discriminate.
Qed.

(** X19: the cache never holds an address that the table lacks.  If every
    cached entry has a row in the table with the same reason and expiry,
    this is still so after [addToBlacklist], [removeFromBlacklist],
    [isBlacklisted], [handleSuspiciousActivity], [initializeCache] and
    [cleanupExpiredEntries], whether the store answers or not. *)
Theorem blacklist_cache_mirrors_table (env : Env) (w : World) :
  mirrors w ->
  (forall data, mirrors (snd (addToBlacklist env data w)))
  /\ (forall ipAddress, mirrors (snd (removeFromBlacklist env ipAddress w)))
  /\ (forall ipAddress, mirrors (snd (isBlacklisted env ipAddress w)))
  /\ (forall data, mirrors (snd (handleSuspiciousActivity env data w)))
  /\ mirrors (snd (initializeCache env w))
  /\ mirrors (snd (cleanupExpiredEntries env w)).
Proof.
  intros Hm. repeat split.
  - intros data. apply mirrors_addToBlacklist, Hm.
  - intros ipAddress. run_admin2. destruct (blacklistOk env); [|exact Hm].
    destruct (iPBlacklist w !! ipAddress) as [row|] eqn:Hrow; [|exact Hm].
    intros ip entry H. cbn [snd setCache setTable blacklistCache iPBlacklist] in *.
    apply lookup_delete_Some in H. destruct H as [Hne H].
    rewrite lookup_delete_ne by exact Hne. exact (Hm ip entry H).
  - intros ipAddress. destruct (isBlacklisted_world env ipAddress w) as [->| ->];
      [exact Hm|apply mirrors_delete, Hm].
  - intros data.
    destruct (handleSuspiciousActivity_world env data w)
      as [->|(request & f & -> & _)]; [exact Hm|].
    apply mirrors_securityLog, mirrors_addToBlacklist, Hm.
  - run_admin2. destruct (blacklistOk env); [|exact Hm].
    intros ip entry H. cbn [snd setCache setTable blacklistCache iPBlacklist] in *.
    rewrite (right_id_L ∅ (∪)) in H.
    rewrite lookup_fmap in H.
    destruct (filter _ (iPBlacklist w) !! ip) as [row|] eqn:Hrow; [|discriminate].
    apply map_lookup_filter_Some in Hrow. destruct Hrow as [Hrow _].
    injection H as <-. exists row. split; [exact Hrow|]. split; reflexivity.
  - run_admin2. destruct (blacklistOk env); [|exact Hm].
    intros ip entry H. cbn [snd setCache setTable blacklistCache iPBlacklist] in *.
    apply map_lookup_filter_Some in H. destruct H as [H Hlive]. cbn [snd] in Hlive.
    destruct (Hm ip entry H) as (row & Hrow & Hreason & Hexpiry).
    exists row. split; [|auto].
    apply map_lookup_filter_Some. split; [exact Hrow|]. cbn [snd].
    rewrite Hexpiry. exact Hlive.
Qed.

Lemma initializeCache_cache (env : Env) (w : World) (ipAddress : string) :
  blacklistOk env = true ->
  iPBlacklist (snd (initializeCache env w)) = iPBlacklist w
  /\ blacklistCache (snd (initializeCache env w)) !! ipAddress
     = match iPBlacklist w !! ipAddress with
       | Some row =>
           if liveAt (clock env) (rowExpiresAt row)
           then Some (mkEntry (rowReason row) (rowExpiresAt row))
           else None
       | None => None
       end.
Proof.
  intros Hup. run_admin2. rewrite Hup.
  cbn [snd setCache setTable blacklistCache iPBlacklist]. split; [reflexivity|].
  rewrite (right_id_L ∅ (∪)), lookup_fmap.
  destruct (iPBlacklist w !! ipAddress) as [row|] eqn:Hrow.
  - destruct (liveAt (clock env) (rowExpiresAt row)) eqn:Hlive.
    + rewrite (map_lookup_filter_Some_2 _ _ _ row Hrow); [reflexivity|exact Hlive].
    + rewrite (proj2 (map_lookup_filter_None _ _ _)); [reflexivity|].
      right. intros row' Hrow'. rewrite Hrow in Hrow'. injection Hrow' as <-.
      cbn [snd]. rewrite Hlive. discriminate.
  - rewrite (proj2 (map_lookup_filter_None _ _ _)); [reflexivity|]. left. exact Hrow.
Qed.

(** X20: [initializeCache] makes the cache answer from the table.  When
    the store answers, then whatever the cache held before, right after the
    call [isBlacklisted] is true for an address exactly when the table has a
    row for it that is permanent or expires strictly after the present
    instant (a row that expires at this very instant is not loaded), the
    table is unchanged and every cached entry mirrors its row.  When the
    store does not answer, the call returns normally and the old cache
    stays in use. *)
Theorem initializeCache_loads_live_rows (env : Env) (w : World) :
  (blacklistOk env = true ->
   let w1 := snd (initializeCache env w) in
   fst (initializeCache env w) = Returned tt
   /\ iPBlacklist w1 = iPBlacklist w
   /\ mirrors w1
   /\ forall ipAddress,
        fst (isBlacklisted env ipAddress w1)
        = Returned match iPBlacklist w !! ipAddress with
                   | Some row => liveAt (clock env) (rowExpiresAt row)
                   | None => false
                   end)
  /\ (blacklistOk env = false -> initializeCache env w = (Returned tt, w)).
Proof.
  split.
  - intros Hup w1.
    split; [run_admin2; rewrite Hup; reflexivity|].
    split; [apply (initializeCache_cache env w ""%string Hup)|].
    split.
    + intros ip entry H. unfold w1 in *.
      destruct (initializeCache_cache env w ip Hup) as [-> Hcache].
      rewrite Hcache in H.
      destruct (iPBlacklist w !! ip) as [row|]; [|discriminate].
      destruct (liveAt (clock env) (rowExpiresAt row)); [|discriminate].
      injection H as <-. exists row. split; [reflexivity|]. split; reflexivity.
    + intros ipAddress. rewrite isBlacklisted_answer. unfold w1.
      destruct (initializeCache_cache env w ipAddress Hup) as [_ ->].
      destruct (iPBlacklist w !! ipAddress) as [row|]; [|reflexivity].
      destruct (liveAt (clock env) (rowExpiresAt row)) eqn:Hlive; [|reflexivity].
      cbn [expiresAt]. unfold liveAt, expiredAt in *.
      destruct (rowExpiresAt row) as [[t|]|]; cbn [dateLt] in *; try reflexivity.
      apply Z.ltb_lt in Hlive.
      destruct (Z.ltb_spec t (clock env)); [lia|reflexivity].
  - intros Hdown. run_admin2. rewrite Hdown. reflexivity.
Qed.

(** X21: [removeFromBlacklist] undoes [addToBlacklist].  After an addition
    that succeeded, a removal of the same address while the store answers
    returns true; afterwards the table has no row for the address,
    [isBlacklisted] is false for it at any time, and the rows and entries of
    all other addresses are as they were before the addition.  While the
    store does not answer, the removal returns false and changes nothing,
    so the address stays blocked. *)
Theorem removeFromBlacklist_after_add (env later : Env) (data : BlacklistRequest) (w : World) :
  let ipAddress := reqIpAddress data in
  let w1 := snd (addToBlacklist env data w) in
  let w2 := snd (removeFromBlacklist later ipAddress w1) in
  fst (addToBlacklist env data w) = Returned true ->
  (blacklistOk later = true ->
   fst (removeFromBlacklist later ipAddress w1) = Returned true
   /\ iPBlacklist w2 !! ipAddress = None
   /\ (forall anytime, isBlacklisted anytime ipAddress w2 = (Returned false, w2))
   /\ (forall other, other <> ipAddress ->
         iPBlacklist w2 !! other = iPBlacklist w !! other
         /\ blacklistCache w2 !! other = blacklistCache w !! other))
  /\ (blacklistOk later = false ->
      removeFromBlacklist later ipAddress w1 = (Returned false, w1)).
Proof.
  intros ipAddress w1 w2 Hadd.
  assert (Hw1 : blacklistOk env = true
                /\ w1 = setCache (fun c => <[ipAddress := mkEntry (reqReason data)
                                                (expiryOf env (reqDuration data))]> c)
                          (setTable (fun t =>
                             <[ipAddress :=
                                 mkRow (reqReason data) (expiryOf env (reqDuration data))
                                   (reqSource data) (reqDetails data)
                                   match t !! ipAddress with
                                   | Some old => rowCreatedAt old
                                   | None => clock env
                                   end (clock env)]> t) w)).
  { revert Hadd. unfold w1. run_admin2. destruct (blacklistOk env); [|discriminate].
    intros _. split; reflexivity. }
  destruct Hw1 as [_ Hw1]. split.
  - intros Hup.
    assert (Hrow : is_Some (iPBlacklist w1 !! ipAddress)).
    { rewrite Hw1. cbn [setCache setTable iPBlacklist]. rewrite lookup_insert_eq. eauto. }
    assert (Hw2 : removeFromBlacklist later ipAddress w1
                  = (Returned true, setCache (delete ipAddress) (setTable (delete ipAddress) w1))).
    { run_admin2. rewrite Hup. destruct Hrow as [row ->]. reflexivity. }
    unfold w2. rewrite Hw2. cbn [fst snd]. clear Hrow Hw2. clearbody w1. subst w1.
    cbn [setCache setTable iPBlacklist blacklistCache auditLog securityLog].
    split; [reflexivity|]. split; [apply lookup_delete_eq|]. split.
    + intros anytime. run_admin2. cbn [blacklistCache setCache setTable].
      rewrite lookup_delete_eq. reflexivity.
    + intros other Hne.
      rewrite !lookup_delete_ne by (intros E; apply Hne; symmetry; exact E).
      rewrite !lookup_insert_ne by (intros E; apply Hne; symmetry; exact E).
      split; reflexivity.
  - intros Hdown. run_admin2. rewrite Hdown. reflexivity.
Qed.

Lemma expiredAt_mono (now later : Z) (expiry : option date) :
  now <= later -> expiredAt now expiry = true -> expiredAt later expiry = true.
Proof.
  unfold expiredAt. destruct expiry as [[t|]|]; cbn [dateLt]; try discriminate.
  intros Hle H. apply Z.ltb_lt in H. apply Z.ltb_lt. lia.
Qed.

(** X22: [cleanupExpiredEntries] is invisible to lookups.  At the instant
    of the cleanup and at any later one, [isBlacklisted] gives the same
    answer for every address with and without the cleanup.  When the store
    answers, exactly the rows and cache entries that expired strictly before
    the present instant are removed (permanent ones never are); when it does
    not, the call returns 0 and changes nothing, the cache included. *)
Theorem cleanupExpiredEntries_transparent (env later : Env) (w : World) :
  let w1 := snd (cleanupExpiredEntries env w) in
  (clock env <= clock later ->
   forall ipAddress,
     fst (isBlacklisted later ipAddress w1) = fst (isBlacklisted later ipAddress w))
  /\ (blacklistOk env = true ->
      (forall ipAddress row,
         iPBlacklist w1 !! ipAddress = Some row
         <-> iPBlacklist w !! ipAddress = Some row
             /\ expiredAt (clock env) (rowExpiresAt row) = false)
      /\ (forall ipAddress entry,
            blacklistCache w1 !! ipAddress = Some entry
            <-> blacklistCache w !! ipAddress = Some entry
                /\ expiredAt (clock env) (expiresAt entry) = false))
  /\ (blacklistOk env = false -> cleanupExpiredEntries env w = (Returned 0, w)).
Proof.
  intros w1.
  assert (Hcache : blacklistOk env = true ->
                   blacklistCache w1
                   = filter (fun kv => expiredAt (clock env) (expiresAt kv.2) = false)
                       (blacklistCache w)).
  { intros Hup. unfold w1. run_admin2. rewrite Hup. reflexivity. }
  assert (Htable : blacklistOk env = true ->
                   iPBlacklist w1
                   = filter (fun kv => expiredAt (clock env) (rowExpiresAt kv.2) = false)
                       (iPBlacklist w)).
  { intros Hup. unfold w1. run_admin2. rewrite Hup. reflexivity. }
  assert (Hdown : blacklistOk env = false -> cleanupExpiredEntries env w = (Returned 0, w)).
  { intros Hdown. run_admin2. rewrite Hdown. reflexivity. }
  split; [|split; [|exact Hdown]].
  - intros Hle ipAddress. rewrite !isBlacklisted_answer.
    destruct (blacklistOk env) eqn:Hup.
    + rewrite (Hcache eq_refl).
      destruct (blacklistCache w !! ipAddress) as [entry|] eqn:Hentry.
      * destruct (expiredAt (clock env) (expiresAt entry)) eqn:Hexp.
        -- rewrite (proj2 (map_lookup_filter_None _ _ _)).
           ++ rewrite (expiredAt_mono _ _ _ Hle Hexp). reflexivity.
           ++ right. intros entry' Hentry'. rewrite Hentry in Hentry'.
              injection Hentry' as <-. cbn [snd]. rewrite Hexp. discriminate.
        -- rewrite (map_lookup_filter_Some_2 _ _ _ entry Hentry); [reflexivity|exact Hexp].
      * rewrite (proj2 (map_lookup_filter_None _ _ _)); [reflexivity|left; exact Hentry].
    + unfold w1. rewrite (Hdown eq_refl). reflexivity.
  - intros Hup. rewrite (Hcache Hup), (Htable Hup). split.
    + intros ipAddress row. apply map_lookup_filter_Some.
    + intros ipAddress entry. apply map_lookup_filter_Some.
Qed.

Lemma durationOf_range (activity : string) : 30 <= durationOf activity <= 240.
Proof.
  unfold durationOf.
  repeat match goal with
         | |- context [if ?b then _ else _] => destruct b
         end; lia.
Qed.

(** X23: an automatic block is never permanent.  When the count reaches
    the threshold and the store takes the write, the address is blocked for
    the next 30 minutes at least and is no longer blocked once 240 minutes
    have passed, whatever the activity is called (dates within the range of
    [Date]). *)
Theorem handleSuspiciousActivity_block_expires (env later : Env) (data : Suspicious)
        (w : World) :
  let w1 := snd (handleSuspiciousActivity env data w) in
  susThreshold data <= susCount data ->
  blacklistOk env = true ->
  Z.abs (clock env) + 240 * 60 * 1000 <= maxTime ->
  (clock later <= clock env + 30 * 60 * 1000 ->
   fst (isBlacklisted later (susIpAddress data) w1) = Returned true)
  /\ (clock env + 240 * 60 * 1000 < clock later ->
      fst (isBlacklisted later (susIpAddress data) w1) = Returned false).
Proof.
  intros w1 Hcount Hup Hrange.
  pose proof (durationOf_range (susActivity data)) as Hd.
  assert (Hentry : exists why,
             blacklistCache w1 !! susIpAddress data
             = Some (mkEntry why
                       (Some (Date (clock env + durationOf (susActivity data) * 60 * 1000))))).
  { unfold w1, handleSuspiciousActivity.
    destruct (Z.leb_spec (susThreshold data) (susCount data)); [|lia].
    unfold bind at 1.
    match goal with
    | |- context [addToBlacklist env ?r w] =>
        assert (Hadd : addToBlacklist env r w
                       = (Returned true,
                          setCache (fun c => <[reqIpAddress r :=
                                                 mkEntry (reqReason r)
                                                   (expiryOf env (reqDuration r))]> c)
                            (snd (upsert env r (expiryOf env (reqDuration r)) w))))
          by (run_admin2; rewrite Hup; reflexivity);
        rewrite Hadd
    end.
    cbn [reqIpAddress reqReason reqDuration].
    match goal with
    | |- context [logSecurityEvent env ?e ?w0] =>
        destruct (logSecurityEvent_world env e w0) as (f & -> & _)
    end.
    cbn [snd setSecurityLog setCache blacklistCache].
    rewrite lookup_insert_eq.
    rewrite expiryOf_positive by (unfold maxTime in *; lia).
    eexists. reflexivity. }
  destruct Hentry as (why & Hentry).
  rewrite !isBlacklisted_answer, Hentry. cbn [expiresAt expiredAt dateLt].
  split; intros Ht.
  - destruct (Z.ltb_spec (clock env + durationOf (susActivity data) * 60 * 1000) (clock later));
      [lia|reflexivity].
  - destruct (Z.ltb_spec (clock env + durationOf (susActivity data) * 60 * 1000) (clock later));
      [reflexivity|lia].
Qed.

(** X24: the success rate is a percentage.  Whenever [getAuditStats]
    returns, the rate is a number between 0 and 100 (never NaN or an
    infinity), and it is 100 when the window holds actions none of which
    failed. *)
Theorem getAuditStats_rate_is_percentage (env : Env) (days : Z) (w : World)
        (stats : AuditStats) :
  fst (getAuditStats env days w) = Returned stats ->
  exists q, successRate stats = Num q
            /\ (0 <= q)%Q /\ (q <= 100)%Q
            /\ (0 < totalActions stats -> failedActions stats = 0 -> (q == 100)%Q).
Proof.
  run_admin2. destruct (logsOk env); [|discriminate].
  cbn [fst]. intros [= <-]. cbn [totalActions failedActions successRate].
  set (failed := Z.of_nat (length (List.filter (fun r => _ && _) _))).
  set (total := Z.of_nat _).
  assert (Hle : 0 <= failed <= total).
  { subst total failed. split; [lia|]. apply inj_le. apply length_filter_and. }
  clearbody failed total.
  destruct (Z.ltb_spec 0 total) as [Hpos|Hzero].
  - unfold divide, times. destruct (Z.eqb_spec total 0); [lia|].
    eexists. split; [reflexivity|].
    destruct total as [|p|p]; try lia.
    unfold Qle, Qeq, Qdiv, Qmult, Qinv, inject_Z. cbn [Qnum Qden].
    repeat split; try intros _ ->; cbn; nia.
  - exists 0%Q. split; [reflexivity|]. repeat split; try (intros; lia); unfold Qle; cbn; lia.
Qed.

Lemma filter_filter_implies {A : Type} (p q : A -> bool) (l : list A) :
  (forall x, p x = true -> q x = true) ->
  List.filter p (List.filter q l) = List.filter p l.
Proof.
  intros Himp. induction l as [|x l IH]; [reflexivity|]. cbn [List.filter].
  destruct (q x) eqn:Hq.
  - cbn [List.filter]. rewrite IH. reflexivity.
  - rewrite IH. destruct (p x) eqn:Hp; [|reflexivity].
    rewrite (Himp x Hp) in Hq. discriminate.
Qed.

Lemma length_filter_split {A : Type} (p : A -> bool) (l : list A) :
  (length (List.filter p l) + length (List.filter (fun x => negb (p x)) l) = length l)%nat.
Proof.
  induction l as [|x l IH]; [reflexivity|]. cbn [List.filter].
  destruct (p x); cbn [negb length]; lia.
Qed.

(** X25: [cleanupOldLogs] deletes only what is older than 90 days.  When
    the store answers, the two tables keep, in their order, exactly the rows
    whose timestamp is not before the cutoff, the two counts returned are
    the numbers of rows deleted, and [getAuditStats] for any window that
    starts at or after the cutoff gives the same statistics as before the
    cleanup.  When the store does not answer the call throws and nothing is
    deleted. *)
Theorem cleanupOldLogs_keeps_recent (env : Env) (w : World) :
  let cutoffDate := daysAgo env 90 in
  (logsOk env = true ->
   exists result w1,
     cleanupOldLogs env w = (Returned result, w1)
     /\ auditLog w1 = List.filter (fun r => cutoffDate <=? auditTimestamp r) (auditLog w)
     /\ securityLog w1 = List.filter (fun r => cutoffDate <=? secTimestamp r) (securityLog w)
     /\ auditLogsDeleted result
        = Z.of_nat (length (auditLog w)) - Z.of_nat (length (auditLog w1))
     /\ securityLogsDeleted result
        = Z.of_nat (length (securityLog w)) - Z.of_nat (length (securityLog w1))
     /\ iPBlacklist w1 = iPBlacklist w
     /\ blacklistCache w1 = blacklistCache w
     /\ forall later days,
          cutoffDate <= daysAgo later days ->
          fst (getAuditStats later days w1) = fst (getAuditStats later days w))
  /\ (logsOk env = false -> cleanupOldLogs env w = (Threw, w)).
Proof.
  intros cutoffDate. split.
  - intros Hup. run_admin2. rewrite Hup. fold cutoffDate.
    eexists _, _. split; [reflexivity|].
    cbn [setAuditLog setSecurityLog auditLog securityLog iPBlacklist blacklistCache
         auditLogsDeleted securityLogsDeleted].
    assert (Hflip : forall t, negb (t <? cutoffDate) = (cutoffDate <=? t)).
    { intros t. destruct (Z.ltb_spec t cutoffDate), (Z.leb_spec cutoffDate t);
        reflexivity || lia. }
    assert (Haudit : List.filter (fun r => negb (auditTimestamp r <? cutoffDate)) (auditLog w)
                     = List.filter (fun r => cutoffDate <=? auditTimestamp r) (auditLog w)).
    { apply List.filter_ext. intros r. apply Hflip. }
    assert (Hsec : List.filter (fun r => negb (secTimestamp r <? cutoffDate)) (securityLog w)
                   = List.filter (fun r => cutoffDate <=? secTimestamp r) (securityLog w)).
    { apply List.filter_ext. intros r. apply Hflip. }
    pose proof (length_filter_split (fun r => auditTimestamp r <? cutoffDate) (auditLog w))
      as Hn1.
    pose proof (length_filter_split (fun r => secTimestamp r <? cutoffDate) (securityLog w))
      as Hn2.
    cbv beta in Hn1, Hn2. rewrite Haudit in *. rewrite Hsec in *.
    split; [reflexivity|]. split; [reflexivity|].
    split; [lia|]. split; [lia|]. split; [reflexivity|]. split; [reflexivity|].
    intros later days Hwindow. destruct (logsOk later); [|reflexivity].
    cbn [fst auditLog securityLog setAuditLog setSecurityLog]. rewrite Haudit, Hsec.
    rewrite !filter_filter_implies; [reflexivity|..].
    + intros r H. apply Z.leb_le in H. apply Z.leb_le. lia.
    + intros r H. apply andb_true_iff in H. destruct H as [H _].
      apply Z.leb_le in H. apply Z.leb_le. lia.
    + intros r H. apply Z.leb_le in H. apply Z.leb_le. lia.
  - intros Hdown. run_admin2. rewrite Hdown. reflexivity.
Qed.

Lemma mirrors_size (w : World) :
  mirrors w -> (size (blacklistCache w) <= size (iPBlacklist w))%nat.
Proof.
  intros Hm. rewrite <- !(size_dom (D := gset string)).
  apply subseteq_size. intros ip Hin.
  apply elem_of_dom in Hin. destruct Hin as [entry Hentry].
  destruct (Hm ip entry Hentry) as (row & Hrow & _).
  apply elem_of_dom. eauto.
Qed.

(** X26: the blacklist statistics add up.  When the store answers,
    [getBlacklistStats] returns statistics with [total = permanent +
    temporary] and [0 <= recent24h <= total], it changes nothing, and the
    cache size it reports is at most [total] as long as every cached entry
    has its row.  When the store does not answer it returns null. *)
Theorem getBlacklistStats_add_up (env : Env) (w : World) :
  (blacklistOk env = true ->
   exists stats,
     getBlacklistStats env w = (Returned (Some stats), w)
     /\ total stats = Z.of_nat (size (iPBlacklist w))
     /\ total stats = permanent stats + temporary stats
     /\ 0 <= recent24h stats <= total stats
     /\ (mirrors w -> cacheSize stats <= total stats))
  /\ (blacklistOk env = false -> getBlacklistStats env w = (Returned None, w)).
Proof.
  split.
  - intros Hup. run_admin2. rewrite Hup. eexists. split; [reflexivity|].
    cbn [total permanent temporary recent24h cacheSize].
    assert (Hall : filter (fun kv : string * BlacklistRow => true = true) (iPBlacklist w)
                   = iPBlacklist w).
    { apply map_filter_id. intros; reflexivity. }
    rewrite Hall. split; [reflexivity|]. split; [|split].
    + set (P := fun kv : string * BlacklistRow => isNull (rowExpiresAt kv.2) = true).
      assert (Hneg : filter (fun kv : string * BlacklistRow =>
                               negb (isNull (rowExpiresAt kv.2)) = true) (iPBlacklist w)
                     = filter (fun kv => ~ P kv) (iPBlacklist w)).
      { apply map_filter_ext. intros i x _. unfold P. cbn [snd].
        destruct (isNull (rowExpiresAt x)); cbn [negb]; split; intros H;
          try discriminate; try reflexivity; try (intros E; discriminate).
        exfalso. apply H. reflexivity. }
      rewrite Hneg. rewrite <- Nat2Z.inj_add. f_equal.
      rewrite <- map_size_disj_union by apply map_disjoint_filter_complement.
      rewrite map_filter_union_complement. reflexivity.
    + split; [lia|]. apply inj_le. apply map_size_filter.
    + intros Hm. apply inj_le. apply mirrors_size, Hm.
  - intros Hdown. run_admin2. rewrite Hdown. reflexivity.
Qed.

End BlacklistMore.

Lemma blacklist_cache_mirrors_table_witness :
  let env := AuditScenario.envAt AuditScenario.t0 true in
  let w1 := snd (Audit.addToBlacklist env AuditScenario.request AuditScenario.world0) in
  AuditAdmin.mirrors w1
  /\ AuditAdmin.mirrors (snd (AuditAdmin.cleanupExpiredEntries env w1))
  /\ AuditAdmin.mirrors (snd (Audit.removeFromBlacklist env AuditScenario.address w1)).
Proof.
  intros env w1.
  assert (H0 : AuditAdmin.mirrors AuditScenario.world0).
  { intros ip entry H. unfold AuditScenario.world0 in H. cbn [Audit.blacklistCache] in H.
    rewrite lookup_empty in H. discriminate. }
  assert (H1 : AuditAdmin.mirrors w1).
  { apply (blacklist_cache_mirrors_table env AuditScenario.world0 H0). }
  split; [exact H1|].
  destruct (blacklist_cache_mirrors_table env w1 H1) as (_ & Hremove & _ & _ & _ & Hclean).
  split; [exact Hclean|apply Hremove].
Defined.

Lemma initializeCache_loads_live_rows_witness :
  let env := AuditScenario.envAt AuditScenario.t0 true in
  let w1 := snd (AuditAdmin.initializeCache env TableScenario.coldWorld) in
  fst (Audit.isBlacklisted env "198.51.100.1" w1) = Returned true
  /\ fst (Audit.isBlacklisted env "198.51.100.2" w1) = Returned false
  /\ fst (Audit.isBlacklisted env "198.51.100.3" w1) = Returned true
  /\ AuditAdmin.initializeCache (AuditScenario.envAt AuditScenario.t0 false)
       TableScenario.world
     = (Returned tt, TableScenario.world).
Proof.
  intros env w1. unfold w1.
  destruct (initializeCache_loads_live_rows env TableScenario.coldWorld) as [Hup _].
  destruct (Hup eq_refl) as (_ & _ & _ & Hall).
  destruct (initializeCache_loads_live_rows (AuditScenario.envAt AuditScenario.t0 false)
              TableScenario.world) as [_ Hdown].
  split; [rewrite (Hall "198.51.100.1"%string); vm_compute; reflexivity|].
  split; [rewrite (Hall "198.51.100.2"%string); vm_compute; reflexivity|].
  split; [rewrite (Hall "198.51.100.3"%string); vm_compute; reflexivity|].
  apply Hdown. reflexivity.
Defined.

Lemma removeFromBlacklist_after_add_witness :
  let env := AuditScenario.envAt AuditScenario.t0 true in
  let later := AuditScenario.envAt (AuditScenario.t0 + 1000) true in
  let w1 := snd (Audit.addToBlacklist env AuditScenario.request AuditScenario.world0) in
  let w2 := snd (Audit.removeFromBlacklist later AuditScenario.address w1) in
  fst (Audit.addToBlacklist env AuditScenario.request AuditScenario.world0) = Returned true
  /\ fst (Audit.removeFromBlacklist later AuditScenario.address w1) = Returned true
  /\ Audit.iPBlacklist w2 !! AuditScenario.address = None
  /\ Audit.isBlacklisted later AuditScenario.address w2 = (Returned false, w2).
Proof.
  intros env later w1 w2.
  assert (Hadd : fst (Audit.addToBlacklist env AuditScenario.request AuditScenario.world0)
                 = Returned true) by (vm_compute; reflexivity).
  split; [exact Hadd|].
  destruct (removeFromBlacklist_after_add env later AuditScenario.request
              AuditScenario.world0 Hadd) as [Hup _].
  destruct (Hup eq_refl) as (Hremoved & Hrow & Hfree & _).
  split; [exact Hremoved|]. split; [exact Hrow|]. apply (Hfree later).
Defined.

Lemma cleanupExpiredEntries_transparent_witness :
  let env := AuditScenario.envAt AuditScenario.t0 true in
  let later := AuditScenario.envAt (AuditScenario.t0 + 120000) true in
  let w1 := snd (AuditAdmin.cleanupExpiredEntries env TableScenario.world) in
  fst (AuditAdmin.cleanupExpiredEntries env TableScenario.world) = Returned 1
  /\ fst (Audit.isBlacklisted later "198.51.100.3" w1)
     = fst (Audit.isBlacklisted later "198.51.100.3" TableScenario.world)
  /\ fst (Audit.isBlacklisted env "198.51.100.2" w1)
     = fst (Audit.isBlacklisted env "198.51.100.2" TableScenario.world).
Proof.
  intros env later w1. split; [vm_compute; reflexivity|].
  destruct (cleanupExpiredEntries_transparent env later TableScenario.world) as [Hlater _].
  destruct (cleanupExpiredEntries_transparent env env TableScenario.world) as [Hnow _].
  split.
  - apply Hlater. vm_compute. discriminate.
  - apply Hnow. vm_compute. discriminate.
Defined.

Lemma handleSuspiciousActivity_block_expires_witness :
  let env := AuditScenario.envAt AuditScenario.t0 true in
  let later := AuditScenario.envAt (AuditScenario.t0 + 240 * 60 * 1000 + 1) true in
  let w1 := snd (Audit.handleSuspiciousActivity env (AuditScenario.failedLogins 5)
                   AuditScenario.world0) in
  fst (Audit.isBlacklisted env AuditScenario.address w1) = Returned true
  /\ fst (Audit.isBlacklisted later AuditScenario.address w1) = Returned false.
Proof.
  intros env later w1.
  destruct (handleSuspiciousActivity_block_expires env env (AuditScenario.failedLogins 5)
              AuditScenario.world0) as [Hnow _];
    [vm_compute; discriminate|reflexivity|vm_compute; discriminate|].
  destruct (handleSuspiciousActivity_block_expires env later (AuditScenario.failedLogins 5)
              AuditScenario.world0) as [_ Hlater];
    [vm_compute; discriminate|reflexivity|vm_compute; discriminate|].
  split.
  - apply Hnow. vm_compute. discriminate.
  - apply Hlater. vm_compute. reflexivity.
Defined.

Lemma getAuditStats_rate_is_percentage_witness :
  let stats := Audit.mkStats 4 1 0 (Num (inject_Z 3 / inject_Z 4 * inject_Z 100)) in
  fst (Audit.getAuditStats (AuditScenario.envAt AuditScenario.t0 true) 30
         AuditScenario.world0) = Returned stats
  /\ exists q, Audit.successRate stats = Num q
               /\ (0 <= q)%Q /\ (q <= 100)%Q
               /\ (0 < Audit.totalActions stats -> Audit.failedActions stats = 0 ->
                   (q == 100)%Q).
Proof.
  intros stats.
  assert (Hrun : fst (Audit.getAuditStats (AuditScenario.envAt AuditScenario.t0 true) 30
                        AuditScenario.world0) = Returned stats) by reflexivity.
  split; [exact Hrun|].
  apply (getAuditStats_rate_is_percentage (AuditScenario.envAt AuditScenario.t0 true) 30
           AuditScenario.world0 stats Hrun).
Defined.

Lemma cleanupOldLogs_keeps_recent_witness :
  let env := AuditScenario.envAt AuditScenario.t0 true in
  exists result w1,
    AuditAdmin.cleanupOldLogs env TableScenario.logWorld = (Returned result, w1)
    /\ AuditAdmin.auditLogsDeleted result = 1
    /\ AuditAdmin.securityLogsDeleted result = 1
    /\ fst (Audit.getAuditStats env 30 w1)
       = fst (Audit.getAuditStats env 30 TableScenario.logWorld).
Proof.
  intros env.
  destruct (cleanupOldLogs_keeps_recent env TableScenario.logWorld) as [Hup _].
  destruct (Hup eq_refl) as (result & w1 & Hrun & Haudit & Hsec & Hn1 & Hn2 & _ & _ & Hstats).
  exists result, w1. split; [exact Hrun|].
  split; [rewrite Hn1, Haudit; vm_compute; reflexivity|].
  split; [rewrite Hn2, Hsec; vm_compute; reflexivity|].
  apply Hstats. vm_compute. discriminate.
Defined.

Lemma getBlacklistStats_add_up_witness :
  let env := AuditScenario.envAt AuditScenario.t0 true in
  exists stats,
    AuditAdmin.getBlacklistStats env TableScenario.world
    = (Returned (Some stats), TableScenario.world)
    /\ AuditAdmin.total stats = 3
    /\ AuditAdmin.total stats = AuditAdmin.permanent stats + AuditAdmin.temporary stats.
Proof.
  intros env.
  destruct (getBlacklistStats_add_up env TableScenario.world) as [Hup _].
  destruct (Hup eq_refl) as (stats & Hrun & Htotal & Hsum & _).
  exists stats. split; [exact Hrun|]. split; [|exact Hsum].
  rewrite Htotal. vm_compute. reflexivity.
Defined.

(** ** The blacklist middleware *)

Section MiddlewareFacts.

Import Audit AuditAdmin Middleware.

Ltac run_mw :=
  cbv beta iota zeta delta
    [checkIPBlacklist trackSuspiciousActivity loginSend
     isBlacklisted getBlacklistReason logSecurityEvent createSecurityLog
     tryCatch bind modify gets throw ret lift].

(** X27: [checkIPBlacklist] answers 403 exactly when [isBlacklisted] says
    so.  For a request whose client address is not the word unknown: if the
    cache holds an entry for the address that has not expired, the reply is
    403 with the stored reason (or the text IP blacklisted when the reason
    is empty), the blacklist is untouched and, if the store takes it, one
    MEDIUM event UNAUTHORIZED_ACCESS for that address is appended to the
    security log; otherwise the middleware calls [next()] with the address
    and the world is what [isBlacklisted] left. *)
Theorem checkIPBlacklist_blocks_listed (env : Env) (req : Request) (w : World) :
  let clientIP := getClientIP req in
  clientIP <> "unknown"%string ->
  (forall entry,
     blacklistCache w !! clientIP = Some entry ->
     expiredAt (clock env) (expiresAt entry) = false ->
     let why := orElse (Some (reason entry)) "IP blacklisted" in
     exists w1,
       checkIPBlacklist env req w
       = (Returned (Json 403
                      [("error", "Access denied");
                       ("message", "Your IP address has been blocked due to suspicious activity");
                       ("reason", why)]), w1)
       /\ iPBlacklist w1 = iPBlacklist w
       /\ blacklistCache w1 = blacklistCache w
       /\ auditLog w1 = auditLog w
       /\ securityLog w1
          = if logsOk env
            then securityLog w
                   ++ [mkSecurityRow None "UNAUTHORIZED_ACCESS"
                         (Some ([("reason", why)]
                                  ++ property "userAgent" (userAgent req)
                                  ++ [("path", path req); ("method", method req)]))
                         (Some clientIP) None MEDIUM (clock env)]
            else securityLog w)
  /\ (fst (isBlacklisted env clientIP w) = Returned false ->
      checkIPBlacklist env req w
      = (Returned (Next clientIP), snd (isBlacklisted env clientIP w))).
Proof.
  intros clientIP Hknown.
  assert (Hne : String.eqb clientIP "unknown" = false).
  { apply String.eqb_neq. exact Hknown. }
  split.
  - intros entry Hentry Hlive why. unfold checkIPBlacklist. fold clientIP. rewrite Hne.
    run_mw. rewrite Hentry. unfold expiredAt in Hlive.
    destruct (expiresAt entry) as [expiry|] eqn:Hexp.
    + rewrite Hlive. rewrite Hentry. cbn [fmap option_fmap option_map]. fold why.
      destruct (logsOk env); eexists; (split; [reflexivity|]);
        repeat split; reflexivity.
    + rewrite Hentry. cbn [fmap option_fmap option_map]. fold why.
      destruct (logsOk env); eexists; (split; [reflexivity|]);
        repeat split; reflexivity.
  - unfold checkIPBlacklist. fold clientIP. rewrite Hne. unfold bind at 1.
    destruct (isBlacklisted env clientIP w) as [[blocked|] w1]; cbn [fst snd];
      intros [= ->]. reflexivity.
Qed.




Lemma allChars_app (p : ascii -> bool) (a b : string) :
  TotpAux.allChars p a = true -> TotpAux.allChars p b = true ->
  TotpAux.allChars p (a ++ b) = true.
Proof.
  induction a as [|c a IH]; intros Ha Hb; [exact Hb|].
  cbn [TotpAux.allChars] in Ha. apply andb_true_iff in Ha. destruct Ha as [Hc Ha].
  rewrite append_cons. cbn [TotpAux.allChars]. rewrite Hc, (IH Ha Hb). reflexivity.
Qed.









(** X29: the tracking middleware never blacklists.  It reports every
    failed login and every rate-limit violation with a count of 1 against
    thresholds of 5 and 3, so neither [trackSuspiciousActivity] itself nor
    the code it puts in front of [res.send] changes the blacklist, the cache
    or the logs, whatever the request and the status codes are. *)
Theorem trackSuspiciousActivity_never_blacklists (env : Env) (req : Request)
        (statusCode : Z) (w : World) :
  exists installed,
    trackSuspiciousActivity env req statusCode w = (Returned installed, w)
    /\ forall send statusAtSend w',
         installed = Some send -> send statusAtSend w' = (Returned tt, w').
Proof.
  unfold trackSuspiciousActivity. eexists. split.
  - unfold bind, ret. destruct (statusCode =? 429); reflexivity.
  - intros send statusAtSend w' Hsend.
    destruct (includes "/auth/login" (path req) && String.eqb (method req) "POST");
      [|discriminate].
    injection Hsend as <-. unfold loginSend.
    destruct ((statusAtSend =? 401) || (statusAtSend =? 400)); reflexivity.
Qed.

End MiddlewareFacts.

Lemma checkIPBlacklist_blocks_listed_witness :
  let env := AuditScenario.envAt (AuditScenario.t0 + 1000) true in
  exists w1,
    Middleware.checkIPBlacklist env MiddlewareScenario.direct MiddlewareScenario.blockedWorld
    = (Returned (Middleware.Json 403
                   [("error", "Access denied");
                    ("message", "Your IP address has been blocked due to suspicious activity");
                    ("reason", "manual block")])%string, w1)
    /\ Audit.blacklistCache w1 = Audit.blacklistCache MiddlewareScenario.blockedWorld
    /\ length (Audit.securityLog w1) = 1%nat.
Proof.
  intros env.
  destruct (checkIPBlacklist_blocks_listed env MiddlewareScenario.direct
              MiddlewareScenario.blockedWorld) as [Hblocked _];
    [vm_compute; discriminate|].
  destruct (Hblocked (Audit.mkEntry "manual block"
                        (Some (Date (AuditScenario.t0 + 10 * 60 * 1000)))))
    as (w1 & Hrun & _ & Hcache & _ & Hlog);
    [vm_compute; reflexivity|vm_compute; reflexivity|].
  exists w1. split; [exact Hrun|]. split; [exact Hcache|].
  rewrite Hlog. reflexivity.
Defined.


(** ** PasswordUtils *)

Section PasswordFacts.

Import PasswordUtils.

(** X30: a password is valid when it meets any three of the five
    requirements.  The score is the number of requirements met, capped at
    4; the password is valid exactly when at most two suggestions are
    given, which is also exactly when there is no warning; so the minimum
    length is not enforced: a password shorter than 8 characters with an
    uppercase letter, a lowercase letter and a digit is valid. *)
Theorem validatePasswordStrength_three_of_five (password : string) :
  let result := validatePasswordStrength password in
  let met := (5 - Z.of_nat (length (suggestions result))) in
  score result = Z.min met 4
  /\ (isValid result = true <-> 3 <= met)
  /\ (warning result = None <-> isValid result = true)
  /\ ((String.length password < 8)%nat ->
      hasUppercase (requirements result) = true ->
      hasLowercase (requirements result) = true ->
      hasNumber (requirements result) = true ->
      minLength (requirements result) = false /\ isValid result = true).
Proof.
  unfold validatePasswordStrength.
  cbn [score warning suggestions isValid requirements values
       minLength hasUppercase hasLowercase hasNumber hasSpecialChar].
  destruct (Nat.leb_spec 8 (String.length password)) as [Hlen|Hlen];
    destruct (someChar (inRange 65 90) password);
    destruct (someChar (inRange 97 122) password);
    destruct (someChar (inRange 48 57) password);
    destruct (someChar isSpecialChar password);
    cbn [List.filter id length unless app];
    (split; [reflexivity|]);
    (split; [split; [intros H; try discriminate H; vm_compute; discriminate
                    |intros H; try reflexivity; exfalso; vm_compute in H; apply H; reflexivity]|]);
    (split; [split; intros H; try discriminate H; reflexivity|]);
    intros Hshort Hu Hl Hn; try discriminate; try lia; split; reflexivity.
Qed.

End PasswordFacts.

Lemma validatePasswordStrength_three_of_five_witness :
  (String.length "Ab1" < 8)%nat
  /\ PasswordUtils.isValid (PasswordUtils.validatePasswordStrength "Ab1") = true
  /\ PasswordUtils.score (PasswordUtils.validatePasswordStrength "Ab1") = 3.
Proof.
  destruct (validatePasswordStrength_three_of_five "Ab1") as (Hscore & _ & _ & Hshort).
  assert (Hlen : (String.length "Ab1" < 8)%nat) by (vm_compute; lia).
  split; [exact Hlen|].
  destruct (Hshort Hlen eq_refl eq_refl eq_refl) as [_ Hvalid].
  split; [exact Hvalid|]. rewrite Hscore. reflexivity.
Defined.
